(** * A shallow embedding of the blog application (main.py, forms.py)

    The request handlers of [main.py] are embedded as computations in a
    small state-and-exception monad over the persistent world of the
    application: the three tables of the database, the login cookie and the
    queue of flashed messages.  Framework calls (Flask, Flask-Login,
    Flask-SQLAlchemy, WTForms) are given the meaning their documentation
    gives them; the names of the source are kept wherever possible. *)

From Stdlib Require Import ZArith List String Ascii Bool Lia.
From Stdlib Require Import Permutation Sorted.
Import ListNotations.

Local Open Scope string_scope.
Local Open Scope Z_scope.

(* ================================================================== *)
(** * Python values used by the handlers *)
(* ================================================================== *)

(** Python [str] values are modelled by [string]; a character is a code
    point below 256. *)
Module Py.

(** [str.isspace] on one character (code points below 256). *)
Definition isspace (c : ascii) : bool :=
  let n := Z.of_N (N_of_ascii c) in
  ((9 <=? n) && (n <=? 13)) || ((28 <=? n) && (n <=? 32))
  || (n =? 133) || (n =? 160).

(** [s.strip() == ""]: the string holds whitespace only. *)
Definition blank (s : string) : bool :=
  forallb isspace (list_ascii_of_string s).

(** The whitespace [int] skips at both ends of its argument.  [int] first
    turns the spaces above code point 126 (U+0085, U+00A0) into [" "] and
    then skips the ASCII whitespace of C, which is tab to carriage return
    and the space: the separators U+001C to U+001F, which [str.isspace]
    accepts, are left in place and make the literal invalid. *)
Definition int_space (c : ascii) : bool :=
  let n := Z.of_N (N_of_ascii c) in
  ((9 <=? n) && (n <=? 13)) || (n =? 32) || (n =? 133) || (n =? 160).

(** The argument of [int] without that whitespace at its ends. *)
Fixpoint lstrip (l : list ascii) : list ascii :=
  match l with
  | c :: l' => if int_space c then lstrip l' else l
  | [] => []
  end.

Definition strip (l : list ascii) : list ascii :=
  rev (lstrip (rev (lstrip l))).

Definition isdigit (c : ascii) : bool :=
  let n := Z.of_N (N_of_ascii c) in (48 <=? n) && (n <=? 57).

Definition digit_value (c : ascii) : Z := Z.of_N (N_of_ascii c) - 48.

(** The digits of a decimal literal; a single underscore may separate two
    digits.  [seen] tells whether the previous character was a digit. *)
Fixpoint digits (acc : Z) (seen : bool) (l : list ascii) : option Z :=
  match l with
  | [] => if seen then Some acc else None
  | c :: l' =>
      if isdigit c then digits (10 * acc + digit_value c) true l'
      else if (Ascii.eqb c "_") && seen then digits acc false l'
      else None
  end.

(** [int(s)]: [None] stands for [ValueError]. *)
Definition int (s : string) : option Z :=
  match strip (list_ascii_of_string s) with
  | c :: l =>
      if Ascii.eqb c "-" then option_map Z.opp (digits 0 false l)
      else if Ascii.eqb c "+" then digits 0 false l
      else digits 0 false (c :: l)
  | [] => None
  end.

(** [datetime] values, to the minute (the handlers format no finer). *)
Record datetime : Type := mk_datetime
  { year : Z; month : Z; day : Z; hour : Z; minute : Z }.

(** Chronological order on [datetime] values. *)
Definition datetime_ltb (a b : datetime) : bool :=
  match year a ?= year b with
  | Lt => true | Gt => false
  | Eq =>
    match month a ?= month b with
    | Lt => true | Gt => false
    | Eq =>
      match day a ?= day b with
      | Lt => true | Gt => false
      | Eq =>
        match hour a ?= hour b with
        | Lt => true | Gt => false
        | Eq => minute a <? minute b
        end
      end
    end
  end.

Definition digit_char (d : Z) : ascii := ascii_of_N (Z.to_N (48 + d)).

(** [%H], [%M], [%d]: two decimal digits, zero padded. *)
Definition two_digits (n : Z) : string :=
  String (digit_char (n / 10)) (String (digit_char (n mod 10)) "").

(** [%Y]: the year with century, four digits. *)
Definition four_digits (n : Z) : string :=
  two_digits (n / 100) ++ two_digits (n mod 100).

(** [%p] in the C locale. *)
Definition am_pm (h : Z) : string := if h <? 12 then "AM" else "PM".

(** [%B] in the C locale. *)
Definition month_name (m : Z) : string :=
  nth (Z.to_nat (m - 1))
      ["January"; "February"; "March"; "April"; "May"; "June"; "July";
       "August"; "September"; "October"; "November"; "December"] "".

(** [dt.strftime("%H:%M%p %d %B, %Y")], the one format of [main.py]. *)
Definition strftime (dt : datetime) : string :=
  two_digits (hour dt) ++ ":" ++ two_digits (minute dt) ++ am_pm (hour dt)
  ++ " " ++ two_digits (day dt) ++ " " ++ month_name (month dt)
  ++ ", " ++ four_digits (year dt).

End Py.

(* ================================================================== *)
(** * CONFIGURE TABLES: the three models of [main.py] *)
(* ================================================================== *)

Module User.
Record t : Type := mk
  { id : Z; username : string; email : string; password : string }.
End User.

Module BlogPost.
Record t : Type := mk
  { id : Z;
    author_id : Z;
    title : string;
    subtitle : string;
    date : string;
    body : string;
    img_url : string }.
End BlogPost.

(** [post_id] is a nullable foreign key: [show_post] stores no parent when
    the requested post does not exist, and deleting a post that still has
    comments leaves them without one. *)
Module Comment.
Record t : Type := mk
  { id : Z;
    post_id : option Z;
    author_id : Z;
    text : string;
    date : string }.
End Comment.

(** The database: the rows of each table, in primary-key (insertion)
    order. *)
Record Database : Type := mk_db
  { users : list User.t;
    blog_posts : list BlogPost.t;
    comments : list Comment.t }.

(** What persists between requests: the committed database, the signed
    session cookie (the logged-in user id and the pending flashes), and, as
    a ghost record of the effects, the snapshot left by each
    [db.session.commit()]. *)
Record World : Type := mk_world
  { db : Database;
    session_user_id : option Z;
    flashes : list string;
    commits : list Database }.

Inductive Method : Type := GET | HEAD | POST.

(** One request as a view function sees it: the method, the query string,
    the form fields, whether the CSRF token of the form is valid, and the
    two readings of the environment the handlers take (clock, salt). *)
Record Request : Type := mk_request
  { method : Method;
    args : list (string * string);
    form : list (string * string);
    csrf_token_valid : bool;
    now : Py.datetime;
    salt : string }.

(* ================================================================== *)
(** * The monad of view functions *)
(* ================================================================== *)

(** Python exceptions the handlers can raise.  [HTTPException] is what
    [abort(code)] raises. *)
Inductive Exn : Type :=
| HTTPException (code : Z)
| AttributeError
| UnmappedInstanceError
| IntegrityError.

Inductive Outcome (A : Type) : Type :=
| Return (a : A)
| Raise (e : Exn).
Arguments Return {A} a.
Arguments Raise {A} e.

(** The state of one request: the world, the working copy of the database
    held by [db.session] (queries see pending changes, as with autoflush),
    and whether the pending changes break a UNIQUE constraint, which the
    next flush reports. *)
Record Heap : Type := mk_heap
  { world : World;
    txn : Database;
    txn_broken : bool }.

Definition M (A : Type) : Type := Request -> Heap -> Outcome A * Heap.

Definition ret {A} (a : A) : M A := fun _ h => (Return a, h).

Definition bind {A B} (c : M A) (k : A -> M B) : M B :=
  fun req h =>
    match c req h with
    | (Return a, h') => k a req h'
    | (Raise e, h') => (Raise e, h')
    end.

Definition raise {A} (e : Exn) : M A := fun _ h => (Raise e, h).

Declare Scope view_scope.
Delimit Scope view_scope with view.
Notation "x <- c ;; k" := (bind c (fun x => k))
  (at level 61, c at next level, right associativity) : view_scope.
Notation "' pat <- c ;; k" := (bind c (fun x => match x with pat => k end))
  (at level 61, pat pattern, c at next level, right associativity) : view_scope.
Notation "c ;; k" := (bind c (fun _ => k))
  (at level 61, right associativity) : view_scope.
Local Open Scope view_scope.

(** [abort(code)] *)
Definition abort {A} (code : Z) : M A := raise (HTTPException code).

(** The [request] proxy. *)
Definition request : M Request := fun req h => (Return req, h).

Definition get_world : M World := fun _ h => (Return (world h), h).

Definition set_world (f : World -> World) : M unit :=
  fun _ h => (Return tt, mk_heap (f (world h)) (txn h) (txn_broken h)).

(** [flash(message)] *)
Definition flash (message : string) : M unit :=
  set_world (fun w =>
    mk_world (db w) (session_user_id w) (flashes w ++ [message])%list
             (commits w)).

(** [for x in l: body(x)] *)
Fixpoint for_each {A} (l : list A) (body : A -> M unit) : M unit :=
  match l with
  | [] => ret tt
  | x :: l' => body x ;; for_each l' body
  end.

(* ================================================================== *)
(** * Flask-SQLAlchemy *)
(* ================================================================== *)

(** Running a query against the session. *)
Definition query {A} (q : Database -> A) : M A :=
  fun _ h => (Return (q (txn h)), h).

(** [Model.query.get(ident)] *)
Definition get {R} (id : R -> Z) (table : list R) (ident : Z) : option R :=
  find (fun r => id r =? ident) table.

(** [.first()] *)
Definition first {R} (rows : list R) : option R := hd_error rows.

(** [.order_by(column.desc())] on a string column: rows with the greater
    string come first; rows with equal strings keep their table order. *)
Fixpoint insert_desc {R} (key : R -> string) (r : R) (l : list R) : list R :=
  match l with
  | [] => [r]
  | x :: l' =>
      if String.ltb (key r) (key x) then x :: insert_desc key r l'
      else r :: l
  end.

Definition order_by_desc {R} (key : R -> string) (rows : list R) : list R :=
  fold_right (insert_desc key) [] rows.

(** The [Pagination] object handed to the template. *)
Record Pagination (R : Type) : Type := mk_pagination
  { items : list R; page : Z; per_page : Z; total : Z }.
Arguments mk_pagination {R}.
Arguments items {R}.
Arguments page {R}.
Arguments per_page {R}.
Arguments total {R}.

(** [query.paginate(page=page, per_page=per_page)]: a page below 1, or an
    empty page other than the first, is a 404. *)
Definition paginate {R} (q : Database -> list R) (page per_page : Z)
  : M (Pagination R) :=
  if page <? 1 then abort 404
  else
    rows <- query q ;;
    let items :=
      firstn (Z.to_nat per_page)
             (skipn (Z.to_nat ((page - 1) * per_page)) rows) in
    match items with
    | [] => if negb (page =? 1) then abort 404
            else ret (mk_pagination items page per_page
                                    (Z.of_nat (List.length rows)))
    | _ => ret (mk_pagination items page per_page (Z.of_nat (List.length rows)))
    end.

(** The primary key given to a new row: one more than the greatest in use. *)
Definition next_id (ids : list Z) : Z := fold_right Z.max 0 ids + 1.

Definition set_txn (f : Database -> Database) (breaks : Database -> bool)
  : M unit :=
  fun _ h =>
    (Return tt,
     mk_heap (world h) (f (txn h)) (txn_broken h || breaks (txn h))).

(** [db.session.add(new_user)]: the row is returned with the primary key
    it gets; [users.email] is UNIQUE. *)
Definition session_add_user (u : User.t) : M User.t :=
  d <- query (fun d => d) ;;
  let u' := User.mk (next_id (map User.id (users d))) (User.username u)
                    (User.email u) (User.password u) in
  set_txn (fun d => mk_db (users d ++ [u'])%list (blog_posts d) (comments d))
          (fun d => existsb (fun x => User.email x =? User.email u)%string
                            (users d)) ;;
  ret u'.

(** [db.session.add(new_post)]; [blog_posts.title] is UNIQUE. *)
Definition session_add_post (p : BlogPost.t) : M BlogPost.t :=
  d <- query (fun d => d) ;;
  let p' := BlogPost.mk (next_id (map BlogPost.id (blog_posts d)))
                        (BlogPost.author_id p) (BlogPost.title p)
                        (BlogPost.subtitle p) (BlogPost.date p)
                        (BlogPost.body p) (BlogPost.img_url p) in
  set_txn (fun d => mk_db (users d) (blog_posts d ++ [p'])%list (comments d))
          (fun d => existsb
                      (fun x => BlogPost.title x =? BlogPost.title p)%string
                      (blog_posts d)) ;;
  ret p'.

(** [db.session.add(new_comment)] *)
Definition session_add_comment (c : Comment.t) : M Comment.t :=
  d <- query (fun d => d) ;;
  let c' := Comment.mk (next_id (map Comment.id (comments d)))
                       (Comment.post_id c) (Comment.author_id c)
                       (Comment.text c) (Comment.date c) in
  set_txn (fun d => mk_db (users d) (blog_posts d) (comments d ++ [c'])%list)
          (fun _ => false) ;;
  ret c'.

(** Assignments to the attributes of a loaded post: the row with its
    primary key is rewritten at the next flush. *)
Definition session_update_post (p : BlogPost.t) : M unit :=
  set_txn
    (fun d =>
       mk_db (users d)
             (map (fun x => if BlogPost.id x =? BlogPost.id p then p else x)
                  (blog_posts d))
             (comments d))
    (fun d =>
       existsb (fun x => negb (BlogPost.id x =? BlogPost.id p)
                         && (BlogPost.title x =? BlogPost.title p)%string)
               (blog_posts d)).

(** [db.session.delete(comment)]; [None] is not a mapped instance. *)
Definition session_delete_comment (c : option Comment.t) : M unit :=
  match c with
  | None => raise UnmappedInstanceError
  | Some c =>
      set_txn
        (fun d =>
           mk_db (users d) (blog_posts d)
                 (filter (fun x => negb (Comment.id x =? Comment.id c))
                         (comments d)))
        (fun _ => false)
  end.

(** The parent reference of a comment of a deleted post is set to NULL
    (the [comments] relationship has no delete cascade). *)
Definition orphan (post_id : Z) (c : Comment.t) : Comment.t :=
  match Comment.post_id c with
  | Some k =>
      if k =? post_id
      then Comment.mk (Comment.id c) None (Comment.author_id c)
                      (Comment.text c) (Comment.date c)
      else c
  | None => c
  end.

(** [db.session.delete(post)] *)
Definition session_delete_post (p : option BlogPost.t) : M unit :=
  match p with
  | None => raise UnmappedInstanceError
  | Some p =>
      set_txn
        (fun d =>
           mk_db (users d)
                 (filter (fun x => negb (BlogPost.id x =? BlogPost.id p))
                         (blog_posts d))
                 (map (orphan (BlogPost.id p)) (comments d)))
        (fun _ => false)
  end.

(** [db.session.commit()]: the pending changes become the database, unless
    they break a constraint, in which case the flush raises and they are
    rolled back. *)
Definition commit : M unit :=
  fun _ h =>
    if txn_broken h
    then (Raise IntegrityError, mk_heap (world h) (db (world h)) false)
    else
      let w := world h in
      (Return tt,
       mk_heap (mk_world (txn h) (session_user_id w) (flashes w)
                         (commits w ++ [txn h])%list)
               (txn h) false).

(* ================================================================== *)
(** * Flask-Login *)
(* ================================================================== *)

(** The [current_user] proxy: the anonymous user, or a row of [users]. *)
Inductive CurrentUser : Type :=
| AnonymousUser
| LoggedIn (u : User.t).

Definition is_authenticated (cu : CurrentUser) : bool :=
  match cu with
  | LoggedIn _ => true
  | AnonymousUser => false
  end.

(** [current_user.id]; the anonymous user has no such attribute. *)
Definition attr_id (cu : CurrentUser) : M Z :=
  match cu with
  | LoggedIn u => ret (User.id u)
  | AnonymousUser => raise AttributeError
  end.

(** [load_user], the [user_loader] callback. *)
Definition load_user (user_id : Z) : M (option User.t) :=
  query (fun d => get User.id (users d) user_id).

(** [current_user] is loaded from the id kept in the session; an id that
    [load_user] does not find gives the anonymous user. *)
Definition current_user : M CurrentUser :=
  w <- get_world ;;
  match session_user_id w with
  | None => ret AnonymousUser
  | Some user_id =>
      u <- load_user user_id ;;
      match u with
      | Some u => ret (LoggedIn u)
      | None => ret AnonymousUser
      end
  end.

(** [login_user(user)] *)
Definition login_user (user : User.t) : M unit :=
  set_world (fun w =>
    mk_world (db w) (Some (User.id user)) (flashes w) (commits w)).

(** [logout_user()] *)
Definition logout_user : M unit :=
  set_world (fun w => mk_world (db w) None (flashes w) (commits w)).

(* ================================================================== *)
(** * Responses *)
(* ================================================================== *)

(** The targets of [url_for] in [main.py]. *)
Inductive Endpoint : Type :=
| url_get_all_posts (post : option Z)
| url_login
| url_show_post (post_id : Z).

(** A form instance: the data of its fields and the names of the fields
    that failed validation. *)
Record Form : Type := mk_form
  { data : list (string * option string);
    errors : list string }.

(** The templates with the context [main.py] passes to them
    ([current_user] is in every template context and is left out). *)
Inductive Template : Type :=
| index_html (all_posts : Pagination BlogPost.t)
| register_html (form : Form)
| login_html (form : Form)
| post_html (post : option BlogPost.t) (form : Form)
| make_post_html (form : Form).

(** What the client receives: a rendered page, a redirect, the error page
    of an [abort], or the server fault of an exception nothing handles. *)
Inductive Response : Type :=
| render_template (t : Template)
| redirect (e : Endpoint)
| http_error (code : Z)
| server_fault (e : Exn).

(** Flask runs one view function for one request: the session of the
    request starts from the committed database, whatever it has not
    committed is dropped at the end, and an exception becomes an error
    response. *)
Definition handle (view : M Response) (req : Request) (w : World)
  : World * Response :=
  match view req (mk_heap w (db w) false) with
  | (Return r, h) => (world h, r)
  | (Raise (HTTPException code), h) => (world h, http_error code)
  | (Raise e, h) => (world h, server_fault e)
  end.

(* ================================================================== *)
(** * WTForms and [forms.py] *)
(* ================================================================== *)

Inductive ValidationResult : Type := Passed | ValidationError | StopValidation.

(** A validator is called on the data of a field. *)
Definition Validator : Type := option string -> ValidationResult.

(** [DataRequired()]: the data must be truthy and, being a string, must
    not consist of whitespace only; failure stops the chain. *)
Definition DataRequired : Validator :=
  fun data =>
    match data with
    | Some s => if Py.blank s then StopValidation else Passed
    | None => StopValidation
    end.

Record Field : Type := mk_field
  { name : string; validators : list Validator }.

Definition StringField (name : string) (validators : list Validator) : Field :=
  mk_field name validators.
Definition PasswordField (name : string) (validators : list Validator) : Field :=
  mk_field name validators.
Definition CKEditorField (name : string) (validators : list Validator) : Field :=
  mk_field name validators.
Definition SubmitField (name : string) : Field := mk_field name [].

Definition RegisterUserForm : list Field :=
  [ StringField "username" [DataRequired];
    StringField "email" [DataRequired];
    PasswordField "password" [DataRequired];
    SubmitField "register" ].

Definition LoginUserForm : list Field :=
  [ StringField "email" [DataRequired];
    PasswordField "password" [DataRequired];
    SubmitField "login" ].

Definition CommentForm : list Field :=
  [ CKEditorField "comment_field" [DataRequired];
    SubmitField "post_comment" ].

(** The first value stored under a key ([MultiDict.get]). *)
Fixpoint lookup {V} (key : string) (l : list (string * V)) : option V :=
  match l with
  | [] => None
  | (k, v) :: l' => if (k =? key)%string then Some v else lookup key l'
  end.

(** [request.args.get(key, default, type=int)] *)
Definition args_get_int (key : string) (default : Z) : M Z :=
  req <- request ;;
  match lookup key (args req) with
  | Some v =>
      match Py.int v with
      | Some n => ret n
      | None => ret default
      end
  | None => ret default
  end.

(** [request.form[key]]; a missing key is a 400. *)
Definition form_item (key : string) : M string :=
  req <- request ;;
  match lookup key (form req) with
  | Some v => ret v
  | None => abort 400
  end.

(** [form.is_submitted()] *)
Definition is_submitted (req : Request) : bool :=
  match method req with
  | POST => true
  | _ => false
  end.

(** Instantiating a form class, [kwargs] giving initial data: a submitted
    value wins; a field the submission leaves out keeps its initial data,
    or the empty string. *)
Definition make_form (cls : list Field) (kwargs : list (string * string))
  : M Form :=
  req <- request ;;
  let value (f : Field) : option string :=
    match (if is_submitted req then lookup (name f) (form req) else None) with
    | Some v => Some v
    | None =>
        match lookup (name f) kwargs with
        | Some v => Some v
        | None => if is_submitted req then Some "" else None
        end
    end in
  ret (mk_form (map (fun f => (name f, value f)) cls) []).

(** [field.data] *)
Definition field_data (form : Form) (name : string) : option string :=
  match lookup name (data form) with
  | Some d => d
  | None => None
  end.

(** The validation chain of one field. *)
Fixpoint run_validation_chain (vs : list Validator) (d : option string)
  : bool :=
  match vs with
  | [] => true
  | v :: vs' =>
      match v d with
      | Passed => run_validation_chain vs' d
      | ValidationError => false
      | StopValidation => false
      end
  end.

(** [form.validate_on_submit()]: the request is a submission, its CSRF
    token is valid and every field passes its validators.  The form comes
    back with the errors found. *)
Definition validate_on_submit (cls : list Field) (form : Form)
  : M (bool * Form) :=
  req <- request ;;
  if is_submitted req then
    let failed :=
      filter (fun f => negb (run_validation_chain (validators f)
                                                  (field_data form (name f))))
             cls in
    let errs :=
      ((if csrf_token_valid req then [] else ["csrf_token"])
         ++ map name failed)%list in
    match errs with
    | [] => ret (true, mk_form (data form) errs)
    | _ => ret (false, mk_form (data form) errs)
    end
  else ret (false, form).

(** Assignment to [form.<name>.data]. *)
Definition set_field_data (form : Form) (name value : string) : Form :=
  mk_form (map (fun kv => if (fst kv =? name)%string
                          then (fst kv, Some value) else kv)
               (data form))
          (errors form).

Definition data_or_empty (d : option string) : string :=
  match d with
  | Some s => s
  | None => ""
  end.

(* ================================================================== *)
(** * [main.py]: decorators and view functions *)
(* ================================================================== *)

(** [admin_only]: the decorator of the admin routes.  The [or] of the
    source is evaluated left to right, so [current_user.id] is read only
    for an authenticated user. *)
Definition admin_only {A} (f : A -> M Response) : A -> M Response :=
  fun a =>
    cu <- current_user ;;
    if negb (is_authenticated cu) then abort 403
    else
      id <- attr_id cu ;;
      if negb (id =? 1) then abort 403
      else f a.

(** [login_required] of Flask-Login; no [login_view] is configured, so an
    unauthenticated request is answered with 401. *)
Definition login_required {A} (f : A -> M Response) : A -> M Response :=
  fun a =>
    cu <- current_user ;;
    if negb (is_authenticated cu) then abort 401
    else f a.

(** [get_all_posts], route [/]. *)
Definition get_all_posts : M Response :=
  page <- args_get_int "page" 1 ;;
  posts <- paginate (fun d => order_by_desc BlogPost.date (blog_posts d))
                    page 5 ;;
  ret (render_template (index_html posts)).

(** [logout], route [/logout]. *)
Definition logout : M Response :=
  logout_user ;;
  ret (redirect (url_get_all_posts None)).

(** The first two statements of [show_post]: the requested post and the
    local [comments]. *)
Definition show_post_queries (post_id : Z)
  : M (option BlogPost.t * list Comment.t) :=
  requested_post <- query (fun d => get BlogPost.id (blog_posts d) post_id) ;;
  comments <- query (fun d => order_by_desc Comment.date (comments d)) ;;
  ret (requested_post, comments).

(** [show_post], route [/post/<int:post_id>]. *)
Definition show_post (post_id : Z) : M Response :=
  '(requested_post, comments) <- show_post_queries post_id ;;
  comment_form <- make_form CommentForm [] ;;
  '(valid, comment_form) <- validate_on_submit CommentForm comment_form ;;
  if valid then
    cu <- current_user ;;
    if negb (is_authenticated cu) then
      flash "Please login or register to post comments." ;;
      ret (redirect url_login)
    else
      author <- attr_id cu ;;
      req <- request ;;
      let new_comment :=
        Comment.mk 0 (option_map BlogPost.id requested_post) author
                   (data_or_empty (field_data comment_form "comment_field"))
                   (Py.strftime (now req)) in
      _ <- session_add_comment new_comment ;;
      commit ;;
      let comment_form := set_field_data comment_form "comment_field" "" in
      ret (render_template (post_html requested_post comment_form))
  else
    ret (render_template (post_html requested_post comment_form)).

(** The criterion of [filter_by(post_id=post_id)]; a NULL parent matches
    no id. *)
Definition has_post_id (post_id : Z) (c : Comment.t) : bool :=
  match Comment.post_id c with
  | Some k => k =? post_id
  | None => false
  end.

(** The body of [delete_all_comments]. *)
Definition delete_all_comments_body (post_id : Z) : M Response :=
  comments_to_delete <-
    query (fun d => filter (has_post_id post_id) (comments d)) ;;
  for_each comments_to_delete
           (fun comment => session_delete_comment (Some comment) ;; commit) ;;
  ret (redirect (url_get_all_posts (Some post_id))).

(** [delete_all_comments], route [/delete-comments/<int:post_id>]. *)
Definition delete_all_comments : Z -> M Response :=
  admin_only delete_all_comments_body.

(** The body of [delete_post]; the call inside it goes through the
    decorated [delete_all_comments]. *)
Definition delete_post_body (post_id : Z) : M Response :=
  _ <- delete_all_comments post_id ;;
  post_to_delete <- query (fun d => get BlogPost.id (blog_posts d) post_id) ;;
  session_delete_post post_to_delete ;;
  commit ;;
  ret (redirect (url_get_all_posts None)).

(** [delete_post], route [/delete-post/<int:post_id>]. *)
Definition delete_post : Z -> M Response := admin_only delete_post_body.

(** The body of [delete_comment]. *)
Definition delete_comment_body (ids : Z * Z) : M Response :=
  let '(post_id, comment_id) := ids in
  comment_to_delete <-
    query (fun d => get Comment.id (comments d) comment_id) ;;
  session_delete_comment comment_to_delete ;;
  commit ;;
  ret (redirect (url_show_post post_id)).

(** [delete_comment], route
    [/delete-comment/<int:post_id>/<int:comment_id>]. *)
Definition delete_comment (post_id comment_id : Z) : M Response :=
  login_required delete_comment_body (post_id, comment_id).

Section Library.

(** Library functions taken as given: the URL syntax check of WTForms and
    the password hashing of Werkzeug. *)
Variable url_ok : string -> bool.
Variable generate_password_hash : string -> string -> string.
Variable check_password_hash : string -> string -> bool.

(** [URL()]: the data must be a well-formed URL. *)
Definition URL : Validator :=
  fun d =>
    match d with
    | Some s => if url_ok s then Passed else ValidationError
    | None => ValidationError
    end.

Definition CreatePostForm : list Field :=
  [ StringField "title" [DataRequired];
    StringField "subtitle" [DataRequired];
    StringField "img_url" [DataRequired; URL];
    CKEditorField "body" [DataRequired];
    SubmitField "submit_post" ].

(** [register], route [/register]. *)
Definition register : M Response :=
  register_form <- make_form RegisterUserForm [] ;;
  '(valid, register_form) <-
    validate_on_submit RegisterUserForm register_form ;;
  if valid then
    req <- request ;;
    password <- form_item "password" ;;
    let hash_and_salted_password :=
      generate_password_hash password (salt req) in
    username <- form_item "username" ;;
    email <- form_item "email" ;;
    existing_user <-
      query (fun d =>
               first (filter (fun u => (User.email u =? email)%string)
                             (users d))) ;;
    match existing_user with
    | Some _ =>
        flash "E-mail address already signed up, login instead" ;;
        ret (redirect url_login)
    | None =>
        new_user <-
          session_add_user
            (User.mk 0 username email hash_and_salted_password) ;;
        commit ;;
        login_user new_user ;;
        ret (redirect (url_get_all_posts None))
    end
  else
    ret (render_template (register_html register_form)).

(** [login], route [/login]. *)
Definition login : M Response :=
  login_form <- make_form LoginUserForm [] ;;
  '(valid, login_form) <- validate_on_submit LoginUserForm login_form ;;
  if valid then
    user_email <- form_item "email" ;;
    user_password <- form_item "password" ;;
    user <-
      query (fun d =>
               first (filter (fun u => (User.email u =? user_email)%string)
                             (users d))) ;;
    match user with
    | None =>
        flash "That email doesn't exist. Please try again." ;;
        ret (redirect url_login)
    | Some user =>
        if negb (check_password_hash (User.password user) user_password)
        then
          flash "You entered the wrong password. Please try again." ;;
          ret (redirect url_login)
        else
          login_user user ;;
          ret (redirect (url_get_all_posts None))
    end
  else
    ret (render_template (login_html login_form)).

(** The body of [add_new_post]. *)
Definition add_new_post_body (_ : unit) : M Response :=
  create_post_form <- make_form CreatePostForm [] ;;
  '(valid, create_post_form) <-
    validate_on_submit CreatePostForm create_post_form ;;
  if valid then
    cu <- current_user ;;
    author <- attr_id cu ;;
    req <- request ;;
    let field n := data_or_empty (field_data create_post_form n) in
    _ <- session_add_post
           (BlogPost.mk 0 author (field "title") (field "subtitle")
                        (Py.strftime (now req)) (field "body")
                        (field "img_url")) ;;
    commit ;;
    ret (redirect (url_get_all_posts None))
  else
    ret (render_template (make_post_html create_post_form)).

(** [add_new_post], route [/new-post]. *)
Definition add_new_post : M Response := admin_only add_new_post_body tt.

(** The body of [edit_post]: the attributes of the post are read before
    anything else, which fails on [None]. *)
Definition edit_post_body (post_id : Z) : M Response :=
  post <- query (fun d => get BlogPost.id (blog_posts d) post_id) ;;
  match post with
  | None => raise AttributeError
  | Some post =>
      edit_form <-
        make_form CreatePostForm
                  [ ("title", BlogPost.title post);
                    ("subtitle", BlogPost.subtitle post);
                    ("img_url", BlogPost.img_url post);
                    ("body", BlogPost.body post) ] ;;
      '(valid, edit_form) <- validate_on_submit CreatePostForm edit_form ;;
      if valid then
        let field n := data_or_empty (field_data edit_form n) in
        session_update_post
          (BlogPost.mk (BlogPost.id post) (BlogPost.author_id post)
                       (field "title") (field "subtitle")
                       (BlogPost.date post) (field "body")
                       (field "img_url")) ;;
        commit ;;
        ret (redirect (url_show_post (BlogPost.id post)))
      else
        ret (render_template (make_post_html edit_form))
  end.

(** [edit_post], route [/edit-post/<int:post_id>]. *)
Definition edit_post : Z -> M Response := admin_only edit_post_body.

End Library.

(* ================================================================== *)
(** * Vocabulary of the statements *)
(* ================================================================== *)

(** The heap a view function starts from. *)
Definition begin_request (w : World) : Heap := mk_heap w (db w) false.

(** The user of the session of a world, as [current_user] gives it at the
    start of a request. *)
Definition session_user (w : World) : CurrentUser :=
  match session_user_id w with
  | None => AnonymousUser
  | Some user_id =>
      match get User.id (users (db w)) user_id with
      | Some u => LoggedIn u
      | None => AnonymousUser
      end
  end.

(** The session user is authenticated and has id 1. *)
Definition is_admin (w : World) : bool :=
  match session_user w with
  | LoggedIn u => User.id u =? 1
  | AnonymousUser => false
  end.

(** The database without the comments of primary key [comment_id]. *)
Definition without_comment (d : Database) (comment_id : Z) : Database :=
  mk_db (users d) (blog_posts d)
        (filter (fun x => negb (Comment.id x =? comment_id)) (comments d)).

(** The world after a commit that makes [d] the database. *)
Definition committed (w : World) (d : Database) : World :=
  mk_world d (session_user_id w) (flashes w) (commits w ++ [d])%list.

(** The world after the loop of [delete_all_comments] over [l]: one
    deletion and one commit for each comment, in order. *)
Fixpoint delete_each (w : World) (l : list Comment.t) : World :=
  match l with
  | [] => w
  | c :: l' =>
      delete_each (committed w (without_comment (db w) (Comment.id c))) l'
  end.

(** The database without the comments that share a primary key with one
    of [l]. *)
Definition without_comments (d : Database) (l : list Comment.t) : Database :=
  mk_db (users d) (blog_posts d)
        (filter (fun x => negb (existsb (fun c => Comment.id x =? Comment.id c)
                                        l))
                (comments d)).

(** [a] does not come before [b] in the order of strings. *)
Definition str_ge (a b : string) : Prop := String.ltb a b = false.

(** The order of [.desc()]: the earlier row does not have the smaller
    key. *)
Definition desc {R} (key : R -> string) (a b : R) : Prop :=
  str_ge (key a) (key b).

(** The world with one more flashed message. *)
Definition with_flash (w : World) (message : string) : World :=
  mk_world (db w) (session_user_id w) (flashes w ++ [message])%list
           (commits w).

(** The text a request submits in the comment form, if any. *)
Definition comment_text (req : Request) : option string :=
  lookup "comment_field" (form req).

(** The page a request asks [get_all_posts] for: the [page] argument of
    the query string read as an integer, 1 when absent or unreadable. *)
Definition requested_page (req : Request) : Z :=
  match lookup "page" (args req) with
  | Some v =>
      match Py.int v with
      | Some n => n
      | None => 1
      end
  | None => 1
  end.

(** The posts in the order of the home page. *)
Definition posts_by_date (d : Database) : list BlogPost.t :=
  order_by_desc BlogPost.date (blog_posts d).

(** The posts of page [n] of the home page, [n >= 1]. *)
Definition page_items (d : Database) (n : nat) : list BlogPost.t :=
  firstn 5 (skipn (5 * (n - 1)) (posts_by_date d)).

(* ================================================================== *)
(** * Sample data *)
(* ================================================================== *)

Module Sample.

Definition alice : User.t := User.mk 1 "alice" "a@x.com" "hash-a".
Definition bob : User.t := User.mk 2 "bob" "b@x.com" "hash-b".
Definition carol : User.t := User.mk 3 "carol" "c@x.com" "hash-c".

Definition post1 : BlogPost.t :=
  BlogPost.mk 1 1 "First" "one" "18:00PM 01 November, 2026" "..."
              "https://example.com/1.png".
Definition post2 : BlogPost.t :=
  BlogPost.mk 2 1 "Second" "two" "09:00AM 02 November, 2026" "..."
              "https://example.com/2.png".

(** Bob commented on both posts, Carol on the first. *)
Definition comment1 : Comment.t :=
  Comment.mk 1 (Some 1) 2 "hello" "18:30PM 01 November, 2026".
Definition comment2 : Comment.t :=
  Comment.mk 2 (Some 2) 2 "again" "09:30AM 02 November, 2026".
Definition comment3 : Comment.t :=
  Comment.mk 3 (Some 1) 3 "nice" "10:00AM 02 November, 2026".

Definition database : Database :=
  mk_db [alice; bob; carol] [post1; post2] [comment1; comment2; comment3].

(** When the three comments were written, in the order of their ids. *)
Definition commented : list Py.datetime :=
  [ Py.mk_datetime 2026 11 1 18 30;
    Py.mk_datetime 2026 11 2 9 30;
    Py.mk_datetime 2026 11 2 10 0 ].

(** The world with [user_id] logged in, or nobody. *)
Definition world (user_id : option Z) : World :=
  mk_world database user_id [] [].

Definition noon : Py.datetime := Py.mk_datetime 2026 11 3 12 0.

Definition get_request (args : list (string * string)) : Request :=
  mk_request GET args [] true noon "salt".

Definition post_request (form : list (string * string)) : Request :=
  mk_request POST [] form true noon "salt".

(** A registration with Alice's email and no username. *)
Definition register_no_username : Request :=
  post_request [("username", ""); ("email", "a@x.com"); ("password", "pw")].

(** A complete registration with Alice's email. *)
Definition register_again : Request :=
  post_request
    [("username", "alice2"); ("email", "a@x.com"); ("password", "pw")].

(** A comment of one space, and a comment with text. *)
Definition comment_space : Request := post_request [("comment_field", " ")].
Definition comment_hi : Request := post_request [("comment_field", "hi")].
Definition comment_empty : Request := post_request [("comment_field", "")].

(** A stand-in for the hash function. *)
Definition toy_hash (password salt : string) : string :=
  ("pbkdf2:sha256$" ++ salt ++ "$" ++ password)%string.

(** Twelve posts written by the admin, one a day from 1 to 12 November
    2026, each an hour earlier in the day than the one before: at 22:00,
    21:00, ..., 11:00. *)
Definition created : list Py.datetime :=
  map (fun k => Py.mk_datetime 2026 11 (Z.of_nat k) (23 - Z.of_nat k) 0)
      (seq 1 12).

Definition new_post_request (dt : Py.datetime) : Request :=
  mk_request POST []
             [ ("title", ("Post of day " ++ Py.two_digits (Py.day dt))%string);
               ("subtitle", "sub");
               ("img_url", "https://example.com/p.png");
               ("body", "text") ]
             true dt "salt".

(** The world after the admin has submitted them in turn to
    [add_new_post], the URL check accepting the image URL. *)
Definition twelve_posts : World :=
  fold_left
    (fun w dt =>
       fst (handle (add_new_post (fun _ => true)) (new_post_request dt) w))
    created
    (mk_world (mk_db [alice] [] []) (Some 1) [] []).

End Sample.

(* ================================================================== *)
(** * The routes of [main.py] *)
(* ================================================================== *)

(** The URL rules of the [@app.route] decorators, with the arguments their
    converters parse.  The two static pages are left out: their views
    render a template and touch nothing. *)
Inductive Route : Type :=
| route_get_all_posts
| route_register
| route_login
| route_logout
| route_show_post (post_id : Z)
| route_add_new_post
| route_edit_post (post_id : Z)
| route_delete_post (post_id : Z)
| route_delete_comment (post_id comment_id : Z)
| route_delete_all_comments (post_id : Z).

(** The [methods] of each rule; a rule that names none takes GET, and HEAD
    goes wherever GET goes. *)
Definition methods (r : Route) : list Method :=
  match r with
  | route_get_all_posts => [GET; HEAD]
  | route_logout => [GET; HEAD]
  | route_delete_post _ => [GET; HEAD]
  | _ => [GET; HEAD; POST]
  end.

Definition Method_eqb (a b : Method) : bool :=
  match a, b with
  | GET, GET => true
  | HEAD, HEAD => true
  | POST, POST => true
  | _, _ => false
  end.

Section Routing.

Variable url_ok : string -> bool.
Variable generate_password_hash : string -> string -> string.
Variable check_password_hash : string -> string -> bool.

(** The view function bound to each rule. *)
Definition view (r : Route) : M Response :=
  match r with
  | route_get_all_posts => get_all_posts
  | route_register => register generate_password_hash
  | route_login => login check_password_hash
  | route_logout => logout
  | route_show_post post_id => show_post post_id
  | route_add_new_post => add_new_post url_ok
  | route_edit_post post_id => edit_post url_ok post_id
  | route_delete_post post_id => delete_post post_id
  | route_delete_comment post_id comment_id =>
      delete_comment post_id comment_id
  | route_delete_all_comments post_id => delete_all_comments post_id
  end.

(** Flask answers 405 to a method the rule does not list, without calling
    the view. *)
Definition dispatch (r : Route) (req : Request) (w : World)
  : World * Response :=
  if existsb (Method_eqb (method req)) (methods r)
  then handle (view r) req w
  else (w, http_error 405).

End Routing.

(* ================================================================== *)
(** * What a request can do to the database and to the login *)
(* ================================================================== *)

(** The post [new] written over the rows of its primary key. *)
Definition replace_post (new : BlogPost.t) (posts : list BlogPost.t)
  : list BlogPost.t :=
  map (fun x => if BlogPost.id x =? BlogPost.id new then new else x) posts.

(** The database without the post [post_id], the comments that referred to
    it left without parent. *)
Definition without_post (d : Database) (post_id : Z) : Database :=
  mk_db (users d)
        (filter (fun x => negb (BlogPost.id x =? post_id)) (blog_posts d))
        (map (orphan post_id) (comments d)).

(** The ways in which the database [d'] and the login [s'] after a request
    can differ from those of the world [w] before it. *)
Inductive Effect (w : World) (d' : Database) (s' : option Z) : Prop :=
| Unchanged :
    d' = db w -> s' = session_user_id w -> Effect w d' s'
| SignedUp (u : User.t) :
    User.id u = next_id (map User.id (users (db w))) ->
    (forall x, In x (users (db w)) -> User.email x <> User.email u) ->
    d' = mk_db (users (db w) ++ [u])%list (blog_posts (db w))
               (comments (db w)) ->
    s' = Some (User.id u) ->
    Effect w d' s'
| LoggedInAs (u : User.t) :
    In u (users (db w)) ->
    d' = db w -> s' = Some (User.id u) -> Effect w d' s'
| LoggedOut :
    d' = db w -> s' = None -> Effect w d' s'
| Commented (u : User.t) (c : Comment.t) :
    session_user w = LoggedIn u ->
    Comment.id c = next_id (map Comment.id (comments (db w))) ->
    Comment.author_id c = User.id u ->
    (forall k, Comment.post_id c = Some k ->
               exists p, In p (blog_posts (db w)) /\ BlogPost.id p = k) ->
    d' = mk_db (users (db w)) (blog_posts (db w))
               (comments (db w) ++ [c])%list ->
    s' = session_user_id w ->
    Effect w d' s'
| Posted (p : BlogPost.t) :
    is_admin w = true ->
    BlogPost.id p = next_id (map BlogPost.id (blog_posts (db w))) ->
    (forall x, In x (blog_posts (db w)) ->
               BlogPost.title x <> BlogPost.title p) ->
    BlogPost.author_id p = 1 ->
    d' = mk_db (users (db w)) (blog_posts (db w) ++ [p])%list
               (comments (db w)) ->
    s' = session_user_id w ->
    Effect w d' s'
| Edited (old new : BlogPost.t) :
    is_admin w = true ->
    In old (blog_posts (db w)) ->
    BlogPost.id new = BlogPost.id old ->
    BlogPost.author_id new = BlogPost.author_id old ->
    BlogPost.date new = BlogPost.date old ->
    (forall x, In x (blog_posts (db w)) ->
               BlogPost.id x <> BlogPost.id old ->
               BlogPost.title x <> BlogPost.title new) ->
    d' = mk_db (users (db w)) (replace_post new (blog_posts (db w)))
               (comments (db w)) ->
    s' = session_user_id w ->
    Effect w d' s'
| CommentsDeleted (l : list Comment.t) :
    is_authenticated (session_user w) = true ->
    d' = without_comments (db w) l ->
    s' = session_user_id w ->
    Effect w d' s'
| PostDeleted (post_id : Z) (l : list Comment.t) :
    is_admin w = true ->
    (forall c, In c (comments (db w)) ->
               has_post_id post_id c = true -> In c l) ->
    d' = without_post (without_comments (db w) l) post_id ->
    s' = session_user_id w ->
    Effect w d' s'.

(** The constraints of the schema: primary keys, [users.email] and
    [blog_posts.title] are unique. *)
Record constraints (d : Database) : Prop := mk_constraints
  { user_ids_unique : NoDup (map User.id (users d));
    post_ids_unique : NoDup (map BlogPost.id (blog_posts d));
    comment_ids_unique : NoDup (map Comment.id (comments d));
    emails_unique : NoDup (map User.email (users d));
    titles_unique : NoDup (map BlogPost.title (blog_posts d)) }.

(** The foreign keys refer to rows that exist. *)
Record references (d : Database) : Prop := mk_references
  { comment_post :
      forall c k, In c (comments d) -> Comment.post_id c = Some k ->
                  exists p, In p (blog_posts d) /\ BlogPost.id p = k;
    comment_author :
      forall c, In c (comments d) ->
                exists u, In u (users d) /\ User.id u = Comment.author_id c;
    post_author :
      forall p, In p (blog_posts d) ->
                exists u, In u (users d) /\ User.id u = BlogPost.author_id p }.

(** The data a field of a form instance is bound to: the submitted value,
    else the initial data, else the empty string of a submission that
    leaves the field out. *)
Definition submitted_value (req : Request) (kwargs : list (string * string))
           (name : string) : option string :=
  match (if is_submitted req then lookup name (form req) else None) with
  | Some v => Some v
  | None =>
      match lookup name kwargs with
      | Some v => Some v
      | None => if is_submitted req then Some "" else None
      end
  end.

(** Every field of the form class passes its validators. *)
Definition fields_pass (cls : list Field) (form : Form) : bool :=
  forallb (fun f => run_validation_chain (validators f)
                                         (field_data form (name f)))
          cls.

(* ================================================================== *)
(** * More sample data *)
(* ================================================================== *)

Module Demo.

(** Stand-ins for the library functions: a URL check that looks at the
    scheme, and a check of a password against the hashes of [Sample]. *)
Definition url_ok (s : string) : bool := String.prefix "https://" s.

Definition check_hash (hash password : string) : bool :=
  (hash =? Sample.toy_hash password "salt")%string.

(** The stored hashes of [Sample.database] are of the form [hash-x]. *)
Definition check_stored (hash password : string) : bool :=
  (hash =? "hash-" ++ password)%string.

Definition register_dave : Request :=
  Sample.post_request
    [("username", "dave"); ("email", "d@x.com"); ("password", "pw")].

Definition dave : User.t :=
  User.mk 4 "dave" "d@x.com" (Sample.toy_hash "pw" "salt").

Definition login_dave : Request :=
  Sample.post_request [("email", "d@x.com"); ("password", "pw")].

Definition login_bob : Request :=
  Sample.post_request [("email", "b@x.com"); ("password", "b")].

Definition login_bob_wrong : Request :=
  Sample.post_request [("email", "b@x.com"); ("password", "guess")].

Definition login_nobody : Request :=
  Sample.post_request [("email", "n@x.com"); ("password", "pw")].

Definition new_post : Request :=
  Sample.post_request
    [ ("title", "Third"); ("subtitle", "three");
      ("img_url", "https://example.com/3.png"); ("body", "text") ].

Definition third : BlogPost.t :=
  BlogPost.mk 3 1 "Third" "three" "12:00PM 03 November, 2026" "text"
              "https://example.com/3.png".

(** A new post that takes the title of post 1. *)
Definition new_post_first : Request :=
  Sample.post_request
    [ ("title", "First"); ("subtitle", "three");
      ("img_url", "https://example.com/3.png"); ("body", "text") ].

(** Edits of post 2: a new title, and the title of post 1. *)
Definition edit_second : Request :=
  Sample.post_request
    [ ("title", "Second, revised"); ("subtitle", "two");
      ("img_url", "https://example.com/2.png"); ("body", "more") ].

Definition edit_second_first : Request :=
  Sample.post_request
    [ ("title", "First"); ("subtitle", "two");
      ("img_url", "https://example.com/2.png"); ("body", "more") ].

Definition second_revised : BlogPost.t :=
  BlogPost.mk 2 1 "Second, revised" "two" "09:00AM 02 November, 2026" "more"
              "https://example.com/2.png".

End Demo.

(** [show_post] from its third statement on, as a function of the post
    that was loaded; the local [comments] does not occur in it. *)
Definition show_post_form (requested_post : option BlogPost.t) : M Response :=
  comment_form <- make_form CommentForm [] ;;
  '(valid, comment_form) <- validate_on_submit CommentForm comment_form ;;
  if valid then
    cu <- current_user ;;
    if negb (is_authenticated cu) then
      flash "Please login or register to post comments." ;;
      ret (redirect url_login)
    else
      author <- attr_id cu ;;
      req <- request ;;
      let new_comment :=
        Comment.mk 0 (option_map BlogPost.id requested_post) author
                   (data_or_empty (field_data comment_form "comment_field"))
                   (Py.strftime (now req)) in
      _ <- session_add_comment new_comment ;;
      commit ;;
      let comment_form := set_field_data comment_form "comment_field" "" in
      ret (render_template (post_html requested_post comment_form))
  else
    ret (render_template (post_html requested_post comment_form)).

(** The posts on the page [get_all_posts] answers a request with; none
    when it answers with an error. *)
Definition listed (req : Request) (w : World) : list BlogPost.t :=
  match snd (handle get_all_posts req w) with
  | render_template (index_html all_posts) => items all_posts
  | _ => []
  end.

Module Scenario.

(** The request for page [n] of the home page, [n] from 1 to 3. *)
Definition page (n : nat) : Request :=
  Sample.get_request
    [("page", match n with 1%nat => "1" | 2%nat => "2" | _ => "3" end)].

(** The oldest and the newest of the twelve posts of
    [Sample.twelve_posts]. *)
Definition oldest_post : BlogPost.t :=
  BlogPost.mk 1 1 "Post of day 01" "sub"
              (Py.strftime (Py.mk_datetime 2026 11 1 22 0))
              "text" "https://example.com/p.png".
Definition newest_post : BlogPost.t :=
  BlogPost.mk 12 1 "Post of day 12" "sub"
              (Py.strftime (Py.mk_datetime 2026 11 12 11 0))
              "text" "https://example.com/p.png".

(** Bob has sent the comment "hi" to the page of post 9, which does not
    exist; then Alice, the administrator, is logged in. *)
Definition bob_commented : World :=
  fst (handle (show_post 9) Sample.comment_hi (Sample.world (Some 2))).
Definition alice_logged_in : World :=
  mk_world (db bob_commented) (Some 1) [] [].
Definition orphan : Comment.t :=
  Comment.mk 4 None 2 "hi" "12:00PM 03 November, 2026".

End Scenario.

(* ================================================================== *)
(** * The Python values on examples *)
(* ================================================================== *)

Example strftime_example :
  Py.strftime (Py.mk_datetime 2026 11 3 9 5) = "09:05AM 03 November, 2026"
  /\ Py.strftime (Py.mk_datetime 2026 1 31 23 59)
     = "23:59PM 31 January, 2026".
Proof. split; reflexivity. Qed.

Example int_examples :
  Py.int " 12 " = Some 12 /\ Py.int "-3" = Some (-3)
  /\ Py.int "+7" = Some 7 /\ Py.int "1_0" = Some 10
  /\ Py.int "" = None /\ Py.int "1__0" = None /\ Py.int "a" = None
  /\ Py.int "1_" = None /\ Py.int "_1" = None /\ Py.int "- 1" = None
  /\ Py.int (String (ascii_of_nat 31) "3") = None
  /\ Py.int (String "3" (String (ascii_of_nat 28) "")) = None
  /\ Py.int (String (ascii_of_nat 160) "3") = Some 3
  /\ Py.int (String (ascii_of_nat 9) "3") = Some 3
  /\ Py.blank (String (ascii_of_nat 31) "") = true.
Proof. repeat split; reflexivity. Qed.

Example DataRequired_examples :
  DataRequired (Some "x") = Passed
  /\ DataRequired (Some " x ") = Passed
  /\ DataRequired (Some "") = StopValidation
  /\ DataRequired (Some "   ") = StopValidation
  /\ DataRequired None = StopValidation.
Proof. repeat split; reflexivity. Qed.

(* ================================================================== *)
(** * Running the monad *)
(* ================================================================== *)

Lemma bind_return {A B} (c : M A) (k : A -> M B) req h a h' :
  c req h = (Return a, h') -> bind c k req h = k a req h'.
Proof. intros E. unfold bind. now rewrite E. Qed.

Lemma current_user_run req h :
  txn h = db (world h) ->
  current_user req h = (Return (session_user (world h)), h).
Proof.
  intros E. unfold current_user, session_user, bind, get_world, load_user, query.
  destruct (session_user_id (world h)) as [uid|]; [|reflexivity].
  rewrite E. now destruct (get User.id (users (db (world h))) uid).
Qed.

Lemma admin_only_run {A} (f : A -> M Response) a req h :
  txn h = db (world h) ->
  admin_only f a req h =
  if is_admin (world h) then f a req h else (Raise (HTTPException 403), h).
Proof.
  intros E. unfold admin_only, is_admin.
  rewrite (bind_return _ _ _ _ _ _ (current_user_run req h E)).
  destruct (session_user (world h)) as [|u]; simpl; [reflexivity|].
  unfold bind, ret. now destruct (User.id u =? 1).
Qed.

Lemma login_required_run {A} (f : A -> M Response) a req h :
  txn h = db (world h) ->
  login_required f a req h =
  if is_authenticated (session_user (world h)) then f a req h
  else (Raise (HTTPException 401), h).
Proof.
  intros E. unfold login_required.
  rewrite (bind_return _ _ _ _ _ _ (current_user_run req h E)).
  now destruct (session_user (world h)).
Qed.

Lemma handle_admin_only {A} (f : A -> M Response) a req w :
  handle (admin_only f a) req w =
  if is_admin w then handle (f a) req w else (w, http_error 403).
Proof.
  unfold handle. rewrite admin_only_run by reflexivity. simpl.
  now destruct (is_admin w).
Qed.

(* ================================================================== *)
(** * C1: the admin routes *)
(* ================================================================== *)

(** C1.  A request to an admin-only view ([add_new_post], [edit_post],
    [delete_post], [delete_all_comments]) runs the body of the view exactly
    when the session user is authenticated and has id 1; any other request
    is answered with 403 and leaves the world as it was.  The first two
    parts hold for whatever view the decorator wraps. *)
Theorem admin_only_guards_admin_routes :
  forall (url_ok : string -> bool) (req : Request) (w : World) (post_id : Z),
    (forall (A : Type) (f : A -> M Response) (a : A),
        handle (admin_only f a) req w =
        if is_admin w then handle (f a) req w else (w, http_error 403))
    /\ (is_admin w = true <->
        exists u, session_user w = LoggedIn u /\ User.id u = 1)
    /\ handle (add_new_post url_ok) req w =
       (if is_admin w then handle (add_new_post_body url_ok tt) req w
        else (w, http_error 403))
    /\ handle (edit_post url_ok post_id) req w =
       (if is_admin w then handle (edit_post_body url_ok post_id) req w
        else (w, http_error 403))
    /\ handle (delete_post post_id) req w =
       (if is_admin w then handle (delete_post_body post_id) req w
        else (w, http_error 403))
    /\ handle (delete_all_comments post_id) req w =
       (if is_admin w then handle (delete_all_comments_body post_id) req w
        else (w, http_error 403)).
Proof.
  intros url_ok req w post_id.
  split; [intros; apply handle_admin_only|].
  split.
  - unfold is_admin. destruct (session_user w) as [|u].
    + split; [discriminate|]. intros [u [E _]]. discriminate.
    + rewrite Z.eqb_eq. split.
      * intros E. now exists u.
      * intros [u' [E E']]. now inversion E; subst.
  - unfold add_new_post, edit_post, delete_post, delete_all_comments.
    repeat split; apply handle_admin_only.
Qed.

(* ================================================================== *)
(** * Lookups by primary key *)
(* ================================================================== *)

Lemma get_some_id {R} (id : R -> Z) (table : list R) ident r :
  get id table ident = Some r -> id r = ident /\ In r table.
Proof.
  unfold get. intros E. apply find_some in E as [I E].
  now apply Z.eqb_eq in E.
Qed.

Lemma get_in {R} (id : R -> Z) (table : list R) r :
  In r table -> exists r', get id table (id r) = Some r' /\ id r' = id r.
Proof.
  intros I. unfold get.
  destruct (find (fun x => id x =? id r) table) as [r'|] eqn:E.
  - exists r'. split; [reflexivity|].
    apply find_some in E as [_ E]. now apply Z.eqb_eq in E.
  - apply (find_none _ _ E) in I. now rewrite Z.eqb_refl in I.
Qed.

Lemma get_without {R} (id : R -> Z) (table : list R) ident :
  get id (filter (fun x => negb (id x =? ident)) table) ident = None.
Proof.
  unfold get.
  destruct (find _ _) as [r|] eqn:E; [|reflexivity].
  apply find_some in E as [I E]. apply filter_In in I as [_ N].
  now rewrite E in N.
Qed.

(* ================================================================== *)
(** * C2, C9: [delete_comment] *)
(* ================================================================== *)

(** What [delete_comment] does for an authenticated session. *)
Lemma delete_comment_run req w post_id comment_id :
  is_authenticated (session_user w) = true ->
  handle (delete_comment post_id comment_id) req w =
  match get Comment.id (comments (db w)) comment_id with
  | Some _ =>
      (committed w (without_comment (db w) comment_id),
       redirect (url_show_post post_id))
  | None => (w, server_fault UnmappedInstanceError)
  end.
Proof.
  intros A. unfold handle, delete_comment.
  rewrite login_required_run by reflexivity. simpl. rewrite A.
  unfold delete_comment_body, bind, query. simpl.
  destruct (get Comment.id (comments (db w)) comment_id) as [c|] eqn:E.
  - apply get_some_id in E as [E _]. simpl. now rewrite E.
  - simpl. now destruct w.
Qed.

(** C2.  Whoever the authenticated user [u] of the session is, author of
    the comment or not, admin or not, [delete_comment] on the id of an
    existing comment [c] commits the deletion of [c] and redirects to the
    page of the post named in the URL.  No other comment is touched. *)
Theorem delete_comment_any_authenticated_user :
  forall (req : Request) (w : World) (u : User.t) (c : Comment.t)
         (post_id : Z),
    session_user w = LoggedIn u ->
    In c (comments (db w)) ->
    let d' := without_comment (db w) (Comment.id c) in
    handle (delete_comment post_id (Comment.id c)) req w =
      (committed w d', redirect (url_show_post post_id))
    /\ ~ In c (comments d')
    /\ get Comment.id (comments d') (Comment.id c) = None
    /\ (forall c', Comment.id c' <> Comment.id c ->
                   (In c' (comments d') <-> In c' (comments (db w)))).
Proof.
  intros req w u c post_id U I d'.
  split; [|split; [|split]].
  - rewrite delete_comment_run by now rewrite U.
    destruct (get_in Comment.id _ _ I) as [c' [E _]]. now rewrite E.
  - unfold d', without_comment. simpl. rewrite filter_In.
    intros [_ N]. now rewrite Z.eqb_refl in N.
  - apply get_without.
  - intros c' N. unfold d', without_comment. simpl. rewrite filter_In.
    apply Z.eqb_neq in N. rewrite N. simpl. tauto.
Qed.

(** C9.  For an authenticated request the effect of [delete_comment] on
    the world is the same whatever [post_id] the URL carries: the comment
    deleted is the one of primary key [comment_id], whatever post it
    belongs to, and [post_id] only names the page redirected to. *)
Theorem delete_comment_ignores_post_id :
  forall (req : Request) (w : World) (post_id post_id' comment_id : Z),
    is_authenticated (session_user w) = true ->
    fst (handle (delete_comment post_id comment_id) req w) =
    fst (handle (delete_comment post_id' comment_id) req w)
    /\ (forall c,
           get Comment.id (comments (db w)) comment_id = Some c ->
           handle (delete_comment post_id comment_id) req w =
             (committed w (without_comment (db w) comment_id),
              redirect (url_show_post post_id))
           /\ get Comment.id
                  (comments (db (fst (handle
                     (delete_comment post_id comment_id) req w))))
                  comment_id = None).
Proof.
  intros req w post_id post_id' comment_id A.
  rewrite !delete_comment_run by assumption.
  split.
  - now destruct (get Comment.id (comments (db w)) comment_id).
  - intros c E. rewrite E. split; [reflexivity|]. simpl. apply get_without.
Qed.

(* ================================================================== *)
(** * C5: [delete_post] and the loop of [delete_all_comments] *)
(* ================================================================== *)

Lemma delete_each_frame w l :
  users (db (delete_each w l)) = users (db w)
  /\ blog_posts (db (delete_each w l)) = blog_posts (db w)
  /\ session_user_id (delete_each w l) = session_user_id w
  /\ flashes (delete_each w l) = flashes w.
Proof.
  revert w. induction l as [|c l IH]; intros w; simpl; [tauto|].
  destruct (IH (committed w (without_comment (db w) (Comment.id c))))
    as (U & P & S & F).
  now rewrite U, P, S, F.
Qed.

Lemma filter_filter {A} (f g : A -> bool) (l : list A) :
  filter f (filter g l) = filter (fun x => g x && f x) l.
Proof.
  induction l as [|a l IH]; simpl; [reflexivity|].
  destruct (g a); simpl; [destruct (f a)|]; now rewrite IH.
Qed.

Lemma delete_each_comments w l :
  comments (db (delete_each w l)) = comments (without_comments (db w) l).
Proof.
  revert w. induction l as [|c l IH]; intros w; simpl.
  - induction (comments (db w)) as [|x xs IHx]; simpl; [reflexivity|].
    now rewrite <- IHx.
  - rewrite IH. simpl. rewrite filter_filter. apply filter_ext.
    intros x. now rewrite negb_orb.
Qed.

(** The commits of the loop: after the [k]-th one the first [k] comments
    of the list are gone and nothing else has changed. *)
Lemma delete_each_commits w l :
  commits (delete_each w l) =
  (commits w
     ++ map (fun k => without_comments (db w) (firstn k l))
            (seq 1 (List.length l)))%list.
Proof.
  revert w. induction l as [|c l IH]; intros w; simpl.
  - now rewrite app_nil_r.
  - rewrite IH. simpl. rewrite <- app_assoc. simpl. f_equal. f_equal.
    + unfold without_comments, without_comment. simpl. f_equal.
      apply filter_ext. intros x. now rewrite orb_false_r.
    + rewrite <- (seq_shift (List.length l) 1), map_map.
      apply map_ext. intros k.
      unfold without_comments, without_comment. simpl. f_equal.
      rewrite filter_filter. apply filter_ext. intros x.
      now rewrite negb_orb.
Qed.

(** The loop of [delete_all_comments]. *)
Lemma delete_loop_run (l : list Comment.t) req h :
  txn h = db (world h) -> txn_broken h = false ->
  for_each l (fun comment => session_delete_comment (Some comment) ;; commit)
           req h =
  (Return tt, begin_request (delete_each (world h) l)).
Proof.
  revert h. induction l as [|c l IH]; intros h T B.
  - simpl. unfold ret, begin_request. destruct h; simpl in *. now subst.
  - simpl. unfold bind at 1. unfold bind at 1. simpl. rewrite B. simpl.
    rewrite IH by reflexivity. simpl. now rewrite T.
Qed.

Lemma delete_all_comments_body_run post_id req w :
  delete_all_comments_body post_id req (begin_request w) =
  (Return (redirect (url_get_all_posts (Some post_id))),
   begin_request
     (delete_each w (filter (has_post_id post_id) (comments (db w))))).
Proof.
  unfold delete_all_comments_body. unfold bind at 1. simpl.
  unfold bind at 1. now rewrite delete_loop_run.
Qed.

Lemma NoDup_map_eq {A B} (f : A -> B) (l : list A) a b :
  NoDup (map f l) -> In a l -> In b l -> f a = f b -> a = b.
Proof.
  induction l as [|x l IH]; simpl; [tauto|].
  intros N Ia Ib E. inversion N as [|? ? X N']; subst.
  destruct Ia as [->|Ia], Ib as [->|Ib]; [reflexivity| | |now apply IH].
  - exfalso. apply X. rewrite E. now apply in_map.
  - exfalso. apply X. rewrite <- E. now apply in_map.
Qed.

(** With unique primary keys, deleting the comments of a post one by one
    leaves exactly the comments of the other posts. *)
Lemma without_comments_of_post d post_id :
  NoDup (map Comment.id (comments d)) ->
  comments (without_comments d (filter (has_post_id post_id) (comments d))) =
  filter (fun x => negb (has_post_id post_id x)) (comments d).
Proof.
  intros N. simpl. apply filter_ext_in. intros x I. f_equal.
  destruct (has_post_id post_id x) eqn:H.
  - apply existsb_exists. exists x. rewrite filter_In, Z.eqb_refl. tauto.
  - destruct (existsb _ _) eqn:E; [|reflexivity].
    apply existsb_exists in E as [c [Ic E]]. apply filter_In in Ic as [Ic Hc].
    apply Z.eqb_eq in E.
    assert (x = c) by (eapply NoDup_map_eq; eauto). subst.
    now rewrite H in Hc.
Qed.

Lemma orphan_other_posts post_id (l : list Comment.t) :
  map (orphan post_id) (filter (fun x => negb (has_post_id post_id x)) l) =
  filter (fun x => negb (has_post_id post_id x)) l.
Proof.
  rewrite <- (map_id (filter _ l)) at 2. apply map_ext_in.
  intros x I. apply filter_In in I as [_ H].
  unfold orphan, has_post_id in *.
  destruct (Comment.post_id x) as [k|]; [|reflexivity].
  now destruct (k =? post_id).
Qed.

(** What [delete_post] does for the admin. *)
Lemma delete_post_run req w post_id :
  is_admin w = true ->
  let w1 := delete_each w (filter (has_post_id post_id) (comments (db w))) in
  handle (delete_post post_id) req w =
  match get BlogPost.id (blog_posts (db w)) post_id with
  | Some _ =>
      (committed w1
         (mk_db (users (db w1))
                (filter (fun x => negb (BlogPost.id x =? post_id))
                        (blog_posts (db w1)))
                (map (orphan post_id) (comments (db w1)))),
       redirect (url_get_all_posts None))
  | None => (w1, server_fault UnmappedInstanceError)
  end.
Proof.
  intros A w1. unfold delete_post. rewrite handle_admin_only, A.
  unfold handle, delete_post_body. unfold bind at 1.
  unfold delete_all_comments. rewrite admin_only_run by reflexivity.
  simpl. rewrite A. fold (begin_request w).
  rewrite delete_all_comments_body_run. fold w1.
  unfold bind at 1. simpl.
  destruct (delete_each_frame w (filter (has_post_id post_id) (comments (db w))))
    as (_ & P & _). fold w1 in P. rewrite P.
  destruct (get BlogPost.id (blog_posts (db w)) post_id) as [p|] eqn:E.
  - apply get_some_id in E as [E _]. simpl. unfold committed.
    now rewrite E, ?P.
  - reflexivity.
Qed.

Lemma has_post_id_iff post_id c :
  has_post_id post_id c = true <-> Comment.post_id c = Some post_id.
Proof.
  unfold has_post_id. destruct (Comment.post_id c) as [k|].
  - rewrite Z.eqb_eq. split; congruence.
  - split; discriminate.
Qed.

(** C5.  For a post [p] of the database (comment ids being unique, as
    primary keys are), [delete_post] requested by the admin commits once
    for each comment of [p], the [k]-th commit leaving the database without
    the first [k] comments of [p] and with all posts still there; one more
    commit then removes [p]; the response redirects home.  In the end [p]
    is gone and the comments left are exactly those of the other posts,
    unchanged. *)
Theorem delete_post_deletes_comments_then_post :
  forall (req : Request) (w : World) (p : BlogPost.t),
    is_admin w = true ->
    NoDup (map Comment.id (comments (db w))) ->
    In p (blog_posts (db w)) ->
    let d := db w in
    let post_id := BlogPost.id p in
    let cs := filter (has_post_id post_id) (comments d) in
    let final :=
      mk_db (users d)
            (filter (fun x => negb (BlogPost.id x =? post_id)) (blog_posts d))
            (filter (fun c => negb (has_post_id post_id c)) (comments d)) in
    handle (delete_post post_id) req w =
      (mk_world final (session_user_id w) (flashes w)
                (commits w
                   ++ map (fun k => without_comments d (firstn k cs))
                          (seq 1 (List.length cs))
                   ++ [final])%list,
       redirect (url_get_all_posts None))
    /\ ~ In p (blog_posts final)
    /\ (forall c, In c (comments final) <->
                  In c (comments d) /\ Comment.post_id c <> Some post_id).
Proof.
  intros req w p A N I d post_id cs final.
  split; [|split].
  - rewrite delete_post_run by assumption.
    destruct (get_in BlogPost.id _ _ I) as [p' [E _]].
    fold d post_id in E. fold d post_id cs. rewrite E.
    destruct (delete_each_frame w cs) as (U & P & S & F).
    unfold committed.
    rewrite U, P, S, F, delete_each_commits, delete_each_comments.
    pose proof (without_comments_of_post d post_id N) as W. fold cs in W.
    fold d. rewrite !W, orphan_other_posts. fold final.
    now rewrite <- app_assoc.
  - simpl. rewrite filter_In. intros [_ X]. unfold post_id in X.
    now rewrite Z.eqb_refl in X.
  - intros c. simpl. rewrite filter_In, negb_true_iff.
    rewrite <- has_post_id_iff. now destruct (has_post_id post_id c).
Qed.

(* ================================================================== *)
(** * C8: lookups by an id that matches no record *)
(* ================================================================== *)

Lemma edit_post_missing url_ok req w post_id :
  is_admin w = true ->
  get BlogPost.id (blog_posts (db w)) post_id = None ->
  handle (edit_post url_ok post_id) req w = (w, server_fault AttributeError).
Proof.
  intros A E. unfold edit_post. rewrite handle_admin_only, A.
  unfold handle, edit_post_body, bind, query. simpl. now rewrite E.
Qed.

(** C8.  When the id matches no record, the three views that look a
    record up by id and use it unchecked end in an unhandled exception,
    not in a 404 and not in a flashed message: [edit_post] and
    [delete_post] for the admin ([post.title] on [None];
    [db.session.delete(None)]), [delete_comment] for an authenticated
    user ([db.session.delete(None)]). *)
Theorem lookups_by_missing_id_fault :
  forall (url_ok : string -> bool) (req : Request) (w : World) (ident : Z),
    (is_admin w = true ->
     get BlogPost.id (blog_posts (db w)) ident = None ->
     handle (edit_post url_ok ident) req w = (w, server_fault AttributeError)
     /\ snd (handle (delete_post ident) req w) =
        server_fault UnmappedInstanceError
     /\ flashes (fst (handle (delete_post ident) req w)) = flashes w)
    /\ (is_authenticated (session_user w) = true ->
        get Comment.id (comments (db w)) ident = None ->
        forall post_id,
          handle (delete_comment post_id ident) req w =
            (w, server_fault UnmappedInstanceError)).
Proof.
  intros url_ok req w ident. split.
  - intros A E. split; [now apply edit_post_missing|].
    rewrite delete_post_run by assumption. rewrite E. simpl.
    split; [reflexivity|]. apply delete_each_frame.
  - intros A E post_id.
    rewrite delete_comment_run by assumption. now rewrite E.
Qed.

(* ================================================================== *)
(** * The order of [order_by(... .desc())] *)
(* ================================================================== *)

Lemma str_ge_trans a b c : str_ge a b -> str_ge b c -> str_ge a c.
Proof.
  unfold str_ge, String.ltb. revert b c.
  induction a as [|x a IH]; intros [|y b] [|z c]; simpl;
    try congruence; try easy.
  unfold Ascii.compare.
  destruct (N.compare_spec (N_of_ascii x) (N_of_ascii y));
    destruct (N.compare_spec (N_of_ascii y) (N_of_ascii z));
    destruct (N.compare_spec (N_of_ascii x) (N_of_ascii z));
    try lia; try easy.
  apply IH.
Qed.

Lemma str_lt_ge a b : String.ltb a b = true -> str_ge b a.
Proof.
  unfold str_ge, String.ltb. rewrite (String.compare_antisym a b).
  now destruct (String.compare b a).
Qed.

Section OrderBy.

Context {R : Type} (key : R -> string).

Lemma insert_desc_perm r l : Permutation (insert_desc key r l) (r :: l).
Proof.
  induction l as [|x l IH]; simpl; [reflexivity|].
  destruct (String.ltb (key r) (key x)); [|reflexivity].
  rewrite IH. apply perm_swap.
Qed.

Lemma order_by_desc_perm l : Permutation (order_by_desc key l) l.
Proof.
  induction l as [|x l IH]; simpl; [reflexivity|].
  rewrite insert_desc_perm. now constructor.
Qed.

Lemma insert_desc_sorted r l :
  StronglySorted (desc key) l -> StronglySorted (desc key) (insert_desc key r l).
Proof.
  induction 1 as [|x l S IH F]; simpl.
  - repeat constructor.
  - destruct (String.ltb (key r) (key x)) eqn:E.
    + constructor; [assumption|].
      rewrite Forall_forall in *. intros y I.
      apply (Permutation_in _ (insert_desc_perm r l)) in I.
      destruct I as [<-|I]; [now apply str_lt_ge|now apply F].
    + constructor; [now constructor|].
      constructor; [exact E|].
      rewrite Forall_forall in *. intros y I.
      apply (str_ge_trans _ (key x)); [exact E|now apply F].
Qed.

Lemma order_by_desc_sorted l : StronglySorted (desc key) (order_by_desc key l).
Proof.
  induction l as [|x l IH]; simpl; [constructor|].
  now apply insert_desc_sorted.
Qed.

End OrderBy.

(* ================================================================== *)
(** * C6, C7, C10: [show_post] *)
(* ================================================================== *)

Lemma show_post_queries_run post_id req w :
  show_post_queries post_id req (begin_request w) =
  (Return (get BlogPost.id (blog_posts (db w)) post_id,
           order_by_desc Comment.date (comments (db w))),
   begin_request w).
Proof. reflexivity. Qed.

(** C6.  [show_post] begins with its two loads and goes on with the post
    alone: the local [comments] is dropped.  The first load is the one
    post of the requested id.  The second is every comment of the
    database, those of the other posts included, whatever [post_id] is;
    its order is that of the date strings, latest string first, and not
    that of the dates.  So for the three sample comments, written on 1
    November at 18:30, on 2 November at 09:30 (on the other post) and on
    2 November at 10:00, the page of post 1 loads the oldest comment
    first, then the newest, then the one in between. *)
Theorem show_post_loads_comments_oldest_first :
  (forall (post_id : Z) (req : Request) (h : Heap),
      show_post post_id req h
      = (loaded <- show_post_queries post_id ;;
         show_post_form (fst loaded)) req h)
  /\ (forall (post_id : Z) (req : Request) (w : World),
        show_post_queries post_id req (begin_request w)
        = (Return (get BlogPost.id (blog_posts (db w)) post_id,
                   order_by_desc Comment.date (comments (db w))),
           begin_request w)
        /\ Permutation (order_by_desc Comment.date (comments (db w)))
                       (comments (db w))
        /\ StronglySorted (desc Comment.date)
                          (order_by_desc Comment.date (comments (db w))))
  /\ (let w := Sample.world None in
      comments (db w) = [Sample.comment1; Sample.comment2; Sample.comment3]
      /\ map Comment.date (comments (db w))
         = map Py.strftime Sample.commented
      /\ StronglySorted (fun a b => Py.datetime_ltb a b = true)
                        Sample.commented
      /\ Comment.post_id Sample.comment2 = Some 2
      /\ show_post_queries 1 (Sample.get_request []) (begin_request w)
         = (Return (Some Sample.post1,
                    [Sample.comment1; Sample.comment3; Sample.comment2]),
            begin_request w)
      /\ handle (show_post 1) (Sample.get_request []) w
         = (w, render_template
                 (post_html (Some Sample.post1)
                            (mk_form [ ("comment_field", None);
                                       ("post_comment", None) ] [])))).
Proof.
  split; [|split].
  - intros post_id req h. reflexivity.
  - intros post_id req w. split; [apply show_post_queries_run|].
    split; [apply order_by_desc_perm | apply order_by_desc_sorted].
  - cbv zeta. split; [reflexivity|]. split; [reflexivity|].
    split; [repeat constructor|]. split; [reflexivity|].
    split; reflexivity.
Qed.

Arguments current_user : simpl never.

(** A submission whose comment text fails [DataRequired] (absent, empty or
    whitespace only) is not accepted, whoever sends it: the page of the
    post is rendered again with the error and the world is as before. *)
Lemma show_post_blank_text req w post_id :
  method req = POST ->
  Py.blank (data_or_empty (comment_text req)) = true ->
  exists f,
    handle (show_post post_id) req w =
      (w, render_template
            (post_html (get BlogPost.id (blog_posts (db w)) post_id) f))
    /\ In "comment_field" (errors f).
Proof.
  intros Hm Hb. unfold handle, show_post, comment_text in *.
  rewrite (bind_return _ _ _ _ _ _ (show_post_queries_run post_id req w)).
  unfold make_form, validate_on_submit, bind, request, ret, is_submitted.
  rewrite Hm. simpl.
  destruct (lookup "comment_field" (form req)) as [text|];
    simpl in *; rewrite ?Hb; simpl;
    destruct (csrf_token_valid req); simpl;
    eexists; (split; [reflexivity|]); simpl; tauto.
Qed.

(** C10.  Validation comes before the authentication check: for an
    unauthenticated POST whose comment text is empty, [show_post] renders
    the page of the post again, the form carrying the error of the comment
    field; nothing is flashed, nothing is stored and there is no redirect
    to the login page. *)
Theorem show_post_empty_comment_unauthenticated :
  forall (req : Request) (w : World) (post_id : Z),
    method req = POST ->
    session_user w = AnonymousUser ->
    data_or_empty (comment_text req) = "" ->
    exists f,
      handle (show_post post_id) req w =
        (w, render_template
              (post_html (get BlogPost.id (blog_posts (db w)) post_id) f))
      /\ In "comment_field" (errors f).
Proof.
  intros req w post_id Hm _ He. apply show_post_blank_text; [exact Hm|].
  now rewrite He.
Qed.

(** C7 (as amended).  For a comment submission that passes validation (a
    POST with a valid CSRF token whose text is not blank) made while the
    session is unauthenticated, [show_post] flashes its message and
    redirects to the login page; the database is untouched, so no comment
    is created. *)
Theorem show_post_comment_unauthenticated :
  forall (req : Request) (w : World) (post_id : Z) (text : string),
    method req = POST ->
    csrf_token_valid req = true ->
    comment_text req = Some text ->
    Py.blank text = false ->
    session_user w = AnonymousUser ->
    handle (show_post post_id) req w =
      (with_flash w "Please login or register to post comments.",
       redirect url_login)
    /\ db (fst (handle (show_post post_id) req w)) = db w.
Proof.
  intros req w post_id text Hm Hc Ht Hb Hu.
  assert (handle (show_post post_id) req w =
          (with_flash w "Please login or register to post comments.",
           redirect url_login)) as E.
  { unfold handle, show_post, comment_text in *.
    rewrite (bind_return _ _ _ _ _ _ (show_post_queries_run post_id req w)).
    unfold make_form, validate_on_submit, bind, request, ret, is_submitted.
    rewrite Hm. simpl. rewrite Ht. simpl. rewrite Hc, Hb. simpl.
    rewrite current_user_run by reflexivity. simpl. rewrite Hu. reflexivity. }
  now rewrite E.
Qed.

(* ================================================================== *)
(** * C4: [register] with an email that is already signed up *)
(* ================================================================== *)

Lemma first_filter_in {A} (f : A -> bool) (l : list A) a :
  In a l -> f a = true -> exists b, first (filter f l) = Some b.
Proof.
  intros I E. destruct (filter f l) as [|b l'] eqn:F.
  - assert (In a (filter f l)) as X by (apply filter_In; tauto).
    now rewrite F in X.
  - now exists b.
Qed.

(** No request that carries the email of an existing user makes
    [register] write to the database or touch the login of the session. *)
Lemma register_duplicate_email_frame hash req w u email :
  In u (users (db w)) -> User.email u = email ->
  lookup "email" (form req) = Some email ->
  db (fst (handle (register hash) req w)) = db w
  /\ session_user_id (fst (handle (register hash) req w)) = session_user_id w
  /\ commits (fst (handle (register hash) req w)) = commits w.
Proof.
  intros I Eu He.
  destruct (first_filter_in (fun x => (User.email x =? email)%string) _ u I)
    as [u' F].
  { subst. apply String.eqb_refl. }
  destruct (lookup "username" (form req)) as [un|] eqn:Eun;
  destruct (lookup "password" (form req)) as [pw|] eqn:Epw;
  unfold handle, register;
  unfold make_form, validate_on_submit, form_item, bind, request, ret,
    is_submitted, query;
  (destruct (method req); simpl; try tauto);
  rewrite ?He, ?Eun, ?Epw; simpl;
  destruct (csrf_token_valid req); simpl;
  try destruct (Py.blank un); simpl;
  destruct (Py.blank email); simpl;
  try destruct (Py.blank pw); simpl; try tauto;
  rewrite ?He, ?Eun, ?Epw; simpl; rewrite ?F; simpl; tauto.
Qed.

(** C4 (as amended).  Let the email of a registration request belong to an
    existing user.  Then [register] creates no user and leaves the login of
    the session as it was (an unauthenticated session stays
    unauthenticated), whatever else the request holds.  If moreover the
    submission passes validation (a POST with a valid CSRF token whose
    username, email and password are not blank), [register] flashes its
    message and redirects to the login page, and nothing else changes.  A
    request that does not pass validation (it is no POST, or its CSRF token
    is invalid, or its username, email or password is blank or missing)
    gets the registration form rendered, for a POST with the errors found,
    and the world is left as it was: nothing is flashed and there is no
    redirect, although the email is a duplicate. *)
Theorem register_duplicate_email :
  forall (generate_password_hash : string -> string -> string)
         (req : Request) (w : World) (u : User.t)
         (username email password : string),
    In u (users (db w)) ->
    User.email u = email ->
    lookup "email" (form req) = Some email ->
    let w' := fst (handle (register generate_password_hash) req w) in
    (users (db w') = users (db w)
     /\ session_user_id w' = session_user_id w
     /\ (session_user w = AnonymousUser -> session_user w' = AnonymousUser))
    /\ (method req = POST ->
        csrf_token_valid req = true ->
        lookup "username" (form req) = Some username ->
        lookup "password" (form req) = Some password ->
        Py.blank username = false ->
        Py.blank email = false ->
        Py.blank password = false ->
        handle (register generate_password_hash) req w =
          (with_flash w "E-mail address already signed up, login instead",
           redirect url_login))
    /\ (method req <> POST
        \/ csrf_token_valid req = false
        \/ Py.blank (data_or_empty (lookup "username" (form req))) = true
        \/ Py.blank email = true
        \/ Py.blank (data_or_empty (lookup "password" (form req))) = true ->
        exists register_form : Form,
          handle (register generate_password_hash) req w =
            (w, render_template (register_html register_form))
          /\ (method req = POST -> errors register_form <> [])).
Proof.
  intros hash req w u username email password I Eu He w'.
  destruct (register_duplicate_email_frame hash req w u email I Eu He)
    as (D & S & _).
  fold w' in D, S. split; [|split].
  - split; [now rewrite D|]. split; [exact S|].
    unfold session_user. now rewrite D, S.
  - intros Hm Hc Eun Epw Bu Be Bp.
    destruct (first_filter_in (fun x => (User.email x =? email)%string) _ u I)
      as [u' F].
    { subst. apply String.eqb_refl. }
    unfold handle, register.
    unfold make_form, validate_on_submit, form_item, bind, request, ret,
      is_submitted, query.
    rewrite Hm. simpl. rewrite He, Eun, Epw. simpl.
    rewrite Hc, Bu, Be, Bp. simpl.
    rewrite ?He, ?Eun, ?Epw. simpl. now rewrite F.
  - clear D S w'. intros R.
    assert (Py.blank "" = true) as B0 by reflexivity.
    destruct w as [d s fl cm].
    unfold handle, register.
    unfold make_form, validate_on_submit, form_item, bind, request, ret,
      is_submitted, query.
    destruct (method req) eqn:Hm; simpl;
      try (eexists; split; [reflexivity | discriminate]).
    rewrite He.
    destruct (lookup "username" (form req)) as [un|]; simpl in R |- *;
      destruct (lookup "password" (form req)) as [pw|]; simpl in R |- *;
      rewrite ?B0;
      destruct (csrf_token_valid req); simpl;
      try destruct (Py.blank un); simpl;
      destruct (Py.blank email); simpl;
      try destruct (Py.blank pw); simpl;
      try (eexists; split; [reflexivity | intros _; discriminate]);
      exfalso; intuition congruence.
Qed.

(* ================================================================== *)
(** * C3: [get_all_posts] *)
(* ================================================================== *)

Lemma args_get_int_run req h :
  args_get_int "page" 1 req h = (Return (requested_page req), h).
Proof.
  unfold args_get_int, requested_page, bind, request, ret.
  destruct (lookup "page" (args req)) as [v|]; [|reflexivity].
  now destruct (Py.int v).
Qed.

(** What [get_all_posts] answers: page [n] of the posts in descending
    order of their date strings, five to a page; 404 for a page below 1 and
    for an empty page other than the first.  The page is 1 when the query
    string names none.  The world is never changed. *)
Lemma get_all_posts_run req w :
  let n := requested_page req in
  let items := page_items (db w) (Z.to_nat n) in
  handle get_all_posts req w =
  (w,
   if n <? 1 then http_error 404
   else match items with
        | [] => if negb (n =? 1) then http_error 404
                else render_template
                       (index_html
                          (mk_pagination items n 5
                             (Z.of_nat (List.length (posts_by_date (db w))))))
        | _ => render_template
                 (index_html
                    (mk_pagination items n 5
                       (Z.of_nat (List.length (posts_by_date (db w))))))
        end).
Proof.
  intros n items. unfold handle, get_all_posts.
  rewrite (bind_return _ _ _ _ _ _ (args_get_int_run req _)). fold n.
  unfold paginate.
  destruct (n <? 1) eqn:L; [reflexivity|]. apply Z.ltb_ge in L.
  unfold bind, query. cbv beta iota.
  change (txn (mk_heap w (db w) false)) with (db w).
  replace (Z.to_nat ((n - 1) * 5)) with (5 * (Z.to_nat n - 1))%nat by lia.
  change (Z.to_nat 5) with 5%nat.
  fold (posts_by_date (db w)). fold (page_items (db w) (Z.to_nat n)).
  fold items. destruct items; [|reflexivity].
  now destruct (n =? 1).
Qed.

Lemma get_all_posts_default_page req :
  lookup "page" (args req) = None -> requested_page req = 1.
Proof. intros E. unfold requested_page. now rewrite E. Qed.

Lemma StronglySorted_app_inv {A} (R : A -> A -> Prop) (l1 l2 : list A) :
  StronglySorted R (l1 ++ l2) ->
  forall a b, In a l1 -> In b l2 -> R a b.
Proof.
  induction l1 as [|x l1 IH]; simpl; [tauto|].
  intros S a b [<-|Ia] Ib.
  - apply StronglySorted_inv in S as [_ F].
    rewrite Forall_forall in F. apply F, in_or_app. now right.
  - apply StronglySorted_inv in S as [S _]. now apply IH.
Qed.

(** With twelve posts stored, pages 1 and 2 hold five posts and page 3
    holds two; the posts of page 1 are five whose date strings are not
    below the date string of any post of a later page. *)
Lemma pages_of_twelve_posts (d : Database) :
  List.length (blog_posts d) = 12%nat ->
  List.length (page_items d 1) = 5%nat
  /\ List.length (page_items d 2) = 5%nat
  /\ List.length (page_items d 3) = 2%nat
  /\ posts_by_date d = (page_items d 1 ++ page_items d 2 ++ page_items d 3)%list
  /\ (forall a b,
         In a (page_items d 1) ->
         In b (page_items d 2 ++ page_items d 3)%list ->
         desc BlogPost.date a b).
Proof.
  intros L.
  assert (List.length (posts_by_date d) = 12%nat) as L'.
  { unfold posts_by_date.
    now rewrite (Permutation_length (order_by_desc_perm BlogPost.date _)). }
  pose proof (order_by_desc_sorted BlogPost.date (blog_posts d)) as S.
  fold (posts_by_date d) in S. unfold page_items.
  set (l := posts_by_date d) in *. clearbody l.
  do 12 (destruct l as [|? l]; [discriminate L'|]).
  destruct l; [|discriminate L'].
  simpl. repeat split.
  intros a b. now apply (StronglySorted_app_inv _ [_; _; _; _; _] _ S).
Qed.

(** The date strings are compared from their first characters, the hour
    of the day. *)
Lemma digit_char_code d :
  0 <= d <= 9 -> N_of_ascii (Py.digit_char d) = Z.to_N (48 + d).
Proof.
  intros B. unfold Py.digit_char. apply N_ascii_embedding. lia.
Qed.

Lemma two_digits_ltb h1 h2 s1 s2 :
  0 <= h1 < h2 -> h2 < 100 ->
  String.ltb (Py.two_digits h1 ++ s1) (Py.two_digits h2 ++ s2) = true.
Proof.
  intros B1 B2. unfold Py.two_digits, String.ltb. simpl.
  unfold Ascii.compare.
  rewrite !digit_char_code by (Z.to_euclidean_division_equations; lia).
  destruct (N.compare_spec (Z.to_N (48 + h1 / 10)) (Z.to_N (48 + h2 / 10)));
    [|reflexivity|Z.to_euclidean_division_equations; lia].
  destruct (N.compare_spec (Z.to_N (48 + h1 mod 10))
                           (Z.to_N (48 + h2 mod 10)));
    [|reflexivity|]; Z.to_euclidean_division_equations; lia.
Qed.

Lemma strftime_later_hour (a b : Py.datetime) :
  0 <= Py.hour b < Py.hour a -> Py.hour a < 24 ->
  String.ltb (Py.strftime b) (Py.strftime a) = true.
Proof.
  intros B1 B2. unfold Py.strftime. apply two_digits_ltb; lia.
Qed.

(** Whatever their days, months and years, a post written at a later hour
    of the day is never listed after a post written at an earlier hour. *)
Lemma later_hour_listed_first (d : Database) (p q : BlogPost.t)
      (a b : Py.datetime) (l1 l2 : list BlogPost.t) :
  BlogPost.date p = Py.strftime a ->
  BlogPost.date q = Py.strftime b ->
  0 <= Py.hour b < Py.hour a -> Py.hour a < 24 ->
  posts_by_date d = (l1 ++ q :: l2)%list ->
  ~ In p l2.
Proof.
  intros Ep Eq B1 B2 E I.
  pose proof (order_by_desc_sorted BlogPost.date (blog_posts d)) as S.
  fold (posts_by_date d) in S. rewrite E in S.
  assert (desc BlogPost.date q p) as G.
  { apply (StronglySorted_app_inv _ (l1 ++ [q])%list l2).
    - now rewrite <- app_assoc.
    - apply in_or_app. right. now left.
    - exact I. }
  unfold desc, str_ge in G. rewrite Ep, Eq in G.
  now rewrite strftime_later_hour in G.
Qed.

(** C3.  The order of the home page is the order of the date strings, not
    of the dates.  Twelve posts written on twelve successive days, each at
    an earlier hour than the one of the day before, are listed oldest
    first: page 1 (also the page served when the query string names none)
    shows the five oldest posts and page 3 the two newest. *)
Theorem get_all_posts_lists_oldest_first :
  let w := Sample.twelve_posts in
  let ids (r : Response) : list Z :=
    match r with
    | render_template (index_html posts) => map BlogPost.id (items posts)
    | _ => []
    end in
  map BlogPost.id (blog_posts (db w)) = [1; 2; 3; 4; 5; 6; 7; 8; 9; 10; 11; 12]
  /\ map BlogPost.date (blog_posts (db w)) = map Py.strftime Sample.created
  /\ StronglySorted (fun a b => Py.datetime_ltb a b = true) Sample.created
  /\ ids (snd (handle get_all_posts (Sample.get_request []) w))
     = [1; 2; 3; 4; 5]
  /\ ids (snd (handle get_all_posts (Sample.get_request [("page", "1")]) w))
     = [1; 2; 3; 4; 5]
  /\ ids (snd (handle get_all_posts (Sample.get_request [("page", "3")]) w))
     = [11; 12].
Proof.
  repeat split; try (vm_compute; reflexivity).
  vm_compute. repeat constructor.
Qed.

(* ================================================================== *)
(** * Primary keys of comments stay unique *)
(* ================================================================== *)

Lemma next_id_above ids x : In x ids -> x < next_id ids.
Proof.
  unfold next_id. induction ids as [|y ids IH]; simpl; [tauto|].
  intros [->|I]; [lia|]. specialize (IH I). lia.
Qed.

Lemma next_id_fresh ids : ~ In (next_id ids) ids.
Proof. intros I. apply next_id_above in I. lia. Qed.

Lemma NoDup_snoc {A} (l : list A) (a : A) :
  NoDup l -> ~ In a l -> NoDup (l ++ [a]).
Proof.
  induction l as [|x l IH]; simpl; intros N I.
  - constructor; [tauto|constructor].
  - inversion N as [|? ? X N']; subst. constructor.
    + rewrite in_app_iff. simpl. intuition congruence.
    + apply IH; tauto.
Qed.

(** The accepted comment of an authenticated user: one row is added and
    committed, with a fresh primary key, the id of the requested post when
    it exists, the id of the user, the text and the formatted clock; the
    page is rendered with the comment field emptied. *)
Lemma show_post_comment_authenticated req w post_id text u :
  method req = POST ->
  csrf_token_valid req = true ->
  comment_text req = Some text ->
  Py.blank text = false ->
  session_user w = LoggedIn u ->
  exists f,
    handle (show_post post_id) req w =
    (committed w
       (mk_db (users (db w)) (blog_posts (db w))
              (comments (db w)
                 ++ [Comment.mk
                       (next_id (map Comment.id (comments (db w))))
                       (option_map BlogPost.id
                          (get BlogPost.id (blog_posts (db w)) post_id))
                       (User.id u) text (Py.strftime (now req))])%list),
     render_template
       (post_html (get BlogPost.id (blog_posts (db w)) post_id) f))
    /\ field_data f "comment_field" = Some "".
Proof.
  intros Hm Hc Ht Hb Hu. unfold handle, show_post, comment_text in *.
  rewrite (bind_return _ _ _ _ _ _ (show_post_queries_run post_id req w)).
  unfold make_form, validate_on_submit, bind, request, ret, is_submitted.
  rewrite Hm. simpl. rewrite Ht. simpl. rewrite Hc, Hb. simpl.
  rewrite current_user_run by reflexivity. simpl. rewrite Hu. simpl.
  eexists. split; reflexivity.
Qed.

(* ================================================================== *)
(** * The statements at sample inputs *)
(* ================================================================== *)

(** C1 at sample inputs: Bob (id 2) and an anonymous visitor get 403 from
    [delete_all_comments] and the world is unchanged; for Alice (id 1) the
    body runs. *)
Lemma admin_only_guards_admin_routes_witness :
  handle (delete_all_comments 1) (Sample.get_request []) (Sample.world (Some 2))
    = (Sample.world (Some 2), http_error 403)
  /\ handle (delete_all_comments 1) (Sample.get_request []) (Sample.world None)
    = (Sample.world None, http_error 403)
  /\ handle (delete_all_comments 1) (Sample.get_request []) (Sample.world (Some 1))
    = handle (delete_all_comments_body 1) (Sample.get_request [])
             (Sample.world (Some 1)).
Proof.
  split; [|split].
  - destruct (admin_only_guards_admin_routes
                (fun _ => true) (Sample.get_request [])
                (Sample.world (Some 2)) 1) as (_ & _ & _ & _ & _ & H).
    exact H.
  - destruct (admin_only_guards_admin_routes
                (fun _ => true) (Sample.get_request [])
                (Sample.world None) 1) as (_ & _ & _ & _ & _ & H).
    exact H.
  - destruct (admin_only_guards_admin_routes
                (fun _ => true) (Sample.get_request [])
                (Sample.world (Some 1)) 1) as (_ & _ & _ & _ & _ & H).
    exact H.
Defined.

(** C2 at a sample input: Carol, who is neither the admin nor the author
    of comment 1, deletes it. *)
Lemma delete_comment_any_authenticated_user_witness :
  session_user (Sample.world (Some 3)) = LoggedIn Sample.carol
  /\ In Sample.comment1 (comments (db (Sample.world (Some 3))))
  /\ User.id Sample.carol <> Comment.author_id Sample.comment1
  /\ User.id Sample.carol <> 1
  /\ handle (delete_comment 1 1) (Sample.get_request [])
            (Sample.world (Some 3))
     = (committed (Sample.world (Some 3))
                  (without_comment Sample.database 1),
        redirect (url_show_post 1)).
Proof.
  split; [reflexivity|]. split; [simpl; tauto|].
  split; [discriminate|]. split; [discriminate|].
  apply (delete_comment_any_authenticated_user
           (Sample.get_request []) (Sample.world (Some 3))
           Sample.carol Sample.comment1 1);
    [reflexivity | simpl; tauto].
Defined.

(** C4 at two sample inputs: the counterexample to the statement for
    every submission, and the amended statement at a valid one. *)
Lemma register_no_username_counterexample :
  method Sample.register_no_username = POST
  /\ lookup "email" (form Sample.register_no_username)
     = Some (User.email Sample.alice)
  /\ In Sample.alice (users (db (Sample.world None)))
  /\ handle (register Sample.toy_hash) Sample.register_no_username
            (Sample.world None)
     = (Sample.world None,
        render_template
          (register_html
             (mk_form [ ("username", Some ""); ("email", Some "a@x.com");
                        ("password", Some "pw"); ("register", Some "") ]
                      ["username"])))
  /\ snd (handle (register Sample.toy_hash) Sample.register_no_username
                 (Sample.world None))
     <> redirect url_login
  /\ flashes (fst (handle (register Sample.toy_hash)
                          Sample.register_no_username (Sample.world None)))
     = [].
Proof.
  split; [reflexivity|]. split; [reflexivity|]. split; [simpl; tauto|].
  split; [reflexivity|]. split; [discriminate|reflexivity].
Qed.

Lemma register_duplicate_email_witness :
  In Sample.alice (users (db (Sample.world None)))
  /\ lookup "email" (form Sample.register_again)
     = Some (User.email Sample.alice)
  /\ users (db (fst (handle (register Sample.toy_hash) Sample.register_again
                            (Sample.world None))))
     = [Sample.alice; Sample.bob; Sample.carol]
  /\ handle (register Sample.toy_hash) Sample.register_again
            (Sample.world None)
     = (with_flash (Sample.world None)
                   "E-mail address already signed up, login instead",
        redirect url_login)
  /\ lookup "email" (form Sample.register_no_username)
     = Some (User.email Sample.alice)
  /\ Py.blank (data_or_empty
                 (lookup "username" (form Sample.register_no_username)))
     = true
  /\ exists register_form : Form,
       handle (register Sample.toy_hash) Sample.register_no_username
              (Sample.world None)
       = (Sample.world None, render_template (register_html register_form))
       /\ errors register_form <> [].
Proof.
  split; [simpl; tauto|]. split; [reflexivity|].
  destruct (register_duplicate_email
              Sample.toy_hash Sample.register_again (Sample.world None)
              Sample.alice "alice2" "a@x.com" "pw")
    as ((U & _ & _) & H & _);
    [simpl; tauto | reflexivity | reflexivity |].
  split; [exact U|].
  split; [apply H; reflexivity|].
  split; [reflexivity|]. split; [reflexivity|].
  destruct (register_duplicate_email
              Sample.toy_hash Sample.register_no_username (Sample.world None)
              Sample.alice "" "a@x.com" "pw")
    as (_ & _ & R);
    [simpl; tauto | reflexivity | reflexivity |].
  destruct R as (register_form & E & N);
    [right; right; left; reflexivity|].
  exists register_form. split; [exact E | apply N; reflexivity].
Defined.

(** C5 at a sample input: Alice deletes post 1, which has comments 1 and
    3; they go one commit at a time, then the post goes; comment 2 of post
    2 stays. *)
Lemma delete_post_deletes_comments_then_post_witness :
  is_admin (Sample.world (Some 1)) = true
  /\ NoDup (map Comment.id (comments (db (Sample.world (Some 1)))))
  /\ In Sample.post1 (blog_posts (db (Sample.world (Some 1))))
  /\ handle (delete_post 1) (Sample.get_request []) (Sample.world (Some 1))
     = (mk_world
          (mk_db [Sample.alice; Sample.bob; Sample.carol] [Sample.post2]
                 [Sample.comment2])
          (Some 1) []
          [ mk_db [Sample.alice; Sample.bob; Sample.carol]
                  [Sample.post1; Sample.post2]
                  [Sample.comment2; Sample.comment3];
            mk_db [Sample.alice; Sample.bob; Sample.carol]
                  [Sample.post1; Sample.post2]
                  [Sample.comment2];
            mk_db [Sample.alice; Sample.bob; Sample.carol] [Sample.post2]
                  [Sample.comment2] ],
        redirect (url_get_all_posts None)).
Proof.
  assert (NoDup (map Comment.id (comments (db (Sample.world (Some 1))))))
    as N.
  { simpl. repeat constructor; simpl; intuition discriminate. }
  split; [reflexivity|]. split; [exact N|]. split; [simpl; tauto|].
  destruct (delete_post_deletes_comments_then_post
              (Sample.get_request []) (Sample.world (Some 1)) Sample.post1
              eq_refl N (or_introl eq_refl)) as (H & _).
  exact H.
Defined.

(** C7 at two sample inputs: a comment of one space is a counterexample
    to the statement for every non-empty text; a comment with text
    follows the amended statement. *)
Lemma show_post_space_comment_counterexample :
  method Sample.comment_space = POST
  /\ comment_text Sample.comment_space = Some " "
  /\ " " <> ""
  /\ session_user (Sample.world None) = AnonymousUser
  /\ handle (show_post 1) Sample.comment_space (Sample.world None)
     = (Sample.world None,
        render_template
          (post_html (Some Sample.post1)
                     (mk_form [ ("comment_field", Some " ");
                                ("post_comment", Some "") ]
                              ["comment_field"])))
  /\ snd (handle (show_post 1) Sample.comment_space (Sample.world None))
     <> redirect url_login
  /\ flashes (fst (handle (show_post 1) Sample.comment_space
                          (Sample.world None)))
     = [].
Proof.
  split; [reflexivity|]. split; [reflexivity|]. split; [discriminate|].
  split; [reflexivity|]. split; [reflexivity|].
  split; [discriminate|reflexivity].
Qed.

Lemma show_post_comment_unauthenticated_witness :
  method Sample.comment_hi = POST
  /\ csrf_token_valid Sample.comment_hi = true
  /\ comment_text Sample.comment_hi = Some "hi"
  /\ Py.blank "hi" = false
  /\ session_user (Sample.world None) = AnonymousUser
  /\ handle (show_post 1) Sample.comment_hi (Sample.world None)
     = (with_flash (Sample.world None)
                   "Please login or register to post comments.",
        redirect url_login)
  /\ comments (db (fst (handle (show_post 1) Sample.comment_hi
                               (Sample.world None))))
     = [Sample.comment1; Sample.comment2; Sample.comment3].
Proof.
  do 5 (split; [reflexivity|]).
  destruct (show_post_comment_unauthenticated
              Sample.comment_hi (Sample.world None) 1 "hi"
              eq_refl eq_refl eq_refl eq_refl eq_refl) as (H & D).
  split; [exact H|]. now rewrite D.
Defined.

(** C8 at sample inputs: no post has id 9 and no comment has id 9. *)
Lemma lookups_by_missing_id_fault_witness :
  is_admin (Sample.world (Some 1)) = true
  /\ get BlogPost.id (blog_posts (db (Sample.world (Some 1)))) 9 = None
  /\ is_authenticated (session_user (Sample.world (Some 2))) = true
  /\ get Comment.id (comments (db (Sample.world (Some 2)))) 9 = None
  /\ handle (edit_post (fun _ => true) 9) (Sample.get_request [])
            (Sample.world (Some 1))
     = (Sample.world (Some 1), server_fault AttributeError)
  /\ snd (handle (delete_post 9) (Sample.get_request [])
                 (Sample.world (Some 1)))
     = server_fault UnmappedInstanceError
  /\ handle (delete_comment 1 9) (Sample.get_request [])
            (Sample.world (Some 2))
     = (Sample.world (Some 2), server_fault UnmappedInstanceError).
Proof.
  do 4 (split; [reflexivity|]).
  destruct (lookups_by_missing_id_fault
              (fun _ => true) (Sample.get_request [])
              (Sample.world (Some 1)) 9) as (P & _).
  destruct (P eq_refl eq_refl) as (E & D & _).
  destruct (lookups_by_missing_id_fault
              (fun _ => true) (Sample.get_request [])
              (Sample.world (Some 2)) 9) as (_ & C).
  split; [exact E|]. split; [exact D|]. exact (C eq_refl eq_refl 1).
Defined.

(** C9 at a sample input: comment 2 belongs to post 2; Carol deletes it
    through the URL of post 1 and is redirected to post 1. *)
Lemma delete_comment_ignores_post_id_witness :
  is_authenticated (session_user (Sample.world (Some 3))) = true
  /\ get Comment.id (comments (db (Sample.world (Some 3)))) 2
     = Some Sample.comment2
  /\ Comment.post_id Sample.comment2 = Some 2
  /\ handle (delete_comment 1 2) (Sample.get_request [])
            (Sample.world (Some 3))
     = (committed (Sample.world (Some 3))
                  (mk_db [Sample.alice; Sample.bob; Sample.carol]
                         [Sample.post1; Sample.post2]
                         [Sample.comment1; Sample.comment3]),
        redirect (url_show_post 1))
  /\ fst (handle (delete_comment 1 2) (Sample.get_request [])
                 (Sample.world (Some 3)))
     = fst (handle (delete_comment 2 2) (Sample.get_request [])
                   (Sample.world (Some 3))).
Proof.
  do 3 (split; [reflexivity|]).
  destruct (delete_comment_ignores_post_id
              (Sample.get_request []) (Sample.world (Some 3)) 1 2 2 eq_refl)
    as (E & H).
  destruct (H Sample.comment2 eq_refl) as (R & _).
  split; [exact R|exact E].
Defined.

(** C10 at a sample input: an anonymous visitor posts an empty comment. *)
Lemma show_post_empty_comment_unauthenticated_witness :
  method Sample.comment_empty = POST
  /\ session_user (Sample.world None) = AnonymousUser
  /\ data_or_empty (comment_text Sample.comment_empty) = ""
  /\ exists f,
      handle (show_post 1) Sample.comment_empty (Sample.world None)
      = (Sample.world None,
         render_template (post_html (Some Sample.post1) f))
      /\ In "comment_field" (errors f).
Proof.
  do 3 (split; [reflexivity|]).
  exact (show_post_empty_comment_unauthenticated
           Sample.comment_empty (Sample.world None) 1
           eq_refl eq_refl eq_refl).
Defined.

(* ================================================================== *)
(** * [register]: a new account *)
(* ================================================================== *)

Lemma first_filter_none {A} (f : A -> bool) (l : list A) :
  first (filter f l) = None ->
  existsb f l = false /\ forall x, In x l -> f x = false.
Proof.
  induction l as [|a l IH]; simpl; [intros _; split; [reflexivity|tauto]|].
  destruct (f a) eqn:E; [discriminate|]. intros F.
  destruct (IH F) as [X Y]. split; [exact X|].
  intros x [<-|I]; [exact E|now apply Y].
Qed.

Lemma existsb_false_first {A} (f : A -> bool) (l : list A) :
  (forall x, In x l -> f x = false) -> first (filter f l) = None.
Proof.
  induction l as [|a l IH]; simpl; [reflexivity|].
  intros H. rewrite (H a) by tauto. apply IH. intros x I. apply H. tauto.
Qed.

Lemma get_fresh {R} (id : R -> Z) (table : list R) (r : R) :
  ~ In (id r) (map id table) -> get id (table ++ [r]) (id r) = Some r.
Proof.
  unfold get. induction table as [|x table IH]; simpl; intros N.
  - now rewrite Z.eqb_refl.
  - destruct (id x =? id r) eqn:E; [apply Z.eqb_eq in E; tauto|].
    apply IH. tauto.
Qed.

(** The accepted registration. *)
Lemma register_run :
  forall (generate_password_hash : string -> string -> string)
         (req : Request) (w : World) (username email password : string),
    method req = POST ->
    csrf_token_valid req = true ->
    lookup "username" (form req) = Some username ->
    lookup "email" (form req) = Some email ->
    lookup "password" (form req) = Some password ->
    Py.blank username = false ->
    Py.blank email = false ->
    Py.blank password = false ->
    (forall x, In x (users (db w)) -> User.email x <> email) ->
    let u := User.mk (next_id (map User.id (users (db w)))) username email
                     (generate_password_hash password (salt req)) in
    let d' := mk_db (users (db w) ++ [u])%list (blog_posts (db w))
                    (comments (db w)) in
    let w' := mk_world d' (Some (User.id u)) (flashes w)
                       (commits w ++ [d'])%list in
    handle (register generate_password_hash) req w =
      (w', redirect (url_get_all_posts None))
    /\ session_user w' = LoggedIn u
    /\ ~ In (User.id u) (map User.id (users (db w))).
Proof.
  intros hash req w username email password Hm Hc Eun He Epw Bu Be Bp Fresh
         u d' w'.
  assert (forall x, In x (users (db w)) ->
                    (User.email x =? email)%string = false) as Fb.
  { intros x I. apply String.eqb_neq. now apply Fresh. }
  pose proof (existsb_false_first _ _ Fb) as F.
  destruct (first_filter_none _ _ F) as [X _].
  split; [|split].
  - unfold handle, register.
    unfold make_form, validate_on_submit, form_item, bind, request, ret,
      is_submitted, query.
    rewrite Hm. simpl. rewrite He, Eun, Epw. simpl.
    rewrite Hc, Bu, Be, Bp. simpl.
    rewrite ?He, ?Eun, ?Epw. simpl. rewrite F. simpl.
    unfold commit. simpl. rewrite X. reflexivity.
  - unfold session_user.
    change (session_user_id w') with (Some (User.id u)).
    change (users (db w')) with (users (db w) ++ [u])%list.
    cbv iota beta.
    rewrite (get_fresh User.id (users (db w)) u); [reflexivity|].
    apply next_id_fresh.
  - apply next_id_fresh.
Qed.

(** X1.  A registration that passes validation with an email no user has
    adds one user, with a fresh id, the submitted name and email and the
    hash of the password in place of the password, commits, logs the new
    user in and redirects home; [current_user] is then the new user. *)
Theorem register_new_user :
  forall (generate_password_hash : string -> string -> string)
         (req : Request) (w : World) (username email password : string),
    method req = POST ->
    csrf_token_valid req = true ->
    lookup "username" (form req) = Some username ->
    lookup "email" (form req) = Some email ->
    lookup "password" (form req) = Some password ->
    Py.blank username = false ->
    Py.blank email = false ->
    Py.blank password = false ->
    (forall x, In x (users (db w)) -> User.email x <> email) ->
    let u := User.mk (next_id (map User.id (users (db w)))) username email
                     (generate_password_hash password (salt req)) in
    let d' := mk_db (users (db w) ++ [u])%list (blog_posts (db w))
                    (comments (db w)) in
    let w' := mk_world d' (Some (User.id u)) (flashes w)
                       (commits w ++ [d'])%list in
    handle (register generate_password_hash) req w =
      (w', redirect (url_get_all_posts None))
    /\ session_user w' = LoggedIn u
    /\ ~ In (User.id u) (map User.id (users (db w))).
Proof. exact register_run. Qed.

(** Whatever the request, [register] leaves the database and the login
    alone or signs one new user up. *)
Lemma register_effect hash req w :
  Effect w (db (fst (handle (register hash) req w)))
           (session_user_id (fst (handle (register hash) req w))).
Proof.
  destruct (lookup "username" (form req)) as [un|] eqn:Eun;
  destruct (lookup "email" (form req)) as [em|] eqn:He;
  destruct (lookup "password" (form req)) as [pw|] eqn:Epw;
  unfold handle, register;
  unfold make_form, validate_on_submit, form_item, bind, request, ret,
    is_submitted, query;
  (destruct (method req); simpl; try (now apply Unchanged));
  rewrite ?He, ?Eun, ?Epw; simpl;
  destruct (csrf_token_valid req); simpl;
  try destruct (Py.blank un); simpl;
  try destruct (Py.blank em); simpl;
  try destruct (Py.blank pw); simpl; try (now apply Unchanged);
  rewrite ?He, ?Eun, ?Epw; simpl.
  destruct (first (filter (fun u => (User.email u =? em)%string)
                          (users (db w)))) eqn:F; simpl;
    [now apply Unchanged|].
  destruct (first_filter_none _ _ F) as [X Y].
  unfold commit. simpl. rewrite X. simpl.
  eapply SignedUp with
    (u := User.mk (next_id (map User.id (users (db w)))) un em
                  (hash pw (salt req))); try reflexivity.
  intros x I. simpl. apply String.eqb_neq. now apply Y.
Qed.

(* ================================================================== *)
(** * [login] and [logout] *)
(* ================================================================== *)

(** What [login] can do, whatever the request. *)
Lemma login_outcome :
  forall (check_password_hash : string -> string -> bool)
         (req : Request) (w : World),
    let w' := fst (handle (login check_password_hash) req w) in
    db w' = db w
    /\ commits w' = commits w
    /\ (session_user_id w' = session_user_id w
        \/ exists u email password,
            lookup "email" (form req) = Some email
            /\ lookup "password" (form req) = Some password
            /\ In u (users (db w))
            /\ User.email u = email
            /\ check_password_hash (User.password u) password = true
            /\ session_user_id w' = Some (User.id u)).
Proof.
  intros chk req w.
  destruct (lookup "email" (form req)) as [em|] eqn:He;
  destruct (lookup "password" (form req)) as [pw|] eqn:Epw;
  unfold handle, login;
  unfold make_form, validate_on_submit, form_item, bind, request, ret,
    is_submitted, query;
  (destruct (method req); simpl; try tauto);
  rewrite ?He, ?Epw; simpl;
  destruct (csrf_token_valid req); simpl;
  try destruct (Py.blank em); simpl;
  try destruct (Py.blank pw); simpl; try tauto;
  rewrite ?He, ?Epw; simpl.
  destruct (first (filter (fun u => (User.email u =? em)%string)
                          (users (db w)))) as [u|] eqn:F; simpl;
    [|tauto].
  destruct (chk (User.password u) pw) eqn:C; simpl; [|tauto].
  split; [reflexivity|]. split; [reflexivity|]. right.
  exists u, em, pw.
  assert (In u (filter (fun u => (User.email u =? em)%string)
                       (users (db w)))) as I.
  { destruct (filter _ _); [discriminate|]. inversion F. now left. }
  apply filter_In in I as [I E]. apply String.eqb_eq in E.
  repeat split; assumption.
Qed.

Lemma login_effect chk req w :
  Effect w (db (fst (handle (login chk) req w)))
           (session_user_id (fst (handle (login chk) req w))).
Proof.
  destruct (login_outcome chk req w) as (D & _ & [S|S]).
  - now apply Unchanged.
  - destruct S as (u & _ & _ & _ & _ & I & _ & _ & S).
    now apply LoggedInAs with u.
Qed.

Lemma first_filter_unique {A B} (key : A -> B) (eqb : B -> B -> bool)
      (l : list A) (a : A) :
  (forall x y, eqb x y = true <-> x = y) ->
  NoDup (map key l) -> In a l ->
  first (filter (fun x => eqb (key x) (key a)) l) = Some a.
Proof.
  intros Heq. induction l as [|x l IH]; simpl; [tauto|].
  intros N I. inversion N as [|? ? X N']; subst.
  destruct I as [->|I].
  - now rewrite (proj2 (Heq (key a) (key a)) eq_refl).
  - destruct (eqb (key x) (key a)) eqn:E.
    + apply Heq in E. exfalso. apply X. rewrite E. now apply in_map.
    + now apply IH.
Qed.

(** The accepted login. *)
Lemma login_run :
  forall (check_password_hash : string -> string -> bool)
         (req : Request) (w : World) (u : User.t) (password : string),
    method req = POST ->
    csrf_token_valid req = true ->
    NoDup (map User.email (users (db w))) ->
    In u (users (db w)) ->
    lookup "email" (form req) = Some (User.email u) ->
    lookup "password" (form req) = Some password ->
    Py.blank (User.email u) = false ->
    Py.blank password = false ->
    check_password_hash (User.password u) password = true ->
    handle (login check_password_hash) req w =
      (mk_world (db w) (Some (User.id u)) (flashes w) (commits w),
       redirect (url_get_all_posts None))
    /\ session_user
         (mk_world (db w) (Some (User.id u)) (flashes w) (commits w))
       <> AnonymousUser.
Proof.
  intros chk req w u pw Hm Hc N I He Epw Be Bp C.
  pose proof (first_filter_unique User.email String.eqb _ u
                                  String.eqb_eq N I) as F.
  split.
  - unfold handle, login.
    unfold make_form, validate_on_submit, form_item, bind, request, ret,
      is_submitted, query.
    rewrite Hm. simpl. rewrite He, Epw. simpl. rewrite Hc, Be, Bp. simpl.
    rewrite ?He, ?Epw. simpl. rewrite F. simpl. rewrite C. reflexivity.
  - unfold session_user. simpl.
    destruct (get_in User.id _ _ I) as [u' [E _]]. now rewrite E.
Qed.

(** The two refusals of a valid login submission. *)
Lemma login_refused chk req w email password :
  method req = POST ->
  csrf_token_valid req = true ->
  lookup "email" (form req) = Some email ->
  lookup "password" (form req) = Some password ->
  Py.blank email = false ->
  Py.blank password = false ->
  match first (filter (fun x => (User.email x =? email)%string)
                      (users (db w))) with
  | None =>
      handle (login chk) req w =
        (with_flash w "That email doesn't exist. Please try again.",
         redirect url_login)
  | Some u =>
      chk (User.password u) password = false ->
      handle (login chk) req w =
        (with_flash w "You entered the wrong password. Please try again.",
         redirect url_login)
  end.
Proof.
  intros Hm Hc He Epw Be Bp.
  destruct (first _) as [u|] eqn:F; [intros C|];
    unfold handle, login;
    unfold make_form, validate_on_submit, form_item, bind, request, ret,
      is_submitted, query;
    rewrite Hm; simpl; rewrite He, Epw; simpl; rewrite Hc, Be, Bp; simpl;
    rewrite ?He, ?Epw; simpl; rewrite F; simpl; now rewrite ?C.
Qed.

Lemma logout_run req w :
  handle logout req w =
  (mk_world (db w) None (flashes w) (commits w),
   redirect (url_get_all_posts None)).
Proof. reflexivity. Qed.

(** X5.  After [logout] the session is anonymous whatever it was: the next
    request to a view under [admin_only] is answered with 403 and the next
    [delete_comment] with 401, and neither changes anything. *)
Theorem logout_ends_the_session :
  forall (req req' : Request) (w : World) (A : Type)
         (f : A -> M Response) (a : A) (post_id comment_id : Z),
    let w1 := fst (handle logout req w) in
    db w1 = db w
    /\ session_user w1 = AnonymousUser
    /\ handle (admin_only f a) req' w1 = (w1, http_error 403)
    /\ handle (delete_comment post_id comment_id) req' w1
       = (w1, http_error 401).
Proof.
  intros req req' w A f a post_id comment_id w1.
  unfold w1. rewrite logout_run. simpl.
  split; [reflexivity|]. split; [reflexivity|]. split.
  - now rewrite handle_admin_only.
  - unfold handle, delete_comment.
    now rewrite login_required_run by reflexivity.
Qed.

(** X2.  [login] never writes to the database, and it changes the login
    of the session only to a user whose stored email is the submitted one
    and whose stored hash the submitted password checks against. *)
Theorem login_needs_the_password :
  forall (check_password_hash : string -> string -> bool)
         (req : Request) (w : World),
    let w' := fst (handle (login check_password_hash) req w) in
    db w' = db w
    /\ commits w' = commits w
    /\ (session_user_id w' = session_user_id w
        \/ exists u email password,
            lookup "email" (form req) = Some email
            /\ lookup "password" (form req) = Some password
            /\ In u (users (db w))
            /\ User.email u = email
            /\ check_password_hash (User.password u) password = true
            /\ session_user_id w' = Some (User.id u)).
Proof. exact login_outcome. Qed.

(** X3.  With emails unique, a valid submission of the email of a user
    and of a password that checks against the stored hash logs that user
    in and redirects home; nothing is flashed or written. *)
Theorem login_with_the_password :
  forall (check_password_hash : string -> string -> bool)
         (req : Request) (w : World) (u : User.t) (password : string),
    method req = POST ->
    csrf_token_valid req = true ->
    NoDup (map User.email (users (db w))) ->
    In u (users (db w)) ->
    lookup "email" (form req) = Some (User.email u) ->
    lookup "password" (form req) = Some password ->
    Py.blank (User.email u) = false ->
    Py.blank password = false ->
    check_password_hash (User.password u) password = true ->
    handle (login check_password_hash) req w =
      (mk_world (db w) (Some (User.id u)) (flashes w) (commits w),
       redirect (url_get_all_posts None))
    /\ session_user
         (mk_world (db w) (Some (User.id u)) (flashes w) (commits w))
       <> AnonymousUser.
Proof. exact login_run. Qed.

(** X4.  A valid login submission is refused with a flashed message and a
    redirect back to the login page, the login of the session and the
    database staying as they were, when no user has the submitted email
    and, emails being unique, when the submitted password does not check
    against the hash of the user who has it. *)
Theorem login_rejects :
  forall (check_password_hash : string -> string -> bool)
         (req : Request) (w : World) (email password : string),
    method req = POST ->
    csrf_token_valid req = true ->
    lookup "email" (form req) = Some email ->
    lookup "password" (form req) = Some password ->
    Py.blank email = false ->
    Py.blank password = false ->
    ((forall x, In x (users (db w)) -> User.email x <> email) ->
     handle (login check_password_hash) req w =
       (with_flash w "That email doesn't exist. Please try again.",
        redirect url_login))
    /\ (forall u,
           NoDup (map User.email (users (db w))) ->
           In u (users (db w)) ->
           User.email u = email ->
           check_password_hash (User.password u) password = false ->
           handle (login check_password_hash) req w =
             (with_flash w
                "You entered the wrong password. Please try again.",
              redirect url_login)).
Proof.
  intros chk req w em pw Hm Hc He Epw Be Bp.
  pose proof (login_refused chk req w em pw Hm Hc He Epw Be Bp) as R.
  split.
  - intros Fresh.
    rewrite existsb_false_first in R; [exact R|].
    intros x I. apply String.eqb_neq. now apply Fresh.
  - intros u N I E C. subst em.
    rewrite (first_filter_unique User.email String.eqb _ u
                                 String.eqb_eq N I) in R.
    now apply R.
Qed.

(** X6.  Registering, logging out and logging in again with the same email
    and password gives back the session of the registered user, provided
    the hash function checks a password against its own hash. *)
Theorem register_logout_login :
  forall (generate_password_hash : string -> string -> string)
         (check_password_hash : string -> string -> bool)
         (req req1 req2 : Request) (w : World)
         (username email password : string),
    method req = POST -> csrf_token_valid req = true ->
    lookup "username" (form req) = Some username ->
    lookup "email" (form req) = Some email ->
    lookup "password" (form req) = Some password ->
    Py.blank username = false ->
    Py.blank email = false ->
    Py.blank password = false ->
    NoDup (map User.email (users (db w))) ->
    (forall x, In x (users (db w)) -> User.email x <> email) ->
    method req2 = POST -> csrf_token_valid req2 = true ->
    lookup "email" (form req2) = Some email ->
    lookup "password" (form req2) = Some password ->
    check_password_hash
      (generate_password_hash password (salt req)) password = true ->
    let w1 := fst (handle (register generate_password_hash) req w) in
    let w2 := fst (handle logout req1 w1) in
    let w3 := fst (handle (login check_password_hash) req2 w2) in
    session_user w1 <> AnonymousUser
    /\ session_user w2 = AnonymousUser
    /\ session_user w3 = session_user w1
    /\ db w3 = db w1.
Proof.
  intros gen chk req req1 req2 w un em pw Hm Hc Eun He Epw Bu Be Bp N Fresh
         Hm2 Hc2 He2 Epw2 C w1 w2 w3.
  destruct (register_run gen req w un em pw Hm Hc Eun He Epw Bu Be Bp Fresh)
    as (R & S & _).
  set (u := User.mk (next_id (map User.id (users (db w)))) un em
                    (gen pw (salt req))) in *.
  assert (NoDup (map User.email (users (db w) ++ [u]))) as N'.
  { rewrite map_app. apply NoDup_snoc; [exact N|].
    intros I. apply in_map_iff in I as [x [E I]]. now apply (Fresh x I). }
  unfold w3, w2, w1. rewrite R. cbn [fst]. rewrite logout_run. cbn [fst].
  split; [now rewrite S|]. split; [reflexivity|].
  match goal with
  | |- context [handle (login chk) req2 ?w0] =>
      destruct (login_run chk req2 w0 u pw Hm2 Hc2) as (L & _);
        [exact N' | apply in_or_app; right; now left
         | exact He2 | exact Epw2 | exact Be | exact Bp | exact C
         | rewrite L]
  end.
  cbn [fst]. split; reflexivity.
Qed.

(* ================================================================== *)
(** * [get_all_posts]: the pages *)
(* ================================================================== *)

Lemma firstn_plus {A} (n m : nat) (l : list A) :
  firstn (n + m) l = (firstn n l ++ firstn m (skipn n l))%list.
Proof.
  revert l. induction n as [|n IH]; intros l; [reflexivity|].
  destruct l as [|a l]; simpl; [now rewrite firstn_nil|].
  now rewrite IH.
Qed.


Lemma concat_pages d k :
  List.concat (map (page_items d) (seq 1 k)) = firstn (5 * k) (posts_by_date d).
Proof.
  induction k as [|k IH]; [reflexivity|].
  rewrite seq_S, map_app, concat_app, IH. simpl List.concat.
  rewrite app_nil_r. unfold page_items.
  replace (S k - 1)%nat with k by lia.
  replace (5 * S k)%nat with (5 * k + 5)%nat by lia.
  now rewrite firstn_plus.
Qed.


Lemma listed_page req w :
  listed req w =
  if requested_page req <? 1 then []
  else page_items (db w) (Z.to_nat (requested_page req)).
Proof.
  unfold listed. pose proof (get_all_posts_run req w) as R.
  cbv zeta in R. rewrite R. cbn [snd].
  destruct (requested_page req <? 1); [reflexivity|].
  destruct (page_items (db w) (Z.to_nat (requested_page req)));
    [|reflexivity].
  now destruct (requested_page req =? 1).
Qed.

Lemma listed_nth req w i p :
  nth_error (listed req w) i = Some p ->
  1 <= requested_page req /\ (i < 5)%nat
  /\ nth_error (posts_by_date (db w))
               (5 * (Z.to_nat (requested_page req) - 1) + i) = Some p.
Proof.
  rewrite listed_page. destruct (requested_page req <? 1) eqn:L.
  - now destruct i.
  - apply Z.ltb_ge in L. unfold page_items.
    rewrite nth_error_firstn, nth_error_skipn.
    destruct (Nat.ltb_spec i 5); [|discriminate].
    intros E. split; [exact L|]. split; [assumption|exact E].
Qed.

Lemma StronglySorted_nth {A} (R : A -> A -> Prop) (l : list A) :
  StronglySorted R l ->
  forall x y a b,
    (x < y)%nat -> nth_error l x = Some a -> nth_error l y = Some b -> R a b.
Proof.
  induction 1 as [|c l S IH F]; intros x y a b L Ea Eb.
  - now destruct x.
  - destruct y as [|y]; [lia|]. destruct x as [|x]; simpl in Ea, Eb.
    + injection Ea as <-. rewrite Forall_forall in F.
      apply F. eapply nth_error_In, Eb.
    + apply (IH x y); [lia|assumption|assumption].
Qed.

Lemma string_ltb_irrefl (s : string) : String.ltb s s = false.
Proof.
  unfold String.ltb. pose proof (String.compare_antisym s s) as C.
  destruct (String.compare s s); try discriminate; reflexivity.
Qed.

(** X8.  The pages [get_all_posts] serves partition the posts: the
    answers to requests for the pages 1 to [k], put end to end, are the
    first [5 k] posts in the order of the home page, so with enough pages
    every stored post is listed exactly once; no answer lists more than
    five posts. *)
Theorem served_pages_partition_the_posts :
  forall (w : World) (page : nat -> Request) (k : nat),
    (forall n : nat,
        (1 <= n <= k)%nat -> requested_page (page n) = Z.of_nat n) ->
    List.concat (map (fun n => listed (page n) w) (seq 1 k))
    = firstn (5 * k) (order_by_desc BlogPost.date (blog_posts (db w)))
    /\ ((List.length (blog_posts (db w)) <= 5 * k)%nat ->
        Permutation (List.concat (map (fun n => listed (page n) w) (seq 1 k)))
                    (blog_posts (db w)))
    /\ (forall req : Request, (List.length (listed req w) <= 5)%nat).
Proof.
  intros w page k P.
  assert (map (fun n => listed (page n) w) (seq 1 k)
          = map (page_items (db w)) (seq 1 k)) as E.
  { apply map_ext_in. intros n I. apply in_seq in I.
    rewrite listed_page, (P n) by lia.
    destruct (Z.ltb_spec (Z.of_nat n) 1); [lia|].
    now rewrite Nat2Z.id. }
  rewrite E. fold (posts_by_date (db w)).
  split; [apply concat_pages|]. split.
  - intros L. rewrite concat_pages, firstn_all2.
    + apply order_by_desc_perm.
    + unfold posts_by_date.
      now rewrite (Permutation_length (order_by_desc_perm _ _)).
  - intros req. rewrite listed_page.
    destruct (requested_page req <? 1); [simpl; lia|].
    apply firstn_le_length.
Qed.

(** X9.  The home page orders the posts by the hour of the day first:
    whatever their days, months and years, a post written at a later hour
    is served before a post written at an earlier hour, on an earlier
    page or higher on the same page. *)
Theorem later_hour_is_served_first :
  forall (w : World) (req_p req_q : Request) (p q : BlogPost.t)
         (a b : Py.datetime) (i j : nat),
    BlogPost.date p = Py.strftime a ->
    BlogPost.date q = Py.strftime b ->
    0 <= Py.hour b < Py.hour a -> Py.hour a < 24 ->
    nth_error (listed req_p w) i = Some p ->
    nth_error (listed req_q w) j = Some q ->
    requested_page req_p < requested_page req_q
    \/ (requested_page req_p = requested_page req_q /\ (i < j)%nat).
Proof.
  intros w req_p req_q p q a b i j Ep Eq B1 B2 Np Nq.
  apply listed_nth in Np as (Lp & Ip & Np).
  apply listed_nth in Nq as (Lq & Iq & Nq).
  pose proof (order_by_desc_sorted BlogPost.date (blog_posts (db w))) as S.
  fold (posts_by_date (db w)) in S.
  pose proof (strftime_later_hour a b B1 B2) as G.
  set (x := (5 * (Z.to_nat (requested_page req_p) - 1) + i)%nat) in *.
  set (y := (5 * (Z.to_nat (requested_page req_q) - 1) + j)%nat) in *.
  destruct (Nat.lt_trichotomy x y) as [L|[L|L]].
  - unfold x, y in L. lia.
  - exfalso. rewrite L, Nq in Np. injection Np as ->.
    rewrite Ep in Eq. rewrite <- Eq, string_ltb_irrefl in G. discriminate.
  - exfalso.
    pose proof (StronglySorted_nth _ _ S y x q p L Nq Np) as D.
    unfold desc, str_ge in D. rewrite Ep, Eq in D. congruence.
Qed.

(* ================================================================== *)
(** * [show_post]: reading a post and adding a comment *)
(* ================================================================== *)

Lemma show_post_not_submitted req w post_id :
  method req <> POST ->
  handle (show_post post_id) req w =
  (w, render_template
        (post_html (get BlogPost.id (blog_posts (db w)) post_id)
                   (mk_form [("comment_field", None); ("post_comment", None)]
                            []))).
Proof.
  intros Hm. unfold handle, show_post.
  rewrite (bind_return _ _ _ _ _ _ (show_post_queries_run post_id req w)).
  unfold make_form, validate_on_submit, bind, request, ret, is_submitted.
  destruct (method req); try reflexivity. now elim Hm.
Qed.

(** The accepted comment of an anonymous visitor. *)
Lemma show_post_anonymous_run req w post_id text :
  method req = POST ->
  csrf_token_valid req = true ->
  comment_text req = Some text ->
  Py.blank text = false ->
  session_user w = AnonymousUser ->
  handle (show_post post_id) req w =
  (with_flash w "Please login or register to post comments.",
   redirect url_login).
Proof.
  intros Hm Hc Ht Hb Hu. unfold handle, show_post, comment_text in *.
  rewrite (bind_return _ _ _ _ _ _ (show_post_queries_run post_id req w)).
  unfold make_form, validate_on_submit, bind, request, ret, is_submitted.
  rewrite Hm. simpl. rewrite Ht. simpl. rewrite Hc, Hb. simpl.
  rewrite current_user_run by reflexivity. simpl. now rewrite Hu.
Qed.

(** X10.  A request to [show_post] that is not a POST changes nothing and
    renders the page of the post with an unbound comment form; for an id
    that has no post the page is rendered without a post, not answered
    with 404. *)
Theorem show_post_get_reads_only :
  forall (req : Request) (w : World) (post_id : Z),
    method req <> POST ->
    handle (show_post post_id) req w =
      (w, render_template
            (post_html (get BlogPost.id (blog_posts (db w)) post_id)
                       (mk_form [ ("comment_field", None);
                                  ("post_comment", None) ] [])))
    /\ (get BlogPost.id (blog_posts (db w)) post_id = None ->
        snd (handle (show_post post_id) req w) <> http_error 404).
Proof.
  intros req w post_id Hm.
  rewrite (show_post_not_submitted req w post_id Hm).
  split; [reflexivity|]. intros _. discriminate.
Qed.

(** X11.  An accepted comment of a logged-in user (POST, valid CSRF
    token, text not blank) is stored and committed as one new row with a
    fresh id, the id of the requested post, the id of the user, the
    submitted text and the formatted clock; the other rows are untouched
    and the page is rendered again with the comment field emptied. *)
Theorem add_comment_stores_the_comment :
  forall (req : Request) (w : World) (post_id : Z) (text : string)
         (u : User.t),
    method req = POST ->
    csrf_token_valid req = true ->
    comment_text req = Some text ->
    Py.blank text = false ->
    session_user w = LoggedIn u ->
    exists f,
      handle (show_post post_id) req w =
      (committed w
         (mk_db (users (db w)) (blog_posts (db w))
                (comments (db w)
                   ++ [Comment.mk
                         (next_id (map Comment.id (comments (db w))))
                         (option_map BlogPost.id
                            (get BlogPost.id (blog_posts (db w)) post_id))
                         (User.id u) text (Py.strftime (now req))])%list),
       render_template
         (post_html (get BlogPost.id (blog_posts (db w)) post_id) f))
      /\ field_data f "comment_field" = Some "".
Proof. exact show_post_comment_authenticated. Qed.

(** X12.  An accepted comment sent to the page of a post that does not
    exist is stored all the same, without parent; no later run of
    [delete_all_comments] on that database removes it, for whatever post
    and in whatever session, the administrator's included. *)
Theorem comment_on_missing_post_is_kept :
  forall (req : Request) (w : World) (post_id : Z) (text : string)
         (u : User.t),
    method req = POST ->
    csrf_token_valid req = true ->
    comment_text req = Some text ->
    Py.blank text = false ->
    session_user w = LoggedIn u ->
    get BlogPost.id (blog_posts (db w)) post_id = None ->
    let c := Comment.mk (next_id (map Comment.id (comments (db w)))) None
                        (User.id u) text (Py.strftime (now req)) in
    let w1 := fst (handle (show_post post_id) req w) in
    comments (db w1) = (comments (db w) ++ [c])%list
    /\ forall (user_id : option Z) (flashed : list string)
              (committed : list Database) (req' : Request) (post_id' : Z),
        In c (comments
                (db (fst (handle (delete_all_comments post_id') req'
                                 (mk_world (db w1) user_id flashed
                                           committed))))).
Proof.
  intros req w post_id text u Hm Hc Ht Hb Hu Hg c w1.
  destruct (show_post_comment_authenticated req w post_id text u
                                            Hm Hc Ht Hb Hu) as [f [E _]].
  rewrite Hg in E. simpl in E. fold c in E.
  assert (comments (db w1) = (comments (db w) ++ [c])%list) as C.
  { unfold w1. now rewrite E. }
  split; [exact C|].
  intros user_id flashed committed req' post_id'.
  set (w2 := mk_world (db w1) user_id flashed committed).
  unfold delete_all_comments.
  rewrite handle_admin_only.
  assert (In c (comments (db w2))) as I.
  { change (comments (db w2)) with (comments (db w1)).
    rewrite C. apply in_or_app. right. now left. }
  destruct (is_admin w2); [|exact I].
  unfold handle. fold (begin_request w2).
  rewrite delete_all_comments_body_run. cbn [fst world begin_request].
  rewrite delete_each_comments. simpl. apply filter_In. split; [exact I|].
  apply negb_true_iff.
  destruct (existsb _ _) eqn:X; [|reflexivity].
  apply existsb_exists in X as [x [Ix X]]. apply Z.eqb_eq in X.
  apply filter_In in Ix as [Ix Hx]. rewrite C in Ix.
  apply in_app_or in Ix as [Ix|[<-|[]]].
  - assert (Comment.id x < Comment.id c).
    { apply next_id_above. now apply in_map. }
    lia.
  - discriminate Hx.
Qed.

Lemma delete_comment_requires_login_run req w post_id comment_id :
  is_authenticated (session_user w) = false ->
  handle (delete_comment post_id comment_id) req w = (w, http_error 401).
Proof.
  intros A. unfold handle, delete_comment.
  rewrite login_required_run by reflexivity. simpl. now rewrite A.
Qed.

(** X13.  [delete_comment] for a session that is not authenticated (no
    login, or the id of a user that does not exist) is answered with 401:
    no login view is configured to redirect to.  Nothing is deleted. *)
Theorem delete_comment_requires_login :
  forall (req : Request) (w : World) (post_id comment_id : Z),
    is_authenticated (session_user w) = false ->
    handle (delete_comment post_id comment_id) req w = (w, http_error 401).
Proof.
  intros req w post_id comment_id. apply delete_comment_requires_login_run.
Qed.

(* ================================================================== *)
(** * [add_new_post] *)
(* ================================================================== *)

Lemma is_admin_session w :
  is_admin w = true ->
  exists u, session_user w = LoggedIn u /\ User.id u = 1
            /\ In u (users (db w)).
Proof.
  unfold is_admin. destruct (session_user w) as [|u] eqn:S; [discriminate|].
  intros E. apply Z.eqb_eq in E. exists u. repeat split; try assumption.
  unfold session_user in S.
  destruct (session_user_id w) as [k|]; [|discriminate].
  destruct (get User.id (users (db w)) k) as [u'|] eqn:G; [|discriminate].
  inversion S; subst. now apply get_some_id in G.
Qed.

Lemma existsb_false {A} (f : A -> bool) (l : list A) :
  (forall x, In x l -> f x = false) -> existsb f l = false.
Proof.
  intros H. destruct (existsb f l) eqn:E; [|reflexivity].
  apply existsb_exists in E as [x [I E]]. now rewrite (H x I) in E.
Qed.

Lemma add_new_post_body_run url_ok req w u title subtitle img_url body :
  session_user w = LoggedIn u ->
  method req = POST ->
  csrf_token_valid req = true ->
  lookup "title" (form req) = Some title ->
  lookup "subtitle" (form req) = Some subtitle ->
  lookup "img_url" (form req) = Some img_url ->
  lookup "body" (form req) = Some body ->
  Py.blank title = false ->
  Py.blank subtitle = false ->
  Py.blank img_url = false ->
  Py.blank body = false ->
  url_ok img_url = true ->
  let p := BlogPost.mk (next_id (map BlogPost.id (blog_posts (db w))))
                       (User.id u) title subtitle (Py.strftime (now req))
                       body img_url in
  handle (add_new_post_body url_ok tt) req w =
  if existsb (fun x => (BlogPost.title x =? title)%string)
             (blog_posts (db w))
  then (w, server_fault IntegrityError)
  else (committed w (mk_db (users (db w)) (blog_posts (db w) ++ [p])%list
                           (comments (db w))),
        redirect (url_get_all_posts None)).
Proof.
  intros Hu Hm Hc Et Es Ei Eb Bt Bs Bi Bb Hurl p.
  unfold handle, add_new_post_body.
  unfold make_form, validate_on_submit, bind, request, ret, is_submitted.
  rewrite Hm. simpl. rewrite Et, Es, Ei, Eb. simpl.
  rewrite Hc, Bt, Bs, Bi, Bb. simpl. rewrite Hurl. simpl.
  rewrite current_user_run by reflexivity. simpl. rewrite Hu. simpl.
  unfold commit. simpl.
  destruct (existsb _ _); simpl; [now destruct w|reflexivity].
Qed.

Lemma existsb_false_inv {A} (f : A -> bool) (l : list A) :
  existsb f l = false -> forall x, In x l -> f x = false.
Proof.
  intros E x I. destruct (f x) eqn:F; [|reflexivity].
  assert (existsb f l = true) as T by (apply existsb_exists; eauto).
  congruence.
Qed.

(* ================================================================== *)
(** * Forms: binding and validation *)
(* ================================================================== *)

Lemma make_form_run cls kwargs req h :
  make_form cls kwargs req h =
  (Return (mk_form (map (fun f => (name f,
                                   submitted_value req kwargs (name f)))
                        cls) []),
   h).
Proof. reflexivity. Qed.

Lemma failed_fields_nil cls form :
  map name (filter (fun f => negb (run_validation_chain
                                     (validators f)
                                     (field_data form (name f))))
                   cls) = [] <->
  fields_pass cls form = true.
Proof.
  unfold fields_pass. induction cls as [|f cls IH]; simpl; [tauto|].
  destruct (run_validation_chain _ _); simpl; [exact IH|].
  split; discriminate.
Qed.

(** [validate_on_submit] reads the request and the form and touches
    nothing; it accepts exactly the submissions with a valid CSRF token
    in which every field passes. *)
Lemma validate_on_submit_run cls form req h :
  exists form',
    validate_on_submit cls form req h =
    (Return (is_submitted req && csrf_token_valid req
             && fields_pass cls form, form'), h)
    /\ data form' = data form.
Proof.
  unfold validate_on_submit, bind, request, ret.
  destruct (is_submitted req); simpl; [|now exists form].
  pose proof (failed_fields_nil cls form) as F.
  destruct (csrf_token_valid req); simpl.
  - destruct (map name _) eqn:E.
    + rewrite (proj1 F eq_refl). eexists. split; reflexivity.
    + destruct (fields_pass cls form).
      * discriminate (proj2 F eq_refl).
      * eexists. split; reflexivity.
  - eexists. split; reflexivity.
Qed.

Lemma DataRequired_chain d :
  run_validation_chain [DataRequired] d = true <->
  exists s, d = Some s /\ Py.blank s = false.
Proof.
  simpl. destruct d as [s|]; simpl.
  - destruct (Py.blank s) eqn:B; split.
    + discriminate.
    + intros [s' [E B']]. inversion E; subst. congruence.
    + intros _. now exists s.
    + reflexivity.
  - split; [discriminate|]. intros [s [E _]]. discriminate.
Qed.

Lemma DataRequired_URL_chain url_ok d :
  run_validation_chain [DataRequired; URL url_ok] d = true <->
  exists s, d = Some s /\ Py.blank s = false /\ url_ok s = true.
Proof.
  simpl. destruct d as [s|]; simpl.
  - destruct (Py.blank s) eqn:B; simpl.
    + split; [discriminate|]. intros [s' [E [B' _]]].
      inversion E; subst. congruence.
    + destruct (url_ok s) eqn:U; split.
      * intros _. now exists s.
      * reflexivity.
      * discriminate.
      * intros [s' [E [_ U']]]. inversion E; subst. congruence.
  - split; [discriminate|]. intros [s [E _]]. discriminate.
Qed.

(** A submitted field that passes [DataRequired] was in the request, or
    took the initial data of the form. *)
Lemma submitted_value_post req kwargs name s :
  method req = POST ->
  submitted_value req kwargs name = Some s ->
  Py.blank s = false ->
  lookup name (form req) = Some s
  \/ (lookup name (form req) = None /\ lookup name kwargs = Some s).
Proof.
  intros Hm. unfold submitted_value, is_submitted. rewrite Hm.
  destruct (lookup name (form req)) as [v|]; [intros E; inversion E; tauto|].
  destruct (lookup name kwargs) as [v|]; intros E B; inversion E; subst.
  - tauto.
  - discriminate B.
Qed.

Lemma CreatePostForm_pass url_ok req kwargs :
  fields_pass (CreatePostForm url_ok)
    (mk_form (map (fun f => (name f, submitted_value req kwargs (name f)))
                  (CreatePostForm url_ok)) []) =
  run_validation_chain [DataRequired] (submitted_value req kwargs "title")
  && (run_validation_chain [DataRequired]
        (submitted_value req kwargs "subtitle")
  && (run_validation_chain [DataRequired; URL url_ok]
        (submitted_value req kwargs "img_url")
  && (run_validation_chain [DataRequired]
        (submitted_value req kwargs "body")
  && true))).
Proof. reflexivity. Qed.

Lemma is_submitted_post req : is_submitted req = true -> method req = POST.
Proof. unfold is_submitted. now destruct (method req). Qed.

Lemma submitted_value_no_kwargs req name s :
  method req = POST ->
  submitted_value req [] name = Some s ->
  Py.blank s = false ->
  lookup name (form req) = Some s.
Proof.
  intros Hm E B.
  destruct (submitted_value_post req [] name s Hm E B) as [L|[_ L]];
    [exact L|discriminate L].
Qed.

(** Whatever the request, the body of [add_new_post] run for a logged-in
    user leaves the database alone or adds one post. *)
Lemma add_new_post_body_outcome url_ok req w u :
  session_user w = LoggedIn u ->
  let w' := fst (handle (add_new_post_body url_ok tt) req w) in
  (w' = w)
  \/ exists p,
      BlogPost.id p = next_id (map BlogPost.id (blog_posts (db w)))
      /\ (forall x, In x (blog_posts (db w)) ->
                    BlogPost.title x <> BlogPost.title p)
      /\ BlogPost.author_id p = User.id u
      /\ BlogPost.date p = Py.strftime (now req)
      /\ Py.blank (BlogPost.title p) = false
      /\ Py.blank (BlogPost.subtitle p) = false
      /\ Py.blank (BlogPost.body p) = false
      /\ url_ok (BlogPost.img_url p) = true
      /\ w' = committed w
                (mk_db (users (db w)) (blog_posts (db w) ++ [p])%list
                       (comments (db w))).
Proof.
  intros Hu w'. unfold w'. clear w'.
  set (f0 := mk_form (map (fun f => (name f, submitted_value req [] (name f)))
                          (CreatePostForm url_ok)) []).
  destruct (validate_on_submit_run (CreatePostForm url_ok) f0 req
                                   (begin_request w)) as [f' [V _]].
  destruct (is_submitted req && csrf_token_valid req
            && fields_pass (CreatePostForm url_ok) f0) eqn:OK.
  - apply andb_true_iff in OK as [OK P].
    apply andb_true_iff in OK as [Hs Hc].
    apply is_submitted_post in Hs. unfold f0 in P.
    rewrite CreatePostForm_pass in P.
    apply andb_true_iff in P as [Pt P].
    apply andb_true_iff in P as [Ps P].
    apply andb_true_iff in P as [Pi P].
    apply andb_true_iff in P as [Pb _].
    apply DataRequired_chain in Pt as (t & Et & Bt).
    apply DataRequired_chain in Ps as (s & Es & Bs).
    apply DataRequired_URL_chain in Pi as (i & Ei & Bi & Ui).
    apply DataRequired_chain in Pb as (b & Eb & Bb).
    apply submitted_value_no_kwargs in Et, Es, Ei, Eb; try assumption.
    rewrite (add_new_post_body_run url_ok req w u t s i b) by assumption.
    destruct (existsb _ _) eqn:X; [left; reflexivity|].
    right.
    exists (BlogPost.mk (next_id (map BlogPost.id (blog_posts (db w))))
                        (User.id u) t s (Py.strftime (now req)) b i).
    repeat split; try reflexivity; try assumption.
    intros x I. simpl. apply String.eqb_neq.
    now apply (existsb_false_inv _ _ X).
  - left. unfold handle, add_new_post_body.
    rewrite (bind_return _ _ _ _ _ _ (make_form_run _ _ _ _)). fold f0.
    now rewrite (bind_return _ _ _ _ _ _ V).
Qed.

Lemma add_new_post_effect url_ok req w :
  Effect w (db (fst (handle (add_new_post url_ok) req w)))
           (session_user_id (fst (handle (add_new_post url_ok) req w))).
Proof.
  unfold add_new_post. rewrite handle_admin_only.
  destruct (is_admin w) eqn:A; [|now apply Unchanged].
  destruct (is_admin_session w A) as (u & Hu & Hid & _).
  destruct (add_new_post_body_outcome url_ok req w u Hu)
    as [E|(p & P1 & P2 & P3 & _ & _ & _ & _ & _ & E)]; rewrite E.
  - now apply Unchanged.
  - apply Posted with p; try assumption; try reflexivity. congruence.
Qed.

(** X14.  What the admin submits is what is stored and shown: a new-post
    submission that passes validation with a title no post has commits one
    post with a fresh id, the admin as author and the formatted clock as
    date, and a later GET of [show_post] on that id renders a post with
    exactly the submitted title, subtitle, body and image URL. *)
Theorem add_new_post_round_trip :
  forall (url_ok : string -> bool) (req req' : Request) (w : World)
         (title subtitle img_url body : string),
    is_admin w = true ->
    method req = POST ->
    csrf_token_valid req = true ->
    lookup "title" (form req) = Some title ->
    lookup "subtitle" (form req) = Some subtitle ->
    lookup "img_url" (form req) = Some img_url ->
    lookup "body" (form req) = Some body ->
    Py.blank title = false ->
    Py.blank subtitle = false ->
    Py.blank img_url = false ->
    Py.blank body = false ->
    url_ok img_url = true ->
    (forall x, In x (blog_posts (db w)) -> BlogPost.title x <> title) ->
    method req' = GET ->
    let p := BlogPost.mk (next_id (map BlogPost.id (blog_posts (db w))))
                         1 title subtitle (Py.strftime (now req))
                         body img_url in
    let w' := committed w (mk_db (users (db w))
                                 (blog_posts (db w) ++ [p])%list
                                 (comments (db w))) in
    handle (add_new_post url_ok) req w =
      (w', redirect (url_get_all_posts None))
    /\ exists f,
        handle (show_post (BlogPost.id p)) req' w' =
          (w', render_template (post_html (Some p) f)).
Proof.
  intros url_ok req req' w t s i b A Hm Hc Et Es Ei Eb Bt Bs Bi Bb Ui Fresh
         Hm' p w'.
  destruct (is_admin_session w A) as (u & Hu & Hid & _).
  split.
  - unfold add_new_post. rewrite handle_admin_only, A.
    rewrite (add_new_post_body_run url_ok req w u t s i b) by assumption.
    rewrite existsb_false.
    + unfold w', p. now rewrite Hid.
    + intros x I. apply String.eqb_neq. now apply Fresh.
  - eexists. rewrite show_post_not_submitted by congruence.
    unfold w'. cbn [db committed blog_posts].
    rewrite (get_fresh BlogPost.id (blog_posts (db w)) p);
      [reflexivity|apply next_id_fresh].
Qed.

(** X15.  A new-post submission that passes validation but repeats the
    title of a stored post breaks the UNIQUE constraint of the title: the
    commit raises, the response is a server fault and nothing is
    stored. *)
Theorem add_new_post_duplicate_title :
  forall (url_ok : string -> bool) (req : Request) (w : World)
         (q : BlogPost.t) (title subtitle img_url body : string),
    is_admin w = true ->
    method req = POST ->
    csrf_token_valid req = true ->
    lookup "title" (form req) = Some title ->
    lookup "subtitle" (form req) = Some subtitle ->
    lookup "img_url" (form req) = Some img_url ->
    lookup "body" (form req) = Some body ->
    Py.blank title = false ->
    Py.blank subtitle = false ->
    Py.blank img_url = false ->
    Py.blank body = false ->
    url_ok img_url = true ->
    In q (blog_posts (db w)) ->
    BlogPost.title q = title ->
    handle (add_new_post url_ok) req w = (w, server_fault IntegrityError).
Proof.
  intros url_ok req w q t s i b A Hm Hc Et Es Ei Eb Bt Bs Bi Bb Ui I E.
  destruct (is_admin_session w A) as (u & Hu & Hid & _).
  unfold add_new_post. rewrite handle_admin_only, A.
  rewrite (add_new_post_body_run url_ok req w u t s i b) by assumption.
  replace (existsb _ _) with true; [reflexivity|].
  symmetry. apply existsb_exists. exists q. split; [exact I|].
  now apply String.eqb_eq.
Qed.

(** X16.  Whatever [add_new_post] is sent, it leaves the world exactly as
    it was or appends one post, and it appends one only for the admin, on
    a POST, with a title, subtitle and body that are not blank and an
    image URL that passes the URL check: a submission with a blank or
    missing field or a malformed URL stores nothing. *)
Theorem add_new_post_stores_valid_posts_only :
  forall (url_ok : string -> bool) (req : Request) (w : World),
    let w' := fst (handle (add_new_post url_ok) req w) in
    w' = w
    \/ exists p,
        is_admin w = true
        /\ method req = POST
        /\ Py.blank (BlogPost.title p) = false
        /\ Py.blank (BlogPost.subtitle p) = false
        /\ Py.blank (BlogPost.body p) = false
        /\ url_ok (BlogPost.img_url p) = true
        /\ blog_posts (db w') = (blog_posts (db w) ++ [p])%list.
Proof.
  intros url_ok req w w'. unfold w'. clear w'.
  unfold add_new_post. rewrite handle_admin_only.
  destruct (is_admin w) eqn:A; [|now left].
  destruct (is_admin_session w A) as (u & Hu & _).
  destruct (add_new_post_body_outcome url_ok req w u Hu)
    as [E|(p & _ & _ & _ & _ & Bt & Bs & Bb & Ui & E)].
  - now left.
  - destruct (method req) eqn:Hm;
      try (left; unfold handle, add_new_post_body;
           rewrite (bind_return _ _ _ _ _ _ (make_form_run _ _ _ _));
           unfold validate_on_submit, bind, request, ret, is_submitted;
           now rewrite Hm).
    right. exists p. rewrite E. repeat split; assumption.
Qed.

(* ================================================================== *)
(** * [edit_post] *)
(* ================================================================== *)

(** The submission of the edit form that passes validation, in terms of
    the data the fields are bound to. *)
Lemma edit_post_body_run url_ok req w post_id post t s i b :
  get BlogPost.id (blog_posts (db w)) post_id = Some post ->
  let kwargs := [ ("title", BlogPost.title post);
                  ("subtitle", BlogPost.subtitle post);
                  ("img_url", BlogPost.img_url post);
                  ("body", BlogPost.body post) ] in
  method req = POST ->
  csrf_token_valid req = true ->
  submitted_value req kwargs "title" = Some t ->
  submitted_value req kwargs "subtitle" = Some s ->
  submitted_value req kwargs "img_url" = Some i ->
  submitted_value req kwargs "body" = Some b ->
  Py.blank t = false ->
  Py.blank s = false ->
  Py.blank i = false ->
  Py.blank b = false ->
  url_ok i = true ->
  let new := BlogPost.mk (BlogPost.id post) (BlogPost.author_id post) t s
                         (BlogPost.date post) b i in
  handle (edit_post_body url_ok post_id) req w =
  if existsb (fun x => negb (BlogPost.id x =? BlogPost.id post)
                       && (BlogPost.title x =? t)%string)
             (blog_posts (db w))
  then (w, server_fault IntegrityError)
  else (committed w (mk_db (users (db w))
                           (replace_post new (blog_posts (db w)))
                           (comments (db w))),
        redirect (url_show_post (BlogPost.id post))).
Proof.
  intros G kwargs Hm Hc Et Es Ei Eb Bt Bs Bi Bb Ui new.
  unfold handle, edit_post_body. unfold bind at 1, query at 1.
  cbn [txn]. rewrite G. fold kwargs.
  rewrite (bind_return _ _ _ _ _ _ (make_form_run _ _ _ _)).
  set (f0 := mk_form _ []).
  destruct (validate_on_submit_run (CreatePostForm url_ok) f0 req
              (mk_heap w (db w) false)) as [f' [V D]].
  assert (is_submitted req && csrf_token_valid req
          && fields_pass (CreatePostForm url_ok) f0 = true) as OK.
  { apply andb_true_iff. split;
      [apply andb_true_iff; split;
       [unfold is_submitted; now rewrite Hm|exact Hc]|].
    unfold f0. rewrite CreatePostForm_pass.
    rewrite (proj2 (DataRequired_chain _)) by eauto.
    rewrite (proj2 (DataRequired_chain _)) by eauto.
    rewrite (proj2 (DataRequired_URL_chain url_ok _)) by eauto.
    rewrite (proj2 (DataRequired_chain _)) by eauto. reflexivity. }
  rewrite OK in V. rewrite (bind_return _ _ _ _ _ _ V).
  assert (forall n, field_data f' n = field_data f0 n) as FD.
  { intros n. unfold field_data. now rewrite D. }
  rewrite !FD.
  change (field_data f0 "title") with (submitted_value req kwargs "title").
  change (field_data f0 "subtitle")
    with (submitted_value req kwargs "subtitle").
  change (field_data f0 "img_url")
    with (submitted_value req kwargs "img_url").
  change (field_data f0 "body") with (submitted_value req kwargs "body").
  rewrite Et, Es, Ei, Eb. cbn [data_or_empty]. fold new.
  unfold session_update_post, set_txn, commit, bind, ret. cbn.
  fold (replace_post new (blog_posts (db w))).
  destruct (existsb _ _); [now destruct w|reflexivity].
Qed.

(** A request that is not a submission gets the form filled with the
    stored values; nothing changes. *)
Lemma edit_post_body_get url_ok req w post_id post :
  get BlogPost.id (blog_posts (db w)) post_id = Some post ->
  method req <> POST ->
  handle (edit_post_body url_ok post_id) req w =
  (w, render_template
        (make_post_html
           (mk_form [ ("title", Some (BlogPost.title post));
                      ("subtitle", Some (BlogPost.subtitle post));
                      ("img_url", Some (BlogPost.img_url post));
                      ("body", Some (BlogPost.body post));
                      ("submit_post", None) ] []))).
Proof.
  intros G Hm.
  unfold handle, edit_post_body. unfold bind at 1, query at 1.
  cbn [txn]. rewrite G.
  unfold make_form, validate_on_submit, bind, request, ret, is_submitted.
  destruct (method req); try reflexivity. now elim Hm.
Qed.

Lemma get_replace_post (new old : BlogPost.t) (posts : list BlogPost.t) :
  In old posts -> BlogPost.id new = BlogPost.id old ->
  get BlogPost.id (replace_post new posts) (BlogPost.id old) = Some new.
Proof.
  intros I E. unfold get, replace_post. rewrite <- E.
  induction posts as [|x posts IH]; simpl; [destruct I|].
  destruct (BlogPost.id x =? BlogPost.id new) eqn:X; simpl.
  - now rewrite Z.eqb_refl.
  - rewrite X. destruct I as [->|I]; [|now apply IH].
    rewrite E, Z.eqb_refl in X. discriminate.
Qed.

(** Whatever the request, the body of [edit_post] leaves the database
    alone or rewrites the posts of one id. *)
Lemma edit_post_body_outcome url_ok req w post_id :
  let w' := fst (handle (edit_post_body url_ok post_id) req w) in
  w' = w
  \/ exists old new,
      get BlogPost.id (blog_posts (db w)) post_id = Some old
      /\ BlogPost.id new = BlogPost.id old
      /\ BlogPost.author_id new = BlogPost.author_id old
      /\ BlogPost.date new = BlogPost.date old
      /\ (forall x, In x (blog_posts (db w)) ->
                    BlogPost.id x <> BlogPost.id old ->
                    BlogPost.title x <> BlogPost.title new)
      /\ Py.blank (BlogPost.title new) = false
      /\ url_ok (BlogPost.img_url new) = true
      /\ w' = committed w
                (mk_db (users (db w))
                       (replace_post new (blog_posts (db w)))
                       (comments (db w))).
Proof.
  intros w'. unfold w'. clear w'.
  destruct (get BlogPost.id (blog_posts (db w)) post_id) as [post|] eqn:G.
  2:{ left. unfold handle, edit_post_body, bind, query. cbn [txn].
      now rewrite G. }
  set (kwargs := [ ("title", BlogPost.title post);
                   ("subtitle", BlogPost.subtitle post);
                   ("img_url", BlogPost.img_url post);
                   ("body", BlogPost.body post) ]).
  set (f0 := mk_form (map (fun f => (name f,
                                     submitted_value req kwargs (name f)))
                          (CreatePostForm url_ok)) []).
  destruct (validate_on_submit_run (CreatePostForm url_ok) f0 req
              (mk_heap w (db w) false)) as [f' [V _]].
  destruct (is_submitted req && csrf_token_valid req
            && fields_pass (CreatePostForm url_ok) f0) eqn:OK.
  - apply andb_true_iff in OK as [OK P].
    apply andb_true_iff in OK as [Hs Hc].
    apply is_submitted_post in Hs. unfold f0 in P.
    rewrite CreatePostForm_pass in P.
    apply andb_true_iff in P as [Pt P].
    apply andb_true_iff in P as [Ps P].
    apply andb_true_iff in P as [Pi P].
    apply andb_true_iff in P as [Pb _].
    apply DataRequired_chain in Pt as (t & Et & Bt).
    apply DataRequired_chain in Ps as (s & Es & Bs).
    apply DataRequired_URL_chain in Pi as (i & Ei & Bi & Ui).
    apply DataRequired_chain in Pb as (b & Eb & Bb).
    rewrite (edit_post_body_run url_ok req w post_id post t s i b)
      by assumption.
    destruct (existsb _ _) eqn:X; [left; reflexivity|].
    right.
    exists post, (BlogPost.mk (BlogPost.id post) (BlogPost.author_id post)
                              t s (BlogPost.date post) b i).
    repeat split; try reflexivity; try assumption.
    intros x I N. simpl. apply String.eqb_neq.
    pose proof (existsb_false_inv _ _ X x I) as F. cbv beta in F.
    apply Z.eqb_neq in N. rewrite N in F. simpl in F. exact F.
  - left. unfold handle, edit_post_body. unfold bind at 1, query at 1.
    cbn [txn]. rewrite G.
    rewrite (bind_return _ _ _ _ _ _ (make_form_run _ _ _ _)).
    fold kwargs. fold f0.
    now rewrite (bind_return _ _ _ _ _ _ V).
Qed.

Lemma edit_post_effect url_ok req w post_id :
  Effect w (db (fst (handle (edit_post url_ok post_id) req w)))
         (session_user_id (fst (handle (edit_post url_ok post_id) req w))).
Proof.
  unfold edit_post. rewrite handle_admin_only.
  destruct (is_admin w) eqn:A; [|now apply Unchanged].
  destruct (edit_post_body_outcome url_ok req w post_id)
    as [E|(old & new & G & P1 & P2 & P3 & P4 & _ & _ & E)]; rewrite E.
  - now apply Unchanged.
  - apply get_some_id in G as [_ I].
    now apply Edited with old new.
Qed.

Lemma submitted_value_sent req kwargs name v :
  method req = POST ->
  lookup name (form req) = Some v ->
  submitted_value req kwargs name = Some v.
Proof.
  intros Hm E. unfold submitted_value, is_submitted. now rewrite Hm, E.
Qed.

Lemma replace_post_other (new x : BlogPost.t) (posts : list BlogPost.t) :
  BlogPost.id x <> BlogPost.id new ->
  (In x (replace_post new posts) <-> In x posts).
Proof.
  intros N. unfold replace_post. rewrite in_map_iff. split.
  - intros [y [E I]].
    destruct (BlogPost.id y =? BlogPost.id new); subst; [now elim N|exact I].
  - intros I. exists x. split; [|exact I].
    apply Z.eqb_neq in N. now rewrite N.
Qed.

(** X17.  For the admin, a request to [edit_post] that is not a submission
    renders the form filled with the stored title, subtitle, image URL
    and body of the post; nothing changes. *)
Theorem edit_post_get_prefills :
  forall (url_ok : string -> bool) (req : Request) (w : World)
         (post_id : Z) (post : BlogPost.t),
    is_admin w = true ->
    get BlogPost.id (blog_posts (db w)) post_id = Some post ->
    method req <> POST ->
    handle (edit_post url_ok post_id) req w =
      (w, render_template
            (make_post_html
               (mk_form [ ("title", Some (BlogPost.title post));
                          ("subtitle", Some (BlogPost.subtitle post));
                          ("img_url", Some (BlogPost.img_url post));
                          ("body", Some (BlogPost.body post));
                          ("submit_post", None) ] []))).
Proof.
  intros url_ok req w post_id post A G Hm.
  unfold edit_post. rewrite handle_admin_only, A.
  now apply edit_post_body_get.
Qed.

(** X18.  The admin's edit submission that passes validation, with a title
    no other post has, commits the post with the four submitted fields and
    the id, author and date it had, and redirects to its page; looking the
    id up afterwards gives the edited post; posts of other ids, users and
    comments are untouched. *)
Theorem edit_post_updates_the_post :
  forall (url_ok : string -> bool) (req : Request) (w : World)
         (post_id : Z) (post : BlogPost.t)
         (title subtitle img_url body : string),
    is_admin w = true ->
    get BlogPost.id (blog_posts (db w)) post_id = Some post ->
    method req = POST ->
    csrf_token_valid req = true ->
    lookup "title" (form req) = Some title ->
    lookup "subtitle" (form req) = Some subtitle ->
    lookup "img_url" (form req) = Some img_url ->
    lookup "body" (form req) = Some body ->
    Py.blank title = false ->
    Py.blank subtitle = false ->
    Py.blank img_url = false ->
    Py.blank body = false ->
    url_ok img_url = true ->
    (forall x, In x (blog_posts (db w)) ->
               BlogPost.id x <> post_id -> BlogPost.title x <> title) ->
    let new := BlogPost.mk post_id (BlogPost.author_id post) title subtitle
                           (BlogPost.date post) body img_url in
    let d' := mk_db (users (db w)) (replace_post new (blog_posts (db w)))
                    (comments (db w)) in
    handle (edit_post url_ok post_id) req w =
      (committed w d', redirect (url_show_post post_id))
    /\ get BlogPost.id (blog_posts d') post_id = Some new
    /\ (forall x, BlogPost.id x <> post_id ->
                  (In x (blog_posts d') <-> In x (blog_posts (db w)))).
Proof.
  intros url_ok req w post_id post t s i b A G Hm Hc Et Es Ei Eb
         Bt Bs Bi Bb Ui Clash new d'.
  destruct (get_some_id _ _ _ _ G) as [Eid I].
  split; [|split].
  - unfold edit_post. rewrite handle_admin_only, A.
    rewrite (edit_post_body_run url_ok req w post_id post t s i b);
      try assumption; try (now apply submitted_value_sent).
    rewrite existsb_false.
    + unfold d', new. now rewrite Eid.
    + intros x Ix. destruct (BlogPost.id x =? BlogPost.id post) eqn:X;
        [reflexivity|]. simpl. apply String.eqb_neq.
      apply Clash; [exact Ix|]. apply Z.eqb_neq in X. congruence.
  - unfold d'. cbn [blog_posts].
    pose proof (get_replace_post new post _ I (eq_sym Eid)) as H.
    now rewrite Eid in H.
  - intros x N. unfold d'. cbn [blog_posts]. now apply replace_post_other.
Qed.

(** X19.  The admin's edit submission that passes validation but takes the
    title of another post breaks the UNIQUE constraint of the title: the
    commit raises, the response is a server fault and the post keeps what
    it had. *)
Theorem edit_post_duplicate_title :
  forall (url_ok : string -> bool) (req : Request) (w : World)
         (post_id : Z) (post q : BlogPost.t)
         (title subtitle img_url body : string),
    is_admin w = true ->
    get BlogPost.id (blog_posts (db w)) post_id = Some post ->
    method req = POST ->
    csrf_token_valid req = true ->
    lookup "title" (form req) = Some title ->
    lookup "subtitle" (form req) = Some subtitle ->
    lookup "img_url" (form req) = Some img_url ->
    lookup "body" (form req) = Some body ->
    Py.blank title = false ->
    Py.blank subtitle = false ->
    Py.blank img_url = false ->
    Py.blank body = false ->
    url_ok img_url = true ->
    In q (blog_posts (db w)) ->
    BlogPost.id q <> post_id ->
    BlogPost.title q = title ->
    handle (edit_post url_ok post_id) req w
    = (w, server_fault IntegrityError).
Proof.
  intros url_ok req w post_id post q t s i b A G Hm Hc Et Es Ei Eb
         Bt Bs Bi Bb Ui Iq Nq Eq.
  destruct (get_some_id _ _ _ _ G) as [Eid _].
  unfold edit_post. rewrite handle_admin_only, A.
  rewrite (edit_post_body_run url_ok req w post_id post t s i b);
    try assumption; try (now apply submitted_value_sent).
  replace (existsb _ _) with true; [reflexivity|].
  symmetry. apply existsb_exists. exists q. split; [exact Iq|].
  apply andb_true_iff. split.
  - apply negb_true_iff, Z.eqb_neq. congruence.
  - now apply String.eqb_eq.
Qed.

(* ================================================================== *)
(** * [delete_all_comments] on its own *)
(* ================================================================== *)

Lemma delete_all_comments_run req w post_id :
  is_admin w = true ->
  handle (delete_all_comments post_id) req w =
  (delete_each w (filter (has_post_id post_id) (comments (db w))),
   redirect (url_get_all_posts (Some post_id))).
Proof.
  intros A. unfold delete_all_comments. rewrite handle_admin_only, A.
  unfold handle. fold (begin_request w).
  now rewrite delete_all_comments_body_run.
Qed.


Lemma delete_each_database w l :
  db (delete_each w l) = without_comments (db w) l.
Proof.
  pose proof (delete_each_frame w l) as (U & P & _).
  pose proof (delete_each_comments w l) as C.
  destruct (db (delete_each w l)); simpl in *. unfold without_comments.
  now subst.
Qed.

Lemma session_user_frame w w' :
  users (db w') = users (db w) ->
  session_user_id w' = session_user_id w ->
  session_user w' = session_user w.
Proof. intros U S. unfold session_user. now rewrite U, S. Qed.

Lemma is_admin_frame w w' :
  users (db w') = users (db w) ->
  session_user_id w' = session_user_id w ->
  is_admin w' = is_admin w.
Proof.
  intros U S. unfold is_admin. now rewrite (session_user_frame w w' U S).
Qed.

(** After the loop no comment of the post is left. *)
Lemma without_comments_of_post_none d post_id x :
  In x (comments (without_comments d
                    (filter (has_post_id post_id) (comments d)))) ->
  has_post_id post_id x = false.
Proof.
  simpl. rewrite filter_In. intros [I N].
  destruct (has_post_id post_id x) eqn:H; [|reflexivity].
  apply negb_true_iff in N.
  assert (existsb (fun c => Comment.id x =? Comment.id c)
                  (filter (has_post_id post_id) (comments d)) = true) as T.
  { apply existsb_exists. exists x. rewrite filter_In, Z.eqb_refl. tauto. }
  congruence.
Qed.

Lemma filter_none {A} (f : A -> bool) (l : list A) :
  (forall x, In x l -> f x = false) -> filter f l = [].
Proof.
  induction l as [|a l IH]; simpl; [reflexivity|].
  intros H. rewrite (H a) by tauto. apply IH. intros x I. apply H. tauto.
Qed.

(** X20.  [delete_all_comments] by the admin commits once for each
    comment of the post, leaves users and posts alone, leaves no comment
    of the post behind and redirects home with the post id in the query
    string; run again it finds nothing to delete and changes nothing. *)
Theorem delete_all_comments_twice :
  forall (req req' : Request) (w : World) (post_id : Z),
    is_admin w = true ->
    let cs := filter (has_post_id post_id) (comments (db w)) in
    let w1 := fst (handle (delete_all_comments post_id) req w) in
    snd (handle (delete_all_comments post_id) req w)
      = redirect (url_get_all_posts (Some post_id))
    /\ users (db w1) = users (db w)
    /\ blog_posts (db w1) = blog_posts (db w)
    /\ (forall c, In c (comments (db w1)) ->
                  Comment.post_id c <> Some post_id)
    /\ List.length (commits w1)
       = (List.length (commits w) + List.length cs)%nat
    /\ handle (delete_all_comments post_id) req' w1
       = (w1, redirect (url_get_all_posts (Some post_id))).
Proof.
  intros req req' w post_id A cs w1. unfold w1.
  rewrite (delete_all_comments_run req w post_id A). fold cs. cbn [fst snd].
  destruct (delete_each_frame w cs) as (U & P & S & _).
  assert (forall c, In c (comments (db (delete_each w cs))) ->
                    has_post_id post_id c = false) as None.
  { intros c I. rewrite delete_each_comments in I.
    now apply (without_comments_of_post_none (db w) post_id). }
  split; [reflexivity|]. split; [exact U|]. split; [exact P|].
  split; [|split].
  - intros c I E. apply has_post_id_iff in E.
    now rewrite (None c I) in E.
  - rewrite delete_each_commits, length_app, length_map, length_seq.
    reflexivity.
  - rewrite delete_all_comments_run
      by (now rewrite (is_admin_frame w _ U S)).
    now rewrite (filter_none _ _ None).
Qed.

(* ================================================================== *)
(** * The effect of every view *)
(* ================================================================== *)

Lemma is_admin_authenticated w :
  is_admin w = true -> is_authenticated (session_user w) = true.
Proof.
  unfold is_admin. now destruct (session_user w).
Qed.

Lemma get_all_posts_effect req w :
  Effect w (db (fst (handle get_all_posts req w)))
           (session_user_id (fst (handle get_all_posts req w))).
Proof.
  pose proof (get_all_posts_run req w) as R. cbv zeta in R. rewrite R.
  now apply Unchanged.
Qed.

Lemma show_post_effect req w post_id :
  Effect w (db (fst (handle (show_post post_id) req w)))
           (session_user_id (fst (handle (show_post post_id) req w))).
Proof.
  destruct (method req) eqn:Hm;
    try (rewrite show_post_not_submitted by congruence;
         now apply Unchanged).
  destruct (Py.blank (data_or_empty (comment_text req))) eqn:Hb.
  - destruct (show_post_blank_text req w post_id Hm Hb) as [f [E _]].
    rewrite E. now apply Unchanged.
  - destruct (comment_text req) as [text|] eqn:Ht; [|discriminate Hb].
    simpl in Hb.
    destruct (csrf_token_valid req) eqn:Hc.
    + destruct (session_user w) as [|u] eqn:Hu.
      * rewrite (show_post_anonymous_run req w post_id text
                                         Hm Hc Ht Hb Hu).
        now apply Unchanged.
      * destruct (show_post_comment_authenticated
                    req w post_id text u Hm Hc Ht Hb Hu) as [f [E _]].
        rewrite E.
        apply Commented with
          (u := u)
          (c := Comment.mk
                  (next_id (map Comment.id (comments (db w))))
                  (option_map BlogPost.id
                     (get BlogPost.id (blog_posts (db w)) post_id))
                  (User.id u) text (Py.strftime (now req)));
          try reflexivity; try assumption.
        cbn [Comment.post_id]. intros k Ek.
        destruct (get BlogPost.id (blog_posts (db w)) post_id) as [p|] eqn:G;
          [|discriminate Ek].
        apply get_some_id in G as [_ I]. exists p. split; [exact I|].
        simpl in Ek. congruence.
    + unfold handle, show_post, comment_text in *.
      rewrite (bind_return _ _ _ _ _ _ (show_post_queries_run post_id req w)).
      unfold make_form, validate_on_submit, bind, request, ret, is_submitted.
      rewrite Hm. simpl. rewrite Ht. simpl. rewrite Hc. simpl.
      destruct (Py.blank text); now apply Unchanged.
Qed.

Lemma without_comment_one d c comment_id :
  Comment.id c = comment_id ->
  without_comment d comment_id = without_comments d [c].
Proof.
  intros E. unfold without_comment, without_comments. f_equal.
  apply filter_ext. intros x. simpl. now rewrite orb_false_r, E.
Qed.

Lemma delete_comment_effect req w post_id comment_id :
  Effect w
    (db (fst (handle (delete_comment post_id comment_id) req w)))
    (session_user_id
       (fst (handle (delete_comment post_id comment_id) req w))).
Proof.
  destruct (is_authenticated (session_user w)) eqn:A.
  - rewrite delete_comment_run by assumption.
    destruct (get Comment.id (comments (db w)) comment_id) as [c|] eqn:G;
      [|now apply Unchanged].
    apply get_some_id in G as [E _].
    apply CommentsDeleted with [c]; [exact A| |reflexivity].
    simpl. now apply without_comment_one.
  - rewrite delete_comment_requires_login_run by assumption.
    now apply Unchanged.
Qed.

Lemma delete_all_comments_effect req w post_id :
  Effect w (db (fst (handle (delete_all_comments post_id) req w)))
         (session_user_id (fst (handle (delete_all_comments post_id) req w))).
Proof.
  destruct (is_admin w) eqn:A.
  - rewrite delete_all_comments_run by assumption. cbn [fst].
    destruct (delete_each_frame
                w (filter (has_post_id post_id) (comments (db w))))
      as (_ & _ & S & _).
    eapply CommentsDeleted;
      [now apply is_admin_authenticated|apply delete_each_database|exact S].
  - unfold delete_all_comments. rewrite handle_admin_only, A.
    now apply Unchanged.
Qed.

Lemma delete_post_effect req w post_id :
  Effect w (db (fst (handle (delete_post post_id) req w)))
         (session_user_id (fst (handle (delete_post post_id) req w))).
Proof.
  destruct (is_admin w) eqn:A.
  - pose proof (delete_post_run req w post_id A) as R. cbv zeta in R.
    rewrite R.
    set (cs := filter (has_post_id post_id) (comments (db w))).
    destruct (delete_each_frame w cs) as (_ & _ & S & _).
    pose proof (delete_each_database w cs) as D.
    destruct (get BlogPost.id (blog_posts (db w)) post_id).
    + apply PostDeleted with post_id cs; [exact A| | |exact S].
      * intros c I H. unfold cs. apply filter_In. tauto.
      * cbn [fst db committed]. unfold without_post. now rewrite D.
    + eapply CommentsDeleted;
        [now apply is_admin_authenticated|exact D|exact S].
  - unfold delete_post. rewrite handle_admin_only, A.
    now apply Unchanged.
Qed.

(** Every request to every route has one of the effects listed: nothing
    else ever happens to the database or to the login. *)
Lemma dispatch_effect url_ok gen chk (r : Route) req w :
  Effect w (db (fst (dispatch url_ok gen chk r req w)))
           (session_user_id (fst (dispatch url_ok gen chk r req w))).
Proof.
  unfold dispatch.
  destruct (existsb _ _); [|now apply Unchanged].
  destruct r; simpl view.
  - apply get_all_posts_effect.
  - apply register_effect.
  - apply login_effect.
  - rewrite logout_run. now apply LoggedOut.
  - apply show_post_effect.
  - apply add_new_post_effect.
  - apply edit_post_effect.
  - apply delete_post_effect.
  - apply delete_comment_effect.
  - apply delete_all_comments_effect.
Qed.

(* ================================================================== *)
(** * What the effects preserve *)
(* ================================================================== *)

Lemma NoDup_map_filter {A B} (f : A -> B) (g : A -> bool) (l : list A) :
  NoDup (map f l) -> NoDup (map f (filter g l)).
Proof.
  induction l as [|x l IH]; simpl; [constructor|].
  intros N. inversion N as [|? ? X N']; subst.
  destruct (g x); simpl; [|now apply IH]. constructor; [|now apply IH].
  intros I. apply X. apply in_map_iff in I as [y [E I]].
  apply filter_In in I as [I _]. rewrite <- E. now apply in_map.
Qed.

Lemma map_id_replace_post new posts :
  map BlogPost.id (replace_post new posts) = map BlogPost.id posts.
Proof.
  unfold replace_post. rewrite map_map. apply map_ext. intros x.
  destruct (BlogPost.id x =? BlogPost.id new) eqn:E; [|reflexivity].
  apply Z.eqb_eq in E. congruence.
Qed.

Lemma replace_post_absent new posts :
  ~ In (BlogPost.id new) (map BlogPost.id posts) ->
  replace_post new posts = posts.
Proof.
  intros N. unfold replace_post. rewrite <- (map_id posts) at 2.
  apply map_ext_in. intros x I.
  destruct (BlogPost.id x =? BlogPost.id new) eqn:E; [|reflexivity].
  apply Z.eqb_eq in E. exfalso. apply N. rewrite <- E. now apply in_map.
Qed.

Lemma in_replace_post new posts x :
  In x (replace_post new posts) ->
  x = new \/ (In x posts /\ BlogPost.id x <> BlogPost.id new).
Proof.
  unfold replace_post. rewrite in_map_iff. intros [y [E I]].
  destruct (BlogPost.id y =? BlogPost.id new) eqn:X; subst;
    [now left|right]. split; [exact I|]. now apply Z.eqb_neq.
Qed.

Lemma titles_replace_post new posts :
  NoDup (map BlogPost.id posts) ->
  NoDup (map BlogPost.title posts) ->
  (forall x, In x posts -> BlogPost.id x <> BlogPost.id new ->
             BlogPost.title x <> BlogPost.title new) ->
  NoDup (map BlogPost.title (replace_post new posts)).
Proof.
  induction posts as [|x posts IH]; simpl; [constructor|].
  intros Ni Nt Clash.
  inversion Ni as [|? ? Xi Ni']; inversion Nt as [|? ? Xt Nt']; subst.
  destruct (BlogPost.id x =? BlogPost.id new) eqn:E.
  - apply Z.eqb_eq in E. fold (replace_post new posts).
    rewrite replace_post_absent by (now rewrite <- E).
    constructor; [|exact Nt'].
    intros I. apply in_map_iff in I as [y [Ey Iy]].
    apply (Clash y); [now right| |exact Ey].
    intros Eid. apply Xi. rewrite E, <- Eid. now apply in_map.
  - apply Z.eqb_neq in E. fold (replace_post new posts).
    constructor; [|apply IH; auto].
    intros I. apply in_map_iff in I as [y [Ey Iy]].
    apply in_replace_post in Iy as [->|[Iy _]].
    + apply (Clash x); [now left|exact E|now symmetry].
    + apply Xt. rewrite <- Ey. now apply in_map.
Qed.

Lemma orphan_id post_id c : Comment.id (orphan post_id c) = Comment.id c.
Proof.
  unfold orphan. destruct (Comment.post_id c) as [k|]; [|reflexivity].
  now destruct (k =? post_id).
Qed.

Lemma orphan_author post_id c :
  Comment.author_id (orphan post_id c) = Comment.author_id c.
Proof.
  unfold orphan. destruct (Comment.post_id c) as [k|]; [|reflexivity].
  now destruct (k =? post_id).
Qed.

Lemma orphan_post post_id c k :
  Comment.post_id (orphan post_id c) = Some k ->
  Comment.post_id c = Some k /\ k <> post_id.
Proof.
  unfold orphan. destruct (Comment.post_id c) as [j|] eqn:E;
    [|now rewrite E].
  destruct (j =? post_id) eqn:X; simpl; [discriminate|].
  rewrite E. intros H. inversion H; subst. split; [reflexivity|].
  now apply Z.eqb_neq.
Qed.

Lemma session_user_in w u :
  session_user w = LoggedIn u -> In u (users (db w)).
Proof.
  unfold session_user. destruct (session_user_id w) as [k|]; [|discriminate].
  destruct (get User.id (users (db w)) k) as [u'|] eqn:G; [|discriminate].
  intros E. inversion E; subst. now apply get_some_id in G.
Qed.

(** The constraints of the schema survive every effect. *)
Lemma effect_keeps_constraints w d' s' :
  Effect w d' s' -> constraints (db w) -> constraints d'.
Proof.
  intros E [Nu Np Nc Ne Nt].
  destruct E as [D _|u Hid Fresh D _|u _ D _|D _|u c _ Hid _ _ D _
                 |p _ Hid Fresh _ D _|old new _ I Eid _ _ Clash D _
                 |l _ D _|post_id l _ _ D _]; subst d'.
  - now constructor.
  - constructor; simpl; try assumption.
    + rewrite map_app. apply NoDup_snoc; [exact Nu|].
      simpl. rewrite Hid. apply next_id_fresh.
    + rewrite map_app. apply NoDup_snoc; [exact Ne|].
      intros X. apply in_map_iff in X as [x [Ex Ix]].
      now apply (Fresh x Ix).
  - now constructor.
  - now constructor.
  - constructor; simpl; try assumption.
    rewrite map_app. apply NoDup_snoc; [exact Nc|].
    simpl. rewrite Hid. apply next_id_fresh.
  - constructor; simpl; try assumption.
    + rewrite map_app. apply NoDup_snoc; [exact Np|].
      simpl. rewrite Hid. apply next_id_fresh.
    + rewrite map_app. apply NoDup_snoc; [exact Nt|].
      intros X. apply in_map_iff in X as [x [Ex Ix]].
      now apply (Fresh x Ix).
  - constructor; simpl; try assumption.
    + now rewrite map_id_replace_post.
    + apply titles_replace_post; try assumption.
      intros x Ix N. apply Clash; [exact Ix|congruence].
  - constructor; simpl; try assumption.
    now apply NoDup_map_filter.
  - constructor; simpl; try assumption.
    + now apply NoDup_map_filter.
    + rewrite map_map.
      rewrite (map_ext _ Comment.id (fun c => orphan_id post_id c)).
      now apply NoDup_map_filter.
    + now apply NoDup_map_filter.
Qed.

(** So do the references of the foreign keys. *)
Lemma effect_keeps_references w d' s' :
  Effect w d' s' -> references (db w) -> references d'.
Proof.
  intros E [Rp Ra Rb].
  destruct E as [D _|u Hid Fresh D _|u _ D _|D _|u c Hu Hid Ha Hp D _
                 |p A Hid Fresh Ha D _|old new _ I Eid Ea _ Clash D _
                 |l _ D _|post_id l _ _ D _]; subst d'.
  - now constructor.
  - constructor; simpl.
    + exact Rp.
    + intros c I. destruct (Ra c I) as [x [Ix Ex]]. exists x.
      split; [apply in_or_app; now left|exact Ex].
    + intros p I. destruct (Rb p I) as [x [Ix Ex]]. exists x.
      split; [apply in_or_app; now left|exact Ex].
  - now constructor.
  - now constructor.
  - constructor; simpl.
    + intros x k Ix Ek. apply in_app_or in Ix as [Ix|[<-|[]]].
      * now apply (Rp x k).
      * now apply Hp.
    + intros x Ix. apply in_app_or in Ix as [Ix|[<-|[]]].
      * now apply Ra.
      * exists u. split; [now apply session_user_in|now symmetry].
    + exact Rb.
  - destruct (is_admin_session w A) as (u & _ & Hu1 & Iu).
    constructor; simpl.
    + intros x k Ix Ek. destruct (Rp x k Ix Ek) as [q [Iq Eq]].
      exists q. split; [apply in_or_app; now left|exact Eq].
    + exact Ra.
    + intros x Ix. apply in_app_or in Ix as [Ix|[<-|[]]].
      * now apply Rb.
      * exists u. split; [exact Iu|congruence].
  - constructor; simpl.
    + intros x k Ix Ek. destruct (Rp x k Ix Ek) as [q [Iq Eq]].
      destruct (Z.eq_dec (BlogPost.id q) (BlogPost.id new)) as [Y|N].
      * exists new. split; [|congruence].
        unfold replace_post. apply in_map_iff. exists q.
        split; [|exact Iq]. apply Z.eqb_eq in Y. now rewrite Y.
      * exists q. split; [|exact Eq]. now apply replace_post_other.
    + exact Ra.
    + intros x Ix. apply in_replace_post in Ix as [->|[Ix _]].
      * destruct (Rb old I) as [y [Iy Ey]]. exists y.
        split; [exact Iy|congruence].
      * now apply Rb.
  - constructor; simpl.
    + intros x k Ix Ek. apply filter_In in Ix as [Ix _].
      now apply (Rp x k).
    + intros x Ix. apply filter_In in Ix as [Ix _]. now apply Ra.
    + exact Rb.
  - constructor; simpl.
    + intros x k Ix Ek. apply in_map_iff in Ix as [y [Ey Iy]]. subst x.
      apply filter_In in Iy as [Iy _].
      apply orphan_post in Ek as [Ek N].
      destruct (Rp y k Iy Ek) as [q [Iq Eq]]. exists q.
      split; [|exact Eq]. apply filter_In. split; [exact Iq|].
      apply negb_true_iff, Z.eqb_neq. congruence.
    + intros x Ix. apply in_map_iff in Ix as [y [Ey Iy]]. subst x.
      apply filter_In in Iy as [Iy _]. rewrite orphan_author.
      now apply Ra.
    + intros x Ix. apply filter_In in Ix as [Ix _]. now apply Rb.
Qed.

(** Only the admin's requests change the posts. *)
Lemma effect_posts w d' s' :
  Effect w d' s' -> is_admin w = false -> blog_posts d' = blog_posts (db w).
Proof.
  intros E A.
  destruct E as [D _|u _ _ D _|u _ D _|D _|u c _ _ _ _ D _
                 |p A' _ _ _ D _|old new A' _ _ _ _ _ D _
                 |l _ D _|post_id l A' _ D _]; subst d';
    try reflexivity; congruence.
Qed.

(** An anonymous visitor can do nothing to the database but sign up. *)
Lemma effect_anonymous w d' s' :
  Effect w d' s' -> session_user w = AnonymousUser ->
  blog_posts d' = blog_posts (db w)
  /\ comments d' = comments (db w)
  /\ (users d' = users (db w)
      \/ exists u, users d' = (users (db w) ++ [u])%list
                   /\ s' = Some (User.id u)).
Proof.
  intros E S.
  assert (is_admin w = false) as NA by (unfold is_admin; now rewrite S).
  assert (is_authenticated (session_user w) = false) as NL
      by now rewrite S.
  destruct E as [D _|u _ _ D Es|u _ D _|D _|u c Hu _ _ _ D _
                 |p A' _ _ _ D _|old new A' _ _ _ _ _ D _
                 |l L D _|post_id l A' _ D _]; subst d';
    try congruence; try tauto.
  simpl. split; [reflexivity|]. split; [reflexivity|]. right. now exists u.
Qed.

(** No request removes or rewrites a user: the table only grows, by one
    row at most. *)
Lemma effect_users w d' s' :
  Effect w d' s' ->
  users d' = users (db w)
  \/ exists u, users d' = (users (db w) ++ [u])%list.
Proof.
  intros E.
  destruct E as [D _|u _ _ D Es|u _ D _|D _|u c Hu _ _ _ D _
                 |p A' _ _ _ D _|old new A' _ _ _ _ _ D _
                 |l L D _|post_id l A' _ D _]; subst d';
    try (left; reflexivity).
  right. now exists u.
Qed.

(* ================================================================== *)
(** * Every route, every request *)
(* ================================================================== *)

(** X21.  The constraints of the schema are invariants of the
    application: if primary keys, emails and titles are unique before a
    request, whatever the route and the request, they are unique after
    it. *)
Theorem every_route_keeps_the_constraints :
  forall (url_ok : string -> bool)
         (generate_password_hash : string -> string -> string)
         (check_password_hash : string -> string -> bool)
         (r : Route) (req : Request) (w : World),
    constraints (db w) ->
    constraints
      (db (fst (dispatch url_ok generate_password_hash check_password_hash
                         r req w))).
Proof.
  intros url_ok gen chk r req w.
  apply effect_keeps_constraints with
    (s' := session_user_id (fst (dispatch url_ok gen chk r req w))).
  apply dispatch_effect.
Qed.

(** X22.  The foreign keys never dangle: if every comment that names a
    post names a stored one and every author of a comment or post is a
    stored user before a request, the same holds after it, whatever the
    route and the request.  In particular [delete_post] leaves no comment
    pointing at the deleted post. *)
Theorem every_route_keeps_the_references :
  forall (url_ok : string -> bool)
         (generate_password_hash : string -> string -> string)
         (check_password_hash : string -> string -> bool)
         (r : Route) (req : Request) (w : World),
    references (db w) ->
    references
      (db (fst (dispatch url_ok generate_password_hash check_password_hash
                         r req w))).
Proof.
  intros url_ok gen chk r req w.
  apply effect_keeps_references with
    (s' := session_user_id (fst (dispatch url_ok gen chk r req w))).
  apply dispatch_effect.
Qed.

(** X23.  Only the admin changes the posts: a request of a session whose
    user is not the authenticated user of id 1 leaves the table of posts
    as it was, whatever the route and the request. *)
Theorem only_the_admin_changes_posts :
  forall (url_ok : string -> bool)
         (generate_password_hash : string -> string -> string)
         (check_password_hash : string -> string -> bool)
         (r : Route) (req : Request) (w : World),
    is_admin w = false ->
    blog_posts
      (db (fst (dispatch url_ok generate_password_hash check_password_hash
                         r req w)))
    = blog_posts (db w).
Proof.
  intros url_ok gen chk r req w.
  apply effect_posts with
    (s' := session_user_id (fst (dispatch url_ok gen chk r req w))).
  apply dispatch_effect.
Qed.

(** X24.  An anonymous visitor writes nothing but an account: whatever
    the route and the request, a request of an unauthenticated session
    leaves posts and comments as they were, and the users too unless it
    appends one user, whom the session is then logged in as. *)
Theorem anonymous_can_only_sign_up :
  forall (url_ok : string -> bool)
         (generate_password_hash : string -> string -> string)
         (check_password_hash : string -> string -> bool)
         (r : Route) (req : Request) (w : World),
    session_user w = AnonymousUser ->
    let w' := fst (dispatch url_ok generate_password_hash
                            check_password_hash r req w) in
    blog_posts (db w') = blog_posts (db w)
    /\ comments (db w') = comments (db w)
    /\ (users (db w') = users (db w)
        \/ exists u, users (db w') = (users (db w) ++ [u])%list
                     /\ session_user_id w' = Some (User.id u)).
Proof.
  intros url_ok gen chk r req w S w'.
  apply effect_anonymous; [apply dispatch_effect|exact S].
Qed.

(** X25.  No route removes or rewrites a user: after any request the table
    of users is the old one, or the old one with one row appended. *)
Theorem users_are_never_removed :
  forall (url_ok : string -> bool)
         (generate_password_hash : string -> string -> string)
         (check_password_hash : string -> string -> bool)
         (r : Route) (req : Request) (w : World),
    let w' := fst (dispatch url_ok generate_password_hash
                            check_password_hash r req w) in
    users (db w') = users (db w)
    \/ exists u, users (db w') = (users (db w) ++ [u])%list.
Proof.
  intros url_ok gen chk r req w w'.
  apply effect_users with (s' := session_user_id w').
  apply dispatch_effect.
Qed.

(* ================================================================== *)
(** * The further statements at sample inputs *)
(* ================================================================== *)

Lemma sample_email_fresh email :
  email <> "a@x.com" -> email <> "b@x.com" -> email <> "c@x.com" ->
  forall x, In x (users (db (Sample.world None))) -> User.email x <> email.
Proof.
  intros A B C x [<-|[<-|[<-|[]]]]; simpl; congruence.
Qed.

Lemma sample_emails_unique :
  NoDup (map User.email (users Sample.database)).
Proof. simpl. repeat constructor; simpl; intuition discriminate. Qed.

Lemma sample_constraints : constraints Sample.database.
Proof.
  constructor; simpl; repeat constructor; simpl; intuition discriminate.
Qed.

Lemma sample_references : references Sample.database.
Proof.
  constructor; simpl.
  - intros c k [<-|[<-|[<-|[]]]] E; inversion E; subst;
      [exists Sample.post1|exists Sample.post2|exists Sample.post1];
      simpl; tauto.
  - intros c [<-|[<-|[<-|[]]]];
      [exists Sample.bob|exists Sample.bob|exists Sample.carol];
      simpl; tauto.
  - intros p [<-|[<-|[]]]; exists Sample.alice; simpl; tauto.
Qed.

(** X1 at a sample input: Dave signs up and is logged in with id 4. *)
Lemma register_new_user_witness :
  method Demo.register_dave = POST
  /\ Py.blank "dave" = false
  /\ handle (register Sample.toy_hash) Demo.register_dave (Sample.world None)
     = (mk_world
          (mk_db [Sample.alice; Sample.bob; Sample.carol; Demo.dave]
                 [Sample.post1; Sample.post2]
                 [Sample.comment1; Sample.comment2; Sample.comment3])
          (Some 4) []
          [mk_db [Sample.alice; Sample.bob; Sample.carol; Demo.dave]
                 [Sample.post1; Sample.post2]
                 [Sample.comment1; Sample.comment2; Sample.comment3]],
        redirect (url_get_all_posts None)).
Proof.
  split; [reflexivity|]. split; [reflexivity|].
  pose proof (register_new_user
                Sample.toy_hash Demo.register_dave (Sample.world None)
                "dave" "d@x.com" "pw" eq_refl eq_refl eq_refl eq_refl
                eq_refl eq_refl eq_refl eq_refl) as H.
  cbv zeta in H. apply H. apply sample_email_fresh; discriminate.
Defined.

(** X3 at a sample input: Bob logs in. *)
Lemma login_with_the_password_witness :
  In Sample.bob (users (db (Sample.world None)))
  /\ Demo.check_stored (User.password Sample.bob) "b" = true
  /\ handle (login Demo.check_stored) Demo.login_bob (Sample.world None)
     = (Sample.world (Some 2), redirect (url_get_all_posts None)).
Proof.
  split; [simpl; tauto|]. split; [reflexivity|].
  apply (login_with_the_password
           Demo.check_stored Demo.login_bob (Sample.world None)
           Sample.bob "b" eq_refl eq_refl sample_emails_unique);
    try reflexivity.
  simpl. tauto.
Defined.

(** X4 at sample inputs: an unknown email, and a wrong password for
    Bob. *)
Lemma login_rejects_witness :
  handle (login Demo.check_stored) Demo.login_nobody (Sample.world None)
  = (with_flash (Sample.world None)
                "That email doesn't exist. Please try again.",
     redirect url_login)
  /\ Demo.check_stored (User.password Sample.bob) "guess" = false
  /\ handle (login Demo.check_stored) Demo.login_bob_wrong
            (Sample.world None)
     = (with_flash (Sample.world None)
                   "You entered the wrong password. Please try again.",
        redirect url_login).
Proof.
  split; [|split; [reflexivity|]].
  - apply (login_rejects Demo.check_stored Demo.login_nobody
                         (Sample.world None) "n@x.com" "pw"
                         eq_refl eq_refl eq_refl eq_refl eq_refl eq_refl).
    apply sample_email_fresh; discriminate.
  - apply (proj2 (login_rejects Demo.check_stored Demo.login_bob_wrong
                                (Sample.world None) "b@x.com" "guess"
                                eq_refl eq_refl eq_refl eq_refl eq_refl
                                eq_refl)
                 Sample.bob sample_emails_unique);
      [simpl; tauto|reflexivity|reflexivity].
Defined.

(** X6 at a sample input: Dave signs up, logs out and logs in again. *)
Lemma register_logout_login_witness :
  Demo.check_hash (Sample.toy_hash "pw" "salt") "pw" = true
  /\ session_user
       (fst (handle (login Demo.check_hash) Demo.login_dave
               (fst (handle logout (Sample.get_request [])
                       (fst (handle (register Sample.toy_hash)
                                    Demo.register_dave
                                    (Sample.world None)))))))
     = session_user
         (fst (handle (register Sample.toy_hash) Demo.register_dave
                      (Sample.world None))).
Proof.
  split; [reflexivity|].
  pose proof (register_logout_login
                Sample.toy_hash Demo.check_hash Demo.register_dave
                (Sample.get_request []) Demo.login_dave (Sample.world None)
                "dave" "d@x.com" "pw"
                eq_refl eq_refl eq_refl eq_refl eq_refl eq_refl eq_refl
                eq_refl sample_emails_unique
                (sample_email_fresh "d@x.com" ltac:(discriminate)
                                    ltac:(discriminate) ltac:(discriminate))
                eq_refl eq_refl eq_refl eq_refl eq_refl) as H.
  cbv zeta in H. apply H.
Defined.


(** A page argument that begins with the separator U+001F is no integer
    for [int], so page 1 is served. *)
Example get_all_posts_page_not_an_integer :
  requested_page
    (Sample.get_request [("page", String (ascii_of_nat 31) "3")]) = 1
  /\ map BlogPost.id
         (listed (Sample.get_request [("page", String (ascii_of_nat 31) "3")])
                 Sample.twelve_posts)
     = [1; 2; 3; 4; 5].
Proof. split; vm_compute; reflexivity. Qed.

(** X8 at a sample input: the three pages of the twelve posts. *)
Lemma served_pages_partition_the_posts_witness :
  (forall n : nat,
      (1 <= n <= 3)%nat -> requested_page (Scenario.page n) = Z.of_nat n)
  /\ (List.length (blog_posts (db Sample.twelve_posts)) <= 5 * 3)%nat
  /\ map (fun n =>
            map BlogPost.id (listed (Scenario.page n) Sample.twelve_posts))
         (seq 1 3)
     = [[1; 2; 3; 4; 5]; [6; 7; 8; 9; 10]; [11; 12]]
  /\ Permutation
       (List.concat
          (map (fun n => listed (Scenario.page n) Sample.twelve_posts)
               (seq 1 3)))
       (blog_posts (db Sample.twelve_posts)).
Proof.
  assert (forall n : nat,
             (1 <= n <= 3)%nat
             -> requested_page (Scenario.page n) = Z.of_nat n) as P.
  { intros [|[|[|[|n]]]] L; try reflexivity; lia. }
  assert (List.length (blog_posts (db Sample.twelve_posts)) <= 5 * 3)%nat
    as L by (vm_compute; repeat constructor).
  split; [exact P|]. split; [exact L|].
  split; [vm_compute; reflexivity|].
  exact (proj1 (proj2 (served_pages_partition_the_posts
                         Sample.twelve_posts Scenario.page 3 P)) L).
Defined.

(** X9 at a sample input: of the twelve posts the one of 1 November,
    written at 22:00, is the first of page 1, and the one of 12 November,
    written at 11:00, is the last of page 3. *)
Lemma later_hour_is_served_first_witness :
  nth_error (listed (Scenario.page 1) Sample.twelve_posts) 0
  = Some Scenario.oldest_post
  /\ nth_error (listed (Scenario.page 3) Sample.twelve_posts) 1
     = Some Scenario.newest_post
  /\ (requested_page (Scenario.page 1) < requested_page (Scenario.page 3)
      \/ (requested_page (Scenario.page 1) = requested_page (Scenario.page 3)
          /\ (0 < 1)%nat)).
Proof.
  assert (nth_error (listed (Scenario.page 1) Sample.twelve_posts) 0
          = Some Scenario.oldest_post) as Np
      by (vm_compute; reflexivity).
  assert (nth_error (listed (Scenario.page 3) Sample.twelve_posts) 1
          = Some Scenario.newest_post) as Nq
      by (vm_compute; reflexivity).
  split; [exact Np|]. split; [exact Nq|].
  apply (later_hour_is_served_first
           Sample.twelve_posts (Scenario.page 1) (Scenario.page 3)
           Scenario.oldest_post Scenario.newest_post
           (Py.mk_datetime 2026 11 1 22 0) (Py.mk_datetime 2026 11 12 11 0)
           0 1 eq_refl eq_refl);
    [simpl; lia | simpl; lia | exact Np | exact Nq].
Defined.

(** X10 at a sample input: a GET of the page of post 9, which does not
    exist. *)
Lemma show_post_get_reads_only_witness :
  method (Sample.get_request []) <> POST
  /\ handle (show_post 9) (Sample.get_request []) (Sample.world None)
     = (Sample.world None,
        render_template
          (post_html None
                     (mk_form [ ("comment_field", None);
                                ("post_comment", None) ] []))).
Proof.
  split; [discriminate|].
  apply (show_post_get_reads_only
           (Sample.get_request []) (Sample.world None) 9).
  discriminate.
Defined.

(** X11 at a sample input: Bob comments on post 2. *)
Lemma add_comment_stores_the_comment_witness :
  session_user (Sample.world (Some 2)) = LoggedIn Sample.bob
  /\ comments
       (db (fst (handle (show_post 2) Sample.comment_hi
                        (Sample.world (Some 2)))))
     = [ Sample.comment1; Sample.comment2; Sample.comment3;
         Comment.mk 4 (Some 2) 2 "hi" "12:00PM 03 November, 2026" ].
Proof.
  split; [reflexivity|].
  destruct (add_comment_stores_the_comment
              Sample.comment_hi (Sample.world (Some 2)) 2 "hi" Sample.bob
              eq_refl eq_refl eq_refl eq_refl eq_refl) as [f [E _]].
  rewrite E. reflexivity.
Defined.

(** X12 at a sample input: Bob comments on post 9, which does not exist;
    the comment has no parent.  Alice, the administrator, then deletes the
    comments of post 1: comments 1 and 3 go, Bob's comment stays. *)
Lemma comment_on_missing_post_is_kept_witness :
  get BlogPost.id (blog_posts (db (Sample.world (Some 2)))) 9 = None
  /\ comments (db Scenario.bob_commented)
     = [Sample.comment1; Sample.comment2; Sample.comment3; Scenario.orphan]
  /\ is_admin Scenario.alice_logged_in = true
  /\ handle (delete_all_comments 1) (Sample.get_request [])
            Scenario.alice_logged_in
     = (mk_world
          (mk_db [Sample.alice; Sample.bob; Sample.carol]
                 [Sample.post1; Sample.post2]
                 [Sample.comment2; Scenario.orphan])
          (Some 1) []
          [ mk_db [Sample.alice; Sample.bob; Sample.carol]
                  [Sample.post1; Sample.post2]
                  [Sample.comment2; Sample.comment3; Scenario.orphan];
            mk_db [Sample.alice; Sample.bob; Sample.carol]
                  [Sample.post1; Sample.post2]
                  [Sample.comment2; Scenario.orphan] ],
        redirect (url_get_all_posts (Some 1)))
  /\ In Scenario.orphan
        (comments (db (fst (handle (delete_all_comments 1)
                                   (Sample.get_request [])
                                   Scenario.alice_logged_in)))).
Proof.
  split; [reflexivity|].
  pose proof (comment_on_missing_post_is_kept
                Sample.comment_hi (Sample.world (Some 2)) 9 "hi" Sample.bob
                eq_refl eq_refl eq_refl eq_refl eq_refl eq_refl) as H.
  cbv zeta in H. destruct H as (C & K).
  split; [exact C|]. split; [reflexivity|]. split; [reflexivity|].
  exact (K (Some 1) [] [] (Sample.get_request []) 1).
Defined.

(** X13 at a sample input: an anonymous visitor tries to delete
    comment 1. *)
Lemma delete_comment_requires_login_witness :
  is_authenticated (session_user (Sample.world None)) = false
  /\ handle (delete_comment 1 1) (Sample.get_request []) (Sample.world None)
     = (Sample.world None, http_error 401).
Proof.
  split; [reflexivity|].
  now apply delete_comment_requires_login.
Defined.

(** X14 at a sample input: Alice writes a third post and reads it. *)
Lemma add_new_post_round_trip_witness :
  is_admin (Sample.world (Some 1)) = true
  /\ Demo.url_ok "https://example.com/3.png" = true
  /\ blog_posts
       (db (fst (handle (add_new_post Demo.url_ok) Demo.new_post
                        (Sample.world (Some 1)))))
     = [Sample.post1; Sample.post2; Demo.third]
  /\ exists f,
      handle (show_post 3) (Sample.get_request [])
             (fst (handle (add_new_post Demo.url_ok) Demo.new_post
                          (Sample.world (Some 1))))
      = (fst (handle (add_new_post Demo.url_ok) Demo.new_post
                     (Sample.world (Some 1))),
         render_template (post_html (Some Demo.third) f)).
Proof.
  split; [reflexivity|]. split; [reflexivity|].
  pose proof (add_new_post_round_trip
                Demo.url_ok Demo.new_post (Sample.get_request [])
                (Sample.world (Some 1))
                "Third" "three" "https://example.com/3.png" "text"
                eq_refl eq_refl eq_refl eq_refl eq_refl eq_refl eq_refl
                eq_refl eq_refl eq_refl eq_refl eq_refl) as H.
  cbv zeta in H. destruct H as (A & f & S).
  - intros x [<-|[<-|[]]]; discriminate.
  - reflexivity.
  - rewrite A. split; [reflexivity|]. exists f. exact S.
Defined.

(** X15 at a sample input: Alice submits a new post titled as post 1. *)
Lemma add_new_post_duplicate_title_witness :
  In Sample.post1 (blog_posts (db (Sample.world (Some 1))))
  /\ BlogPost.title Sample.post1 = "First"
  /\ handle (add_new_post Demo.url_ok) Demo.new_post_first
            (Sample.world (Some 1))
     = (Sample.world (Some 1), server_fault IntegrityError).
Proof.
  split; [simpl; tauto|]. split; [reflexivity|].
  apply (add_new_post_duplicate_title
           Demo.url_ok Demo.new_post_first (Sample.world (Some 1))
           Sample.post1 "First" "three" "https://example.com/3.png" "text");
    try reflexivity.
  simpl. tauto.
Defined.

(** X17 at a sample input: Alice opens the edit form of post 2. *)
Lemma edit_post_get_prefills_witness :
  get BlogPost.id (blog_posts (db (Sample.world (Some 1)))) 2
  = Some Sample.post2
  /\ handle (edit_post Demo.url_ok 2) (Sample.get_request [])
            (Sample.world (Some 1))
     = (Sample.world (Some 1),
        render_template
          (make_post_html
             (mk_form [ ("title", Some "Second"); ("subtitle", Some "two");
                        ("img_url", Some "https://example.com/2.png");
                        ("body", Some "..."); ("submit_post", None) ] []))).
Proof.
  split; [reflexivity|].
  apply (edit_post_get_prefills
           Demo.url_ok (Sample.get_request []) (Sample.world (Some 1)) 2
           Sample.post2 eq_refl eq_refl).
  discriminate.
Defined.

(** X18 at a sample input: Alice revises post 2. *)
Lemma edit_post_updates_the_post_witness :
  is_admin (Sample.world (Some 1)) = true
  /\ handle (edit_post Demo.url_ok 2) Demo.edit_second
            (Sample.world (Some 1))
     = (committed (Sample.world (Some 1))
          (mk_db [Sample.alice; Sample.bob; Sample.carol]
                 [Sample.post1; Demo.second_revised]
                 [Sample.comment1; Sample.comment2; Sample.comment3]),
        redirect (url_show_post 2)).
Proof.
  split; [reflexivity|].
  pose proof (edit_post_updates_the_post
                Demo.url_ok Demo.edit_second (Sample.world (Some 1)) 2
                Sample.post2 "Second, revised" "two"
                "https://example.com/2.png" "more"
                eq_refl eq_refl eq_refl eq_refl eq_refl eq_refl eq_refl
                eq_refl eq_refl eq_refl eq_refl eq_refl eq_refl) as H.
  cbv zeta in H. apply H.
  intros x [<-|[<-|[]]]; simpl; [discriminate|congruence].
Defined.

(** X19 at a sample input: Alice gives post 2 the title of post 1. *)
Lemma edit_post_duplicate_title_witness :
  In Sample.post1 (blog_posts (db (Sample.world (Some 1))))
  /\ BlogPost.id Sample.post1 <> 2
  /\ handle (edit_post Demo.url_ok 2) Demo.edit_second_first
            (Sample.world (Some 1))
     = (Sample.world (Some 1), server_fault IntegrityError).
Proof.
  split; [simpl; tauto|]. split; [discriminate|].
  apply (edit_post_duplicate_title
           Demo.url_ok Demo.edit_second_first (Sample.world (Some 1)) 2
           Sample.post2 Sample.post1 "First" "two"
           "https://example.com/2.png" "more");
    try reflexivity; [simpl; tauto|discriminate].
Defined.

(** X20 at a sample input: Alice deletes the comments of post 1, twice. *)
Lemma delete_all_comments_twice_witness :
  is_admin (Sample.world (Some 1)) = true
  /\ comments
       (db (fst (handle (delete_all_comments 1) (Sample.get_request [])
                        (Sample.world (Some 1)))))
     = [Sample.comment2]
  /\ handle (delete_all_comments 1) (Sample.get_request [])
            (fst (handle (delete_all_comments 1) (Sample.get_request [])
                         (Sample.world (Some 1))))
     = (fst (handle (delete_all_comments 1) (Sample.get_request [])
                    (Sample.world (Some 1))),
        redirect (url_get_all_posts (Some 1))).
Proof.
  split; [reflexivity|]. split; [reflexivity|].
  pose proof (delete_all_comments_twice
                (Sample.get_request []) (Sample.get_request [])
                (Sample.world (Some 1)) 1 eq_refl) as H.
  cbv zeta in H. apply H.
Defined.

(** X21 and X22 at a sample input: Alice deletes post 1. *)
Lemma every_route_keeps_the_constraints_witness :
  constraints (db (Sample.world (Some 1)))
  /\ constraints
       (db (fst (dispatch Demo.url_ok Sample.toy_hash Demo.check_stored
                          (route_delete_post 1) (Sample.get_request [])
                          (Sample.world (Some 1))))).
Proof.
  split; [exact sample_constraints|].
  apply every_route_keeps_the_constraints. exact sample_constraints.
Defined.

Lemma every_route_keeps_the_references_witness :
  references (db (Sample.world (Some 1)))
  /\ references
       (db (fst (dispatch Demo.url_ok Sample.toy_hash Demo.check_stored
                          (route_delete_post 1) (Sample.get_request [])
                          (Sample.world (Some 1))))).
Proof.
  split; [exact sample_references|].
  apply every_route_keeps_the_references. exact sample_references.
Defined.

(** X23 at a sample input: Bob requests the deletion of post 1. *)
Lemma only_the_admin_changes_posts_witness :
  is_admin (Sample.world (Some 2)) = false
  /\ blog_posts
       (db (fst (dispatch Demo.url_ok Sample.toy_hash Demo.check_stored
                          (route_delete_post 1) (Sample.get_request [])
                          (Sample.world (Some 2)))))
     = [Sample.post1; Sample.post2].
Proof.
  split; [reflexivity|].
  now apply (only_the_admin_changes_posts
               Demo.url_ok Sample.toy_hash Demo.check_stored
               (route_delete_post 1) (Sample.get_request [])
               (Sample.world (Some 2))).
Defined.

(** X24 at a sample input: an anonymous visitor requests the deletion of
    comment 1. *)
Lemma anonymous_can_only_sign_up_witness :
  session_user (Sample.world None) = AnonymousUser
  /\ comments
       (db (fst (dispatch Demo.url_ok Sample.toy_hash Demo.check_stored
                          (route_delete_comment 1 1) (Sample.get_request [])
                          (Sample.world None))))
     = [Sample.comment1; Sample.comment2; Sample.comment3].
Proof.
  split; [reflexivity|].
  now apply (anonymous_can_only_sign_up
               Demo.url_ok Sample.toy_hash Demo.check_stored
               (route_delete_comment 1 1) (Sample.get_request [])
               (Sample.world None)).
Defined.
